(** * MoneyCast: a shallow embedding of [moneycast.py]

    The forecasting engine ([forecast]), the budget item model
    ([BudgetItem]), the calendar helpers ([add_weeks], [add_months]), the
    record decoder ([BudgetItemDecoder.decode]) and encoder
    ([BudgetItemEncoder.default]) and the example run ([run_example]) are
    embedded as executable functions and their properties proved.

    - Python exceptions are values of [exn]; a function that can raise
      returns a [result].
    - [datetime.date] is the record [date] with the arithmetic of the
      standard library, bounded by years 1 and 9999.
    - Floats are binary64 ([spec_float] with precision 53); the running
      balance is a float, as the command line passes it, and an amount is any
      Python value that can be added to one.
    - The budget is a list of distinct item objects, as [run_example] and the
      decoder build it.  Mutation in place is explicit state passing:
      [forecast] returns the items as they are after the call.
    - Of [forecast], lines 183-245 are embedded: the window, the
      normalization of overdue dates and the day-by-day walk.  The rest of the
      function prints and plots what these lines computed.
    - [decode] starts from the list of records that [json.loads] returned,
      and [BudgetItemEncoder.default] ends with the record it returns to
      [json.dumps]: the JSON text in between is not modelled.
    - [run_example] takes the day [date.today()] returns as an argument. *)

From Stdlib Require Import ZArith Lia Bool SpecFloat.
From stdpp Require Import base option list gmap strings fin_maps.

Local Open Scope Z_scope.

(** ** Exceptions and results *)

(** The text of a [ValueError] as far as the callers can tell them apart. *)
Inductive value_error :=
  | MissingField (field : string)   (* 'missing field "<field>" while trying to parse ...' *)
  | NotADateRecord                  (* 'due_date is not of type: "day", 1, ...' *)
  | NotADayOfWeek                   (* 'due_date is not of type DayOfWeek' *)
  | DateOutOfRange                  (* raised by [date(year, month, day)] *)
  | NotAValidMember.                (* '<n> is not a valid DayOfWeek' *)

Inductive exn :=
  | ValueError (why : value_error)
  | KeyError
  | TypeError
  | IndexError
  | OverflowError
  | AttributeError.

(** [Diverged] is the outcome of a loop that was cut off; the theorems
    [advance_until_terminates] and [forecast_never_diverges] show that it
    is never produced on calendar dates. *)
Inductive result (A : Type) :=
  | Ok (a : A)
  | Raise (e : exn)
  | Diverged.
Arguments Ok {A} a.
Arguments Raise {A} e.
Arguments Diverged {A}.

#[global] Instance result_ret : MRet result := λ A a, Ok a.
#[global] Instance result_bind : MBind result := λ A B k r,
  match r with
  | Ok a => k a
  | Raise e => Raise e
  | Diverged => Diverged
  end.

Fixpoint mapM {A B} (f : A → result B) (l : list A) : result (list B) :=
  match l with
  | [] => Ok []
  | x :: l' => y ← f x; ys ← mapM f l'; Ok (y :: ys)
  end.

Fixpoint foldM {A S} (f : S → A → result S) (s : S) (l : list A) : result S :=
  match l with
  | [] => Ok s
  | x :: l' => s' ← f s x; foldM f s' l'
  end.

(** ** The proleptic Gregorian calendar of [datetime.date]

    [date] is the standard library's class; its arithmetic is transcribed from
    the reference implementation ([_ymd2ord], [_ord2ymd] and friends). *)

Definition MINYEAR : Z := 1.
Definition MAXYEAR : Z := 9999.
Definition MAXORDINAL : Z := 3652059.   (* date(9999, 12, 31).toordinal() *)

Definition is_leap (year : Z) : bool :=
  (year mod 4 =? 0) && (negb (year mod 100 =? 0) || (year mod 400 =? 0)).

Definition DAYS_IN_MONTH (month : Z) : Z :=
  match month with
  | 1 => 31 | 2 => 28 | 3 => 31 | 4 => 30 | 5 => 31 | 6 => 30
  | 7 => 31 | 8 => 31 | 9 => 30 | 10 => 31 | 11 => 30 | 12 => 31
  | _ => -1
  end.

Definition DAYS_BEFORE_MONTH (month : Z) : Z :=
  match month with
  | 1 => 0 | 2 => 31 | 3 => 59 | 4 => 90 | 5 => 120 | 6 => 151
  | 7 => 181 | 8 => 212 | 9 => 243 | 10 => 273 | 11 => 304 | 12 => 334
  | _ => -1
  end.

Definition days_before_year (year : Z) : Z :=
  let y := year - 1 in
  y * 365 + y / 4 - y / 100 + y / 400.

Definition days_in_month (year month : Z) : Z :=
  if (month =? 2) && is_leap year then 29 else DAYS_IN_MONTH month.

Definition days_before_month (year month : Z) : Z :=
  DAYS_BEFORE_MONTH month + (if (2 <? month) && is_leap year then 1 else 0).

Definition ymd2ord (year month day : Z) : Z :=
  days_before_year year + days_before_month year month + day.

Definition DI400Y : Z := 146097.
Definition DI100Y : Z := 36524.
Definition DI4Y : Z := 1461.

Definition ord2ymd (n : Z) : Z * Z * Z :=
  let n := n - 1 in
  let n400 := n / DI400Y in
  let n := n mod DI400Y in
  let year := n400 * 400 + 1 in
  let n100 := n / DI100Y in
  let n := n mod DI100Y in
  let n4 := n / DI4Y in
  let n := n mod DI4Y in
  let n1 := n / 365 in
  let n := n mod 365 in
  let year := year + n100 * 100 + n4 * 4 + n1 in
  if (n1 =? 4) || (n100 =? 4) then (year - 1, 12, 31)
  else
    let leapyear := (n1 =? 3) && (negb (n4 =? 24) || (n100 =? 3)) in
    let month := Z.shiftr (n + 50) 5 in
    let preceding :=
      DAYS_BEFORE_MONTH month + (if (2 <? month) && leapyear then 1 else 0) in
    if n <? preceding then
      let month := month - 1 in
      let preceding :=
        preceding - (DAYS_IN_MONTH month
                     + (if (month =? 2) && leapyear then 1 else 0)) in
      (year, month, n - preceding + 1)
    else (year, month, n - preceding + 1).

(** The month and day of the [n]-th day (from 0) of a year, as [_ord2ymd]
    finds them. *)
Definition month_day (leapyear : bool) (n : Z) : Z * Z :=
  let month := Z.shiftr (n + 50) 5 in
  let preceding :=
    DAYS_BEFORE_MONTH month + (if (2 <? month) && leapyear then 1 else 0) in
  if n <? preceding then
    let month := month - 1 in
    let preceding :=
      preceding - (DAYS_IN_MONTH month
                   + (if (month =? 2) && leapyear then 1 else 0)) in
    (month, n - preceding + 1)
  else (month, n - preceding + 1).

Definition month_day_okb (leapyear : bool) (n : Z) : bool :=
  let '(m, d) := month_day leapyear n in
  (1 <=? m) && (m <=? 12) && (1 <=? d)
  && (d <=? (if (m =? 2) && leapyear then 29 else DAYS_IN_MONTH m))
  && (DAYS_BEFORE_MONTH m + (if (2 <? m) && leapyear then 1 else 0) + d =? n + 1).

(** A [date] object: the three fields the class stores. *)
Record date := mkdate { year : Z; month : Z; day : Z }.

#[global] Instance date_eq_dec : EqDecision date.
Proof. solve_decision. Defined.

(** The invariant of every [date] object ([_check_date_fields]). *)
Definition valid_date (d : date) : Prop :=
  MINYEAR ≤ year d ≤ MAXYEAR ∧ 1 ≤ month d ≤ 12 ∧
  1 ≤ day d ≤ days_in_month (year d) (month d).

Definition valid_dateb (d : date) : bool :=
  (MINYEAR <=? year d) && (year d <=? MAXYEAR) &&
  (1 <=? month d) && (month d <=? 12) &&
  (1 <=? day d) && (day d <=? days_in_month (year d) (month d)).

(** [date(year, month, day)] *)
Definition date_new (y m d : Z) : result date :=
  if valid_dateb (mkdate y m d) then Ok (mkdate y m d)
  else Raise (ValueError DateOutOfRange).

(** An integer argument of [date(...)] has to fit a C [int]: one that does
    not is an [OverflowError], before any range is looked at. *)
Definition c_int (n : Z) : result Z :=
  if (- 2 ^ 31 <=? n) && (n <? 2 ^ 31) then Ok n else Raise OverflowError.

(** [date(year, month, day)] on Python integers: the arguments are converted
    in this order, then checked. *)
Definition date_of_ints (y m d : Z) : result date :=
  y ← c_int y; m ← c_int m; d ← c_int d; date_new y m d.

Definition toordinal (d : date) : Z := ymd2ord (year d) (month d) (day d).

Definition fromordinal (n : Z) : date :=
  let '(y, m, d) := ord2ymd n in mkdate y m d.

(** [d + timedelta(days=n)]: out of [date.min .. date.max] is an
    [OverflowError] (as is a [timedelta] of more than 999999999 days, which
    always leaves that range). *)
Definition date_add_days (d : date) (n : Z) : result date :=
  let o := toordinal d + n in
  if (0 <? o) && (o <=? MAXORDINAL) then Ok (fromordinal o)
  else Raise OverflowError.

(** [d1 < d2] compares [(year, month, day)] lexicographically. *)
Definition date_ltb (d1 d2 : date) : bool :=
  (year d1 <? year d2)
  || ((year d1 =? year d2)
      && ((month d1 <? month d2)
          || ((month d1 =? month d2) && (day d1 <? day d2)))).

Definition date_lt (d1 d2 : date) : Prop := date_ltb d1 d2 = true.
Definition date_le (d1 d2 : date) : Prop := date_ltb d2 d1 = false.

(** [d.isoweekday()]: Monday is 1, Sunday is 7. *)
Definition isoweekday (d : date) : Z :=
  let r := toordinal d mod 7 in if r =? 0 then 7 else r.

(** [calendar.monthrange(year, month)]: weekday (Monday is 0) of the first day
    of the month, and the number of days in the month.  A year outside
    [MINYEAR .. MAXYEAR] is mapped to [2000 + year % 400] for the weekday. *)
Definition calendar_monthrange (y m : Z) : result (Z * Z) :=
  if (1 <=? m) && (m <=? 12) then
    let y' := if (MINYEAR <=? y) && (y <=? MAXYEAR) then y else 2000 + y mod 400 in
    Ok ((ymd2ord y' m 1 + 6) mod 7, days_in_month y m)
  else Raise (ValueError DateOutOfRange).

(** ** Recurrence calendar math (moneycast.py, lines 48-58) *)

Definition add_weeks (sourcedate : date) (weeks : Z) : result date :=
  date_add_days sourcedate (7 * weeks).

Definition add_months (sourcedate : date) (months : Z) : result date :=
  let month0 := month sourcedate - 1 + months in
  let year := year sourcedate + month0 / 12 in
  let month := month0 mod 12 + 1 in
  mr ← calendar_monthrange year month;
  let day := Z.min (day sourcedate) (snd mr) in
  date_of_ints year month day.

(** ** Enumerations (moneycast.py, lines 14-45) *)

Inductive CycleEnum :=
  DAILY | WEEKLY | BIWEEKLY | MONTHLY | BIMONTHLY | QUARTERLY | YEARLY.

Inductive DueDateType := WeekDay | DateNumber | Date | Daily.

Inductive DayOfWeek :=
  Monday | Tuesday | Wednesday | Thursday | Friday | Saturday | Sunday.

#[global] Instance CycleEnum_eq_dec : EqDecision CycleEnum.
Proof. solve_decision. Defined.
#[global] Instance DueDateType_eq_dec : EqDecision DueDateType.
Proof. solve_decision. Defined.
#[global] Instance DayOfWeek_eq_dec : EqDecision DayOfWeek.
Proof. solve_decision. Defined.

(** [DayOfWeek(n)]: the member whose value is [n]; the engine only calls it on
    [isoweekday], which is within 1..7. *)
Definition DayOfWeek_of_value (n : Z) : result DayOfWeek :=
  match n with
  | 1 => Ok Monday | 2 => Ok Tuesday | 3 => Ok Wednesday | 4 => Ok Thursday
  | 5 => Ok Friday | 6 => Ok Saturday | 7 => Ok Sunday
  | _ => Raise (ValueError NotAValidMember)
  end.

(** ** Python values

    The values that reach the model: what [json.loads] produces, and the
    [DayOfWeek] members and [date] objects a caller passes as [due_date].
    Floats are binary64 ([prec = 53], [emax = 1024]). *)
#[warnings="-register-all"]
Inductive pyval :=
  | PyNone
  | PyBool (b : bool)
  | PyInt (n : Z)
  | PyFloat (f : spec_float)
  | PyStr (s : string)
  | PyList (l : list pyval)
  | PyDict (m : gmap string pyval)
  | PyDayOfWeek (d : DayOfWeek)
  | PyDate (d : date).

Definition float_add : spec_float → spec_float → spec_float := SFadd 53 1024.

(** The float nearest to an integer (ties to even), infinite when the integer
    is beyond the floats. *)
Definition float_of_Z (n : Z) : spec_float := binary_normalize 53 1024 n 0 false.

(** [float(n)] for an [int]: [OverflowError] when the integer is too large
    for a float. *)
Definition float_of_int (n : Z) : result spec_float :=
  match float_of_Z n with
  | S754_infinity _ => Raise OverflowError
  | f => Ok f
  end.

(** [balance + v] for a float [balance]. *)
Definition balance_add (balance : spec_float) (v : pyval) : result spec_float :=
  match v with
  | PyFloat f => Ok (float_add balance f)
  | PyInt n => f ← float_of_int n; Ok (float_add balance f)
  | PyBool b => f ← float_of_int (Z.b2z b); Ok (float_add balance f)
  | _ => Raise TypeError
  end.

(** ** Budget item model (moneycast.py, lines 61-80)

    [due_date_type] is [None] until one of the [isinstance] tests succeeds;
    [due_date] is [None] here when the attribute was never assigned.  The
    type [N] of names is what the caller passes: strings in the engine, any
    JSON value out of the decoder. *)
Record BudgetItem (N : Type) := mkBudgetItem {
  name : N;
  amount : pyval;
  cycle : CycleEnum;
  due_date_type : option DueDateType;
  due_date : option pyval
}.
Arguments mkBudgetItem {N} _ _ _ _ _.
Arguments name {N} _.
Arguments amount {N} _.
Arguments cycle {N} _.
Arguments due_date_type {N} _.
Arguments due_date {N} _.

Definition set_due_date {N} (item : BudgetItem N) (d : date) : BudgetItem N :=
  mkBudgetItem (name item) (amount item) (cycle item) (due_date_type item)
               (Some (PyDate d)).

(** [BudgetItem.__init__]; [due_date=None] is [PyNone].  There is no [raise]
    in the constructor, its result is always [Ok]. *)
Definition BudgetItem_init {N} (name : N) (amount : pyval) (cycle : CycleEnum)
    (due_date : pyval) : result (BudgetItem N) :=
  match due_date with
  | PyInt _ | PyBool _ =>                       (* isinstance(due_date, int) *)
      Ok (mkBudgetItem name amount cycle (Some DateNumber) (Some due_date))
  | PyDayOfWeek _ =>
      Ok (mkBudgetItem name amount cycle (Some WeekDay) (Some due_date))
  | PyDate _ =>
      Ok (mkBudgetItem name amount cycle (Some Date) (Some due_date))
  | PyNone =>
      Ok (mkBudgetItem name amount cycle (Some Daily) (Some due_date))
  | _ =>
      Ok (mkBudgetItem name amount cycle None None)
  end.

(** ** Serialization adapter: [BudgetItemDecoder.decode] (lines 120-180) *)

(** [CycleEnum[v]], [DueDateType[v]], [DayOfWeek[v]]: lookup of a member by
    name; an unknown key is a [KeyError], an unhashable one a [TypeError]. *)
Definition enum_getitem {E} (members : string → option E) (v : pyval) : result E :=
  match v with
  | PyStr s => match members s with Some e => Ok e | None => Raise KeyError end
  | PyList _ | PyDict _ => Raise TypeError
  | _ => Raise KeyError
  end.

Definition CycleEnum_members (s : string) : option CycleEnum :=
  if String.eqb s "DAILY" then Some DAILY
  else if String.eqb s "WEEKLY" then Some WEEKLY
  else if String.eqb s "BIWEEKLY" then Some BIWEEKLY
  else if String.eqb s "MONTHLY" then Some MONTHLY
  else if String.eqb s "BIMONTHLY" then Some BIMONTHLY
  else if String.eqb s "QUARTERLY" then Some QUARTERLY
  else if String.eqb s "YEARLY" then Some YEARLY
  else None.

Definition DueDateType_members (s : string) : option DueDateType :=
  if String.eqb s "WeekDay" then Some WeekDay
  else if String.eqb s "DateNumber" then Some DateNumber
  else if String.eqb s "Date" then Some Date
  else if String.eqb s "Daily" then Some Daily
  else None.

Definition DayOfWeek_members (s : string) : option DayOfWeek :=
  if String.eqb s "Monday" then Some Monday
  else if String.eqb s "Tuesday" then Some Tuesday
  else if String.eqb s "Wednesday" then Some Wednesday
  else if String.eqb s "Thursday" then Some Thursday
  else if String.eqb s "Friday" then Some Friday
  else if String.eqb s "Saturday" then Some Saturday
  else if String.eqb s "Sunday" then Some Sunday
  else None.

(** [item[key]] on a record. *)
Definition getitem (item : gmap string pyval) (key : string) : result pyval :=
  match item !! key with
  | Some v => Ok v
  | None => Raise KeyError
  end.

(** The loops [for field in fields: if field not in item: raise ValueError]. *)
Fixpoint require_fields (fields : list string) (item : gmap string pyval)
    : result unit :=
  match fields with
  | [] => Ok tt
  | field :: rest =>
      match item !! field with
      | None => Raise (ValueError (MissingField field))
      | Some _ => require_fields rest item
      end
  end.

Definition required_main_fields : list string :=
  ["name"; "amount"; "cycle"; "due_date_type"]%string.
Definition required_date_fields : list string :=
  ["day"; "month"; "year"]%string.

(** An argument of [date(...)]: an [int] that fits a C [int]. *)
Definition as_c_int (v : pyval) : result Z :=
  match v with
  | PyInt n =>
      if (- 2 ^ 31 <=? n) && (n <? 2 ^ 31) then Ok n else Raise OverflowError
  | PyBool b => Ok (Z.b2z b)
  | _ => Raise TypeError
  end.

(** [date] called with the entries of a dict as keyword arguments, for a dict
    that has the keys [day], [month], [year]: any further key is an unexpected
    keyword argument. *)
Definition date_of_kwargs (kwargs : gmap string pyval) : result date :=
  if decide (size kwargs = 3%nat) then
    vy ← getitem kwargs "year"; y ← as_c_int vy;
    vm ← getitem kwargs "month"; m ← as_c_int vm;
    vd ← getitem kwargs "day"; d ← as_c_int vd;
    date_new y m d
  else Raise TypeError.

(** [if 'due_date' not in item: raise ValueError(...)], then [item['due_date']] *)
Definition require_due_date (item : gmap string pyval) : result pyval :=
  match item !! "due_date" with
  | None => Raise (ValueError (MissingField "due_date"))
  | Some payload => Ok payload
  end.

Definition decode_item (item : gmap string pyval) : result (BudgetItem pyval) :=
  _ ← require_fields required_main_fields item;
  name ← getitem item "name";
  amount ← getitem item "amount";
  vcycle ← getitem item "cycle";
  cycle ← enum_getitem CycleEnum_members vcycle;
  vtype ← getitem item "due_date_type";
  due_date_type ← enum_getitem DueDateType_members vtype;
  match due_date_type with
  | Daily => BudgetItem_init name amount cycle PyNone
  | Date =>
      payload ← require_due_date item;
      match payload with                  (* type(item['due_date']) is dict *)
      | PyDict fields =>
          _ ← require_fields required_date_fields fields;
          d ← date_of_kwargs fields;
          BudgetItem_init name amount cycle (PyDate d)
      | _ => Raise (ValueError NotADateRecord)
      end
  | DateNumber =>
      payload ← require_due_date item;
      BudgetItem_init name amount cycle payload
  | WeekDay =>
      payload ← require_due_date item;
      match enum_getitem DayOfWeek_members payload with
      | Ok d => BudgetItem_init name amount cycle (PyDayOfWeek d)
      | Raise KeyError => Raise (ValueError NotADayOfWeek)
      | Raise e => Raise e
      | Diverged => Diverged
      end
  end.

(** The [for item in json_obj] loop: the first exception leaves the loop and
    the function, [budget] is returned only after the last record. *)
Definition decode (json_obj : list (gmap string pyval))
    : result (list (BudgetItem pyval)) :=
  mapM decode_item json_obj.

(** ** Forecast engine (moneycast.py, lines 183-245) *)

(** One row of [balance_list]: [[t, '${:,.2f}'.format(daily_balance), trans]];
    the balance is kept as the float that the row renders. *)
Record ForecastEntry := mkEntry {
  entry_date : date;
  entry_balance : spec_float;
  entry_trans : gmap string pyval
}.

(** What the engine has computed when the projection is printed. *)
Record Forecast := mkForecast {
  balance_list : list ForecastEntry;
  daily_balance_list : list spec_float;
  daily_balance : spec_float;
  budget_after : list (BudgetItem string)
}.

(** [date_list[0]] *)
Definition first_day (date_list : list date) : result date :=
  match date_list !! 0%nat with
  | Some d => Ok d
  | None => Raise IndexError
  end.

(** [item.due_date] *)
Definition getattr_due_date {N} (item : BudgetItem N) : result pyval :=
  match due_date item with
  | Some v => Ok v
  | None => Raise AttributeError
  end.

(** [item.due_date < date_list[0]]: both operands are evaluated, then only two
    dates compare. *)
Definition due_date_before_first {N} (item : BudgetItem N) (date_list : list date)
    : result (date * bool) :=
  v ← getattr_due_date item;
  d0 ← first_day date_list;
  match v with
  | PyDate d => Ok (d, date_ltb d d0)
  | _ => Raise TypeError
  end.

(** [while item.due_date < date_list[0]: item.due_date = step(item.due_date)],
    for an item whose [due_date] is the date [d]; at most [fuel] iterations. *)
Fixpoint advance_until (fuel : nat) (step : date → result date)
    (date_list : list date) (d : date) : result date :=
  d0 ← first_day date_list;
  if date_ltb d d0 then
    match fuel with
    | O => Diverged
    | S fuel' => d' ← step d; advance_until fuel' step date_list d'
    end
  else Ok d.

(** The step of the four cycles that move a fixed date, [None] for the
    cycles whose branches are commented out. *)
Definition cycle_step (c : CycleEnum) : option (date → result date) :=
  match c with
  | BIWEEKLY => Some (λ d, add_weeks d 2)
  | BIMONTHLY => Some (λ d, add_months d 2)
  | QUARTERLY => Some (λ d, add_months d 3)
  | YEARLY => Some (λ d, add_months d 12)
  | DAILY | WEEKLY | MONTHLY => None
  end.

(** The number of iterations granted to a loop that starts at [d]: one per
    day between [d] and the first day of the window. *)
Definition loop_fuel (date_list : list date) (d : date) : nat :=
  match date_list !! 0%nat with
  | Some d0 => Z.to_nat (toordinal d0 - toordinal d)
  | None => 0%nat
  end.

(** Lines 193-211, the body of [for item in budget]. *)
Definition normalize_item (date_list : list date) (item : BudgetItem string)
    : result (BudgetItem string) :=
  if decide (due_date_type item = Some Date) then
    '(d, before) ← due_date_before_first item date_list;
    if (before : bool) then
      match cycle item with
      | BIWEEKLY =>
          d' ← advance_until (loop_fuel date_list d) (λ d, add_weeks d 2) date_list d;
          Ok (set_due_date item d')
      | BIMONTHLY =>
          d' ← advance_until (loop_fuel date_list d) (λ d, add_months d 2) date_list d;
          Ok (set_due_date item d')
      | QUARTERLY =>
          d' ← advance_until (loop_fuel date_list d) (λ d, add_months d 3) date_list d;
          Ok (set_due_date item d')
      | YEARLY =>
          d' ← advance_until (loop_fuel date_list d) (λ d, add_months d 12) date_list d;
          Ok (set_due_date item d')
      | DAILY | WEEKLY | MONTHLY => Ok item
      end
    else Ok item
  else Ok item.

(** [daily_balance += item.amount; trans[item.name] = item.amount] *)
Definition apply_item (st : spec_float * gmap string pyval)
    (item : BudgetItem string) : result (spec_float * gmap string pyval) :=
  b ← balance_add st.1 (amount item);
  Ok (b, <[name item := amount item]> st.2).

(** [v == DayOfWeek(...)], [v == t.day] and [v == t] for the stored value. *)
Definition eq_DayOfWeek (v : pyval) (w : DayOfWeek) : bool :=
  match v with PyDayOfWeek d => bool_decide (d = w) | _ => false end.

Definition eq_int (v : pyval) (n : Z) : bool :=
  match v with
  | PyInt m => m =? n
  | PyBool b => Z.b2z b =? n
  | PyFloat f => SFeqb f (float_of_Z n)
  | _ => false
  end.

Definition eq_date (v : pyval) (t : date) : bool :=
  match v with PyDate d => bool_decide (d = t) | _ => false end.

(** Lines 216-242, the body of [for item in budget] on day [t]. *)
Definition day_item (t : date) (st : spec_float * gmap string pyval)
    (item : BudgetItem string)
    : result (spec_float * gmap string pyval * BudgetItem string) :=
  match due_date_type item with
  | Some WeekDay =>
      v ← getattr_due_date item;
      w ← DayOfWeek_of_value (isoweekday t);
      if eq_DayOfWeek v w then st' ← apply_item st item; Ok (st', item)
      else Ok (st, item)
  | Some DateNumber =>
      v ← getattr_due_date item;
      if eq_int v (day t) then st' ← apply_item st item; Ok (st', item)
      else Ok (st, item)
  | Some Daily =>
      st' ← apply_item st item; Ok (st', item)
  | Some Date =>
      v ← getattr_due_date item;
      if eq_date v t then
        st' ← apply_item st item;
        match cycle item with
        | BIWEEKLY => d' ← add_weeks t 2; Ok (st', set_due_date item d')
        | BIMONTHLY => d' ← add_months t 2; Ok (st', set_due_date item d')
        | QUARTERLY => d' ← add_months t 3; Ok (st', set_due_date item d')
        | YEARLY => d' ← add_months t 12; Ok (st', set_due_date item d')
        | DAILY | WEEKLY | MONTHLY => Ok (st', item)
        end
      else Ok (st, item)
  | None => Ok (st, item)
  end.

(** The inner loop of one day: every item in turn, on the running balance and
    the day's [trans]. *)
Fixpoint day_items (t : date) (st : spec_float * gmap string pyval)
    (budget : list (BudgetItem string))
    : result (spec_float * gmap string pyval * list (BudgetItem string)) :=
  match budget with
  | [] => Ok (st, [])
  | item :: rest =>
      '(st1, item') ← day_item t st item;
      '(st2, rest') ← day_items t st1 rest;
      Ok (st2, item' :: rest')
  end.

(** Lines 213-245: [for t in date_list], appending to [balance_list] and
    [daily_balance_list]. *)
Fixpoint walk (date_list : list date) (f : Forecast) : result Forecast :=
  match date_list with
  | [] => Ok f
  | t :: later =>
      '(b, trans, budget) ← day_items t (daily_balance f, ∅) (budget_after f);
      walk later
        (mkForecast (balance_list f ++ [mkEntry t b trans])
                    (daily_balance_list f ++ [b]) b budget)
  end.

(** [range(0, duration*7)] mapped to [start + timedelta(days=x)]. *)
Definition make_date_list (start : date) (duration : Z) : result (list date) :=
  mapM (λ x, date_add_days start x) (seqZ 0 (duration * 7)).

Definition forecast (balance : spec_float) (start : date) (duration : Z)
    (budget : list (BudgetItem string)) : result Forecast :=
  _ ← date_add_days start (7 * duration);      (* print('From', start, 'To', ...) *)
  date_list ← make_date_list start duration;
  budget ← mapM (normalize_item date_list) budget;
  walk date_list (mkForecast [] [] balance budget).

(** ** Vocabulary of the statements *)

(** [k] applications of [step], as the specification words the loop. *)
Fixpoint iterate_step (k : nat) (step : date → result date) (d : date)
    : result date :=
  match k with
  | O => Ok d
  | S k' => d' ← step d; iterate_step k' step d'
  end.

(** The iterates of [step] from [d] before the [k]-th exist and are before
    [d0]: the [k]-th one is the first that may be on or after [d0]. *)
Definition all_before (k : nat) (step : date → result date) (d d0 : date)
    : Prop :=
  ∀ j, (j < k)%nat → ∃ x, iterate_step j step d = Ok x ∧ date_ltb x d0 = true.

(** A step that moves every valid date to a strictly later valid date, or
    raises. *)
Definition advancing (step : date → result date) : Prop :=
  ∀ d, valid_date d →
    match step d with
    | Ok d' => valid_date d' ∧ toordinal d < toordinal d'
    | Raise _ => True
    | Diverged => False
    end.

Definition advancing_cycle (c : CycleEnum) : bool :=
  match c with
  | BIWEEKLY | BIMONTHLY | QUARTERLY | YEARLY => true
  | DAILY | WEEKLY | MONTHLY => false
  end.

(** The weekday member of a date, [DayOfWeek(t.isoweekday())]. *)
Definition weekday_of (t : date) : DayOfWeek :=
  match isoweekday t with
  | 1 => Monday | 2 => Tuesday | 3 => Wednesday | 4 => Thursday
  | 5 => Friday | 6 => Saturday | _ => Sunday
  end.

(** The match rule of the day-by-day walk: the condition under which the
    branch of the item's [due_date_type] applies the item on day [t]. *)
Definition fires (t : date) (item : BudgetItem string) : bool :=
  match due_date_type item, due_date item with
  | Some WeekDay, Some v => eq_DayOfWeek v (weekday_of t)
  | Some DateNumber, Some v => eq_int v (day t)
  | Some Daily, _ => true
  | Some Date, Some v => eq_date v t
  | _, _ => false
  end.

(** The attribute [due_date] exists whenever a [due_date_type] was set, as
    the constructor leaves it. *)
Definition has_due_date {N} (item : BudgetItem N) : Prop :=
  is_Some (due_date_type item) → is_Some (due_date item).

(** Every date stored in the item is a date of the calendar. *)
Definition dates_valid {N} (item : BudgetItem N) : Prop :=
  ∀ d, due_date item = Some (PyDate d) → valid_date d.

(** What a forecast may change in an item: nothing, or the [due_date] of a
    Date item with an advancing cycle, to another date. *)
Definition same_frame (item item' : BudgetItem string) : Prop :=
  name item' = name item ∧ amount item' = amount item
  ∧ cycle item' = cycle item ∧ due_date_type item' = due_date_type item
  ∧ (item' = item
     ∨ (due_date_type item = Some Date ∧ advancing_cycle (cycle item) = true
        ∧ ∃ d', due_date item' = Some (PyDate d'))).

(** How a computation may end, besides returning: [P (Some e)] allows the
    exception [e], [P None] allows the cut-off. *)
Definition ends_in {A} (P : option exn → Prop) (r : result A) : Prop :=
  match r with
  | Ok _ => True
  | Raise e => P (Some e)
  | Diverged => P None
  end.

(** The exceptions of the engine on a non-empty window. *)
Definition engine_exn (e : exn) : Prop :=
  e = TypeError ∨ e = OverflowError ∨ e = AttributeError
  ∨ e = ValueError DateOutOfRange.

Definition clean (o : option exn) : Prop := ∃ e, o = Some e ∧ engine_exn e.
Definition no_IndexError (o : option exn) : Prop := o ≠ Some IndexError.

(** The values [BudgetItem.__init__] has a branch for: an [int] (a [bool] is
    one), a [DayOfWeek], a [date], [None]. *)
Definition supported_due_date (v : pyval) : bool :=
  match v with
  | PyInt _ | PyBool _ | PyDayOfWeek _ | PyDate _ | PyNone => true
  | _ => false
  end.

(** The first of [fields] that [item] has no entry for. *)
Fixpoint first_missing (fields : list string) (item : gmap string pyval)
    : option string :=
  match fields with
  | [] => None
  | field :: rest =>
      match item !! field with
      | None => Some field
      | Some _ => first_missing rest item
      end
  end.

(** A record that lacks a main field, or lacks [due_date] while its
    [due_date_type] is not Daily. *)
Definition lacking (item : gmap string pyval) : Prop :=
  is_Some (first_missing required_main_fields item)
  ∨ (item !! "due_date"%string = None
     ∧ item !! "due_date_type"%string ≠ Some (PyStr "Daily")).

(** The float that [balance + v] adds for an amount [v]: a float itself, an
    integer or a boolean as the float nearest to it.  Spelled with the
    binary64 operations of the standard library. *)
Definition amount_as_float (v : pyval) : option spec_float :=
  match v with
  | PyFloat f => Some f
  | PyInt n =>
      match binary_normalize 53 1024 n 0 false with
      | S754_infinity _ => None
      | f => Some f
      end
  | PyBool b => Some (binary_normalize 53 1024 (Z.b2z b) 0 false)
  | _ => None
  end.

(** The IEEE 754 binary64 sum of a balance and amounts, added one after the
    other from the left; [None] when an amount is no number. *)
Fixpoint ieee_sum (b : spec_float) (amounts : list pyval) : option spec_float :=
  match amounts with
  | [] => Some b
  | v :: rest =>
      match amount_as_float v with
      | Some f => ieee_sum (SFadd 53 1024 b f) rest
      | None => None
      end
  end.

(** ** Example data (after [run_example], lines 272-284) *)

Definition example_balance : spec_float := float_of_Z 1000.       (* 1000.0 *)

Definition salary : BudgetItem string :=
  mkBudgetItem "Salary" (PyFloat (float_of_Z 1000)) WEEKLY
    (Some WeekDay) (Some (PyDayOfWeek Friday)).
Definition food : BudgetItem string :=
  mkBudgetItem "Food" (PyInt (-36)) DAILY (Some Daily) (Some PyNone).
Definition internet : BudgetItem string :=
  mkBudgetItem "Internet" (PyFloat (S754_finite true 6402852032725647 (-46)))
    MONTHLY (Some DateNumber) (Some (PyInt 15)).           (* -90.99 *)
Definition sewer : BudgetItem string :=
  mkBudgetItem "Sewer" (PyFloat (float_of_Z (-165))) QUARTERLY
    (Some Date) (Some (PyDate (mkdate 2019 1 10))).
Definition taxes : BudgetItem string :=
  mkBudgetItem "TAXES" (PyFloat (float_of_Z (-1000))) YEARLY
    (Some Date) (Some (PyDate (mkdate 2019 4 14))).

Definition example_budget : list (BudgetItem string) :=
  [salary; food; internet; sewer; taxes].

(** A second item of the name of [food]. *)
Definition snack : BudgetItem string :=
  mkBudgetItem "Food" (PyInt (-4)) DAILY (Some Daily) (Some PyNone).

(** A fixed date ten days before 2026-11-04, due yearly. *)
Definition overdue_yearly : BudgetItem string :=
  mkBudgetItem "Licence" (PyInt (-100)) YEARLY
    (Some Date) (Some (PyDate (mkdate 2026 10 25))).

Definition good_record : gmap string pyval :=
  {[ "name"%string := PyStr "Gas"; "amount"%string := PyInt (-40);
     "cycle"%string := PyStr "WEEKLY";
     "due_date_type"%string := PyStr "WeekDay";
     "due_date"%string := PyStr "Friday" ]}.

Definition record_without_amount : gmap string pyval :=
  {[ "name"%string := PyStr "Gas"; "cycle"%string := PyStr "WEEKLY";
     "due_date_type"%string := PyStr "WeekDay";
     "due_date"%string := PyStr "Friday" ]}.

(** ** Serialization adapter: [BudgetItemEncoder.default] (lines 94-117) *)

(** [member.name] *)
Definition CycleEnum_name (c : CycleEnum) : string :=
  match c with
  | DAILY => "DAILY" | WEEKLY => "WEEKLY" | BIWEEKLY => "BIWEEKLY"
  | MONTHLY => "MONTHLY" | BIMONTHLY => "BIMONTHLY"
  | QUARTERLY => "QUARTERLY" | YEARLY => "YEARLY"
  end.

Definition DueDateType_name (k : DueDateType) : string :=
  match k with
  | WeekDay => "WeekDay" | DateNumber => "DateNumber" | Date => "Date"
  | Daily => "Daily"
  end.

Definition DayOfWeek_name (w : DayOfWeek) : string :=
  match w with
  | Monday => "Monday" | Tuesday => "Tuesday" | Wednesday => "Wednesday"
  | Thursday => "Thursday" | Friday => "Friday" | Saturday => "Saturday"
  | Sunday => "Sunday"
  end.

(** How [default] ends on a budget item: with the record [json_repr], with
    one of the exceptions of [exn], or with the [UnboundLocalError] of reading
    the local [due_date_type] that no branch has assigned. *)
Inductive encoding :=
  | Encoded (json_repr : gmap string pyval)
  | EncodeRaise (e : exn)
  | UnboundLocalError.

(** [default] on a [BudgetItem]; the tests are on the stored [due_date], not
    on [due_date_type], and reading the attribute comes first. *)
Definition default (obj : BudgetItem pyval) : encoding :=
  let json_repr : gmap string pyval :=
    {[ "name"%string := name obj; "amount"%string := amount obj;
       "cycle"%string := PyStr (CycleEnum_name (cycle obj)) ]} in
  match due_date obj with
  | None => EncodeRaise AttributeError
  | Some (PyInt _ as v) | Some (PyBool _ as v) =>
      Encoded (<["due_date_type"%string := PyStr (DueDateType_name DateNumber)]>
                 (<["due_date"%string := v]> json_repr))
  | Some (PyDayOfWeek w) =>
      Encoded (<["due_date_type"%string := PyStr (DueDateType_name WeekDay)]>
                 (<["due_date"%string := PyStr (DayOfWeek_name w)]> json_repr))
  | Some (PyDate d) =>
      Encoded (<["due_date_type"%string := PyStr (DueDateType_name Date)]>
                 (<["due_date"%string :=
                      PyDict {[ "month"%string := PyInt (month d);
                                "day"%string := PyInt (day d);
                                "year"%string := PyInt (year d) ]}]> json_repr))
  | Some PyNone =>
      Encoded (<["due_date_type"%string := PyStr (DueDateType_name Daily)]> json_repr)
  | Some _ => UnboundLocalError
  end.

(** An item as the constructor builds it from a [due_date] it has a branch
    for; a [date] object is a date of the calendar. *)
Definition constructed (item : BudgetItem pyval) : Prop :=
  ∃ nm amt c v,
    supported_due_date v = true ∧ (∀ d, v = PyDate d → valid_date d)
    ∧ BudgetItem_init nm amt c v = Ok item.

(** An amount that [daily_balance += item.amount] accepts: a float, or an
    integer within the range of the floats. *)
Definition addable (v : pyval) : bool :=
  match v with
  | PyFloat _ | PyBool _ => true
  | PyInt n => match float_of_Z n with S754_infinity _ => false | _ => true end
  | _ => false
  end.

(** An item the engine can run on: an amount it can add, a [due_date] beside
    the kind, and a date of the calendar in a Date item. *)
Definition engine_ready (item : BudgetItem string) : Prop :=
  addable (amount item) = true ∧ has_due_date item
  ∧ (due_date_type item = Some Date →
     ∃ d, due_date item = Some (PyDate d) ∧ valid_date d).

(** A Date item of an advancing cycle is due on or after the day of ordinal
    [o]. *)
Definition due_from (o : Z) (item : BudgetItem string) : Prop :=
  due_date_type item = Some Date → advancing_cycle (cycle item) = true →
  ∃ d, due_date item = Some (PyDate d) ∧ valid_date d ∧ o ≤ toordinal d.

(** The ordinals of the days of a weekday, modulo 7: ordinal 1 is a Monday. *)
Definition DayOfWeek_residue (w : DayOfWeek) : Z :=
  match w with
  | Monday => 1 | Tuesday => 2 | Wednesday => 3 | Thursday => 4
  | Friday => 5 | Saturday => 6 | Sunday => 0
  end.

(** ** [run_example] (moneycast.py, lines 272-293)

    The ten items are built one after the other and appended to [budget];
    [date.today()] is the argument [today]. *)
Definition run_example_budget : result (list (BudgetItem string)) :=
  salary ← BudgetItem_init "Salary"
    (PyFloat (S754_finite false 8796093022208000 (-43))) WEEKLY   (* 1000.00 *)
    (PyDayOfWeek Friday);
  insurance ← BudgetItem_init "Insurance"
    (PyFloat (S754_finite true 7071706946134344 (-45))) MONTHLY   (* -200.99 *)
    (PyInt 25);
  food ← BudgetItem_init "Food" (PyInt (-36)) DAILY PyNone;  (* round(-250.00 / 7) *)
  internet ← BudgetItem_init "Internet"
    (PyFloat (S754_finite true 6402852032725647 (-46))) MONTHLY   (* -90.99 *)
    (PyInt 15);
  savings ← BudgetItem_init "Savings"
    (PyFloat (S754_finite true 7036874417766400 (-46))) WEEKLY    (* -100.00 *)
    (PyDayOfWeek Monday);
  mortgage ← BudgetItem_init "Mortgage"
    (PyFloat (S754_finite true 7710127377686200 (-43))) MONTHLY   (* -876.54 *)
    (PyInt 15);
  sewer_due ← date_new 2019 1 10;
  sewer ← BudgetItem_init "Sewer"
    (PyFloat (S754_finite true 5805421394657280 (-45))) QUARTERLY (* -165.00 *)
    (PyDate sewer_due);
  gas ← BudgetItem_init "Gas" (PyInt (-40)) WEEKLY (PyDayOfWeek Friday);
  hair_due ← date_new 2019 1 5;
  hair ← BudgetItem_init "Hair-do" (PyInt (-60)) BIMONTHLY (PyDate hair_due);
  taxes_due ← date_new 2019 4 14;
  taxes ← BudgetItem_init "TAXES"
    (PyFloat (S754_finite true 8796093022208000 (-43))) YEARLY    (* -1000.00 *)
    (PyDate taxes_due);
  Ok [salary; insurance; food; internet; savings; mortgage; sewer; gas; hair; taxes].

Definition run_example (balance : spec_float) (weeks : Z) (today : date)
    : result Forecast :=
  budget ← run_example_budget;
  forecast balance today weeks budget.

(** * Properties *)

(** ** The result monad *)

Lemma bind_Ok {A B} (r : result A) (k : A → result B) (b : B) :
  r ≫= k = Ok b → ∃ a, r = Ok a ∧ k a = Ok b.
Proof. destruct r; simpl; [eauto|done..]. Qed.

Lemma bind_Raise {A B} (r : result A) (k : A → result B) (e : exn) :
  r ≫= k = Raise e → r = Raise e ∨ ∃ a, r = Ok a ∧ k a = Raise e.
Proof. destruct r; simpl; [eauto| |done]. intros [= ->]. by left. Qed.

Lemma bind_Diverged {A B} (r : result A) (k : A → result B) :
  r ≫= k = Diverged → r = Diverged ∨ ∃ a, r = Ok a ∧ k a = Diverged.
Proof. destruct r; simpl; [eauto|done|by left]. Qed.

Lemma mapM_Ok {A B} (f : A → result B) (l : list A) (l' : list B) :
  mapM f l = Ok l' ↔ Forall2 (λ x y, f x = Ok y) l l'.
Proof.
  revert l'. induction l as [|x l IH]; intros l'; simpl.
  - split; [intros [= <-]; constructor|by inversion 1].
  - split.
    + intros (y & Hy & H)%bind_Ok. apply bind_Ok in H as (ys & Hys & [= <-]).
      constructor; [done|]. by apply IH.
    + inversion 1 as [|? y ? ys Hy Hys]; subst. rewrite Hy. simpl.
      apply IH in Hys. rewrite Hys. reflexivity.
Qed.

Lemma mapM_Raise {A B} (f : A → result B) (l : list A) (e : exn) :
  mapM f l = Raise e → ∃ x, x ∈ l ∧ f x = Raise e.
Proof.
  induction l as [|x l IH]; simpl; [done|].
  intros [H|(y & Hy & H)]%bind_Raise.
  - exists x. split; [apply list_elem_of_here|done].
  - apply bind_Raise in H as [H|(ys & _ & [=])].
    destruct (IH H) as (x' & Hin & Hx'). exists x'. split; [by apply list_elem_of_further|done].
Qed.

Lemma mapM_Diverged {A B} (f : A → result B) (l : list A) :
  mapM f l = Diverged → ∃ x, x ∈ l ∧ f x = Diverged.
Proof.
  induction l as [|x l IH]; simpl; [done|].
  intros [H|(y & Hy & H)]%bind_Diverged.
  - exists x. split; [apply list_elem_of_here|done].
  - apply bind_Diverged in H as [H|(ys & _ & [=])].
    destruct (IH H) as (x' & Hin & Hx'). exists x'. split; [by apply list_elem_of_further|done].
Qed.

(** ** The calendar *)

Lemma days_before_year_split (a b c e : Z) :
  0 ≤ b ≤ 3 → 0 ≤ c ≤ 24 → 0 ≤ e ≤ 3 →
  days_before_year (400 * a + 100 * b + 4 * c + e + 1)
  = 146097 * a + 36524 * b + 1461 * c + 365 * e.
Proof.
  intros Hb Hc He. unfold days_before_year.
  replace (400 * a + 100 * b + 4 * c + e + 1 - 1) with (400 * a + 100 * b + 4 * c + e) by lia.
  assert ((400 * a + 100 * b + 4 * c + e) / 4 = 100 * a + 25 * b + c) as ->
    by (symmetry; apply (Z.div_unique _ _ _ e); lia).
  assert ((400 * a + 100 * b + 4 * c + e) / 100 = 4 * a + b) as ->
    by (symmetry; apply (Z.div_unique _ _ _ (4 * c + e)); lia).
  assert ((400 * a + 100 * b + 4 * c + e) / 400 = a) as ->
    by (symmetry; apply (Z.div_unique _ _ _ (100 * b + 4 * c + e)); lia).
  lia.
Qed.

Lemma is_leap_split (a b c e : Z) :
  0 ≤ b ≤ 3 → 0 ≤ c ≤ 24 → 0 ≤ e ≤ 3 →
  is_leap (400 * a + 100 * b + 4 * c + e + 1)
  = (e =? 3) && (negb (c =? 24) || (b =? 3)).
Proof.
  intros Hb Hc He. unfold is_leap.
  assert ((400 * a + 100 * b + 4 * c + e + 1) mod 4 = (e + 1) mod 4) as ->.
  { replace (400 * a + 100 * b + 4 * c + e + 1) with ((e + 1) + (100 * a + 25 * b + c) * 4) by lia.
    apply Z_mod_plus_full. }
  assert ((400 * a + 100 * b + 4 * c + e + 1) mod 100 = (4 * c + e + 1) mod 100) as ->.
  { replace (400 * a + 100 * b + 4 * c + e + 1) with ((4 * c + e + 1) + (4 * a + b) * 100) by lia.
    apply Z_mod_plus_full. }
  assert ((400 * a + 100 * b + 4 * c + e + 1) mod 400 = (100 * b + 4 * c + e + 1) mod 400) as ->.
  { replace (400 * a + 100 * b + 4 * c + e + 1) with ((100 * b + 4 * c + e + 1) + a * 400) by lia.
    apply Z_mod_plus_full. }
  destruct (Z.eqb_spec e 3) as [->|He3].
  - replace ((3 + 1) mod 4) with 0 by reflexivity. simpl.
    destruct (Z.eqb_spec c 24) as [->|Hc24]; simpl.
    + replace ((4 * 24 + 3 + 1) mod 100) with 0 by reflexivity. simpl.
      destruct (Z.eqb_spec b 3) as [->|Hb3]; [reflexivity|].
      apply Z.eqb_neq. rewrite Z.mod_small by lia. lia.
    + assert ((4 * c + 3 + 1) mod 100 ≠ 0) as Hne by (rewrite Z.mod_small; lia).
      apply Z.eqb_neq in Hne. rewrite Hne. reflexivity.
  - assert ((e + 1) mod 4 ≠ 0) as Hne by (rewrite Z.mod_small; lia).
    apply Z.eqb_neq in Hne. rewrite Hne. reflexivity.
Qed.

Lemma month_day_ok (leapyear : bool) (n : Z) :
  0 ≤ n < 365 + Z.b2z leapyear → month_day_okb leapyear n = true.
Proof.
  intros Hn.
  assert (forallb (month_day_okb true) (seqZ 0 366) = true) as Ht by (vm_compute; reflexivity).
  assert (forallb (month_day_okb false) (seqZ 0 365) = true) as Hf by (vm_compute; reflexivity).
  rewrite forallb_forall in Ht, Hf.
  destruct leapyear; simpl in Hn.
  - apply Ht, list_elem_of_In, elem_of_seqZ. lia.
  - apply Hf, list_elem_of_In, elem_of_seqZ. lia.
Qed.

Lemma ord2ymd_correct (n : Z) :
  1 ≤ n →
  let '(y, m, d) := ord2ymd n in
  1 ≤ y ∧ 1 ≤ m ≤ 12 ∧ 1 ≤ d ≤ days_in_month y m ∧ ymd2ord y m d = n
  ∧ days_before_year y < n.
Proof.
  intros Hn. unfold ord2ymd, DI400Y, DI100Y, DI4Y.
  set (n0 := n - 1).
  pose proof (Z.div_mod n0 146097 ltac:(lia)) as E1.
  pose proof (Z.mod_pos_bound n0 146097 ltac:(lia)) as B1.
  set (a := n0 / 146097) in *. set (r1 := n0 mod 146097) in *.
  pose proof (Z.div_mod r1 36524 ltac:(lia)) as E2.
  pose proof (Z.mod_pos_bound r1 36524 ltac:(lia)) as B2.
  set (b := r1 / 36524) in *. set (r2 := r1 mod 36524) in *.
  pose proof (Z.div_mod r2 1461 ltac:(lia)) as E3.
  pose proof (Z.mod_pos_bound r2 1461 ltac:(lia)) as B3.
  set (c := r2 / 1461) in *. set (r3 := r2 mod 1461) in *.
  pose proof (Z.div_mod r3 365 ltac:(lia)) as E4.
  pose proof (Z.mod_pos_bound r3 365 ltac:(lia)) as B4.
  set (e := r3 / 365) in *. set (r4 := r3 mod 365) in *.
  assert (0 ≤ a) as Ha by (apply Z.div_pos; lia).
  assert (0 ≤ b ≤ 4) as Hb by lia.
  assert (0 ≤ c ≤ 24) as Hc by lia.
  assert (0 ≤ e ≤ 4) as He by lia.
  destruct (Z.eqb_spec e 4) as [He4|He4]; simpl.
  { (* the last day of a four-year cycle *)
    replace (a * 400 + 1 + b * 100 + c * 4 + e - 1)
      with (400 * a + 100 * b + 4 * c + 3 + 1) by lia.
    assert (b ≤ 3) by lia. assert (c ≤ 23) by lia.
    unfold ymd2ord, days_in_month, days_before_month.
    rewrite days_before_year_split, is_leap_split by lia.
    replace (c =? 24) with false by (symmetry; apply Z.eqb_neq; lia).
    simpl. lia. }
  destruct (Z.eqb_spec b 4) as [Hb4|Hb4]; simpl.
  { (* the last day of a 400-year cycle *)
    assert (c = 0 ∧ e = 0) as [-> ->] by lia.
    replace (a * 400 + 1 + b * 100 + 0 * 4 + 0 - 1)
      with (400 * a + 100 * 3 + 4 * 24 + 3 + 1) by lia.
    unfold ymd2ord, days_in_month, days_before_month.
    rewrite days_before_year_split, is_leap_split by lia.
    simpl. lia. }
  replace (a * 400 + 1 + b * 100 + c * 4 + e)
    with (400 * a + 100 * b + 4 * c + e + 1) by lia.
  set (leapyear := (e =? 3) && (negb (c =? 24) || (b =? 3))).
  assert (0 ≤ Z.b2z leapyear) as Hl by (destruct leapyear; simpl; lia).
  pose proof (month_day_ok leapyear r4 ltac:(lia)) as Hok.
  unfold month_day_okb, month_day in Hok.
  destruct (r4 <? _); cbv beta iota zeta in Hok |- *;
    unfold ymd2ord, days_in_month, days_before_month;
    rewrite days_before_year_split, is_leap_split by lia;
    fold leapyear;
    repeat (apply andb_prop in Hok as [Hok ?]);
    destruct (_ && leapyear); destruct (_ && leapyear); lia.
Qed.

Lemma days_before_year_succ (y : Z) :
  days_before_year (y + 1) = days_before_year y + 365 + Z.b2z (is_leap y).
Proof.
  unfold days_before_year, is_leap.
  replace (y + 1 - 1) with y by lia.
  destruct (Z.eqb_spec (y mod 4) 0); destruct (Z.eqb_spec (y mod 100) 0);
    destruct (Z.eqb_spec (y mod 400) 0); simpl Z.b2z;
    Z.div_mod_to_equations; lia.
Qed.

Lemma days_before_year_mono (y1 y2 : Z) :
  y1 ≤ y2 → days_before_year y1 ≤ days_before_year y2.
Proof. unfold days_before_year. intros. Z.div_mod_to_equations. lia. Qed.

Lemma days_before_month_succ (y m : Z) :
  1 ≤ m ≤ 12 →
  days_before_month y m + days_in_month y m
  = if m =? 12 then 365 + Z.b2z (is_leap y) else days_before_month y (m + 1).
Proof.
  intros Hm. unfold days_before_month, days_in_month.
  assert (m = 1 ∨ m = 2 ∨ m = 3 ∨ m = 4 ∨ m = 5 ∨ m = 6 ∨ m = 7 ∨ m = 8
          ∨ m = 9 ∨ m = 10 ∨ m = 11 ∨ m = 12) as Hcases by lia.
  destruct (is_leap y); repeat destruct Hcases as [->|Hcases]; subst; reflexivity.
Qed.

Lemma days_before_month_mono (y m1 m2 : Z) :
  1 ≤ m1 → m1 ≤ m2 → m2 ≤ 12 → days_before_month y m1 ≤ days_before_month y m2.
Proof.
  intros H1 H2 H3. unfold days_before_month.
  assert (m1 = 1 ∨ m1 = 2 ∨ m1 = 3 ∨ m1 = 4 ∨ m1 = 5 ∨ m1 = 6 ∨ m1 = 7 ∨ m1 = 8
          ∨ m1 = 9 ∨ m1 = 10 ∨ m1 = 11 ∨ m1 = 12) as C1 by lia.
  assert (m2 = 1 ∨ m2 = 2 ∨ m2 = 3 ∨ m2 = 4 ∨ m2 = 5 ∨ m2 = 6 ∨ m2 = 7 ∨ m2 = 8
          ∨ m2 = 9 ∨ m2 = 10 ∨ m2 = 11 ∨ m2 = 12) as C2 by lia.
  destruct (is_leap y); repeat destruct C1 as [->|C1]; subst;
    repeat destruct C2 as [->|C2]; subst; simpl; lia.
Qed.

Lemma days_in_year_bound (y m : Z) :
  1 ≤ m ≤ 12 →
  0 ≤ days_before_month y m
  ∧ days_before_month y m + days_in_month y m ≤ 365 + Z.b2z (is_leap y).
Proof.
  intros Hm. unfold days_before_month, days_in_month.
  assert (m = 1 ∨ m = 2 ∨ m = 3 ∨ m = 4 ∨ m = 5 ∨ m = 6 ∨ m = 7 ∨ m = 8
          ∨ m = 9 ∨ m = 10 ∨ m = 11 ∨ m = 12) as Hcases by lia.
  destruct (is_leap y); repeat destruct Hcases as [->|Hcases]; subst; simpl; lia.
Qed.

Lemma toordinal_in_year (d : date) :
  valid_date d →
  days_before_year (year d) < toordinal d ≤ days_before_year (year d + 1).
Proof.
  intros (Hy & Hm & Hd). unfold toordinal, ymd2ord.
  rewrite days_before_year_succ.
  pose proof (days_in_year_bound (year d) (month d) Hm). lia.
Qed.

Lemma toordinal_range (d : date) :
  valid_date d → 1 ≤ toordinal d ≤ MAXORDINAL.
Proof.
  intros Hv. pose proof (toordinal_in_year d Hv) as H.
  destruct Hv as (Hy & _). unfold MINYEAR, MAXYEAR in Hy.
  pose proof (days_before_year_mono 1 (year d) ltac:(lia)).
  pose proof (days_before_year_mono (year d + 1) 10000 ltac:(lia)).
  change (days_before_year 1) with 0 in *.
  change (days_before_year 10000) with 3652059 in *.
  unfold MAXORDINAL. lia.
Qed.

Lemma toordinal_lt (d1 d2 : date) :
  valid_date d1 → valid_date d2 →
  date_ltb d1 d2 = true → toordinal d1 < toordinal d2.
Proof.
  intros Hv1 Hv2 Hlt.
  pose proof (toordinal_in_year d1 Hv1). pose proof (toordinal_in_year d2 Hv2).
  destruct Hv1 as (Hy1 & Hm1 & Hd1), Hv2 as (Hy2 & Hm2 & Hd2).
  unfold date_ltb in Hlt.
  destruct (Z.ltb_spec (year d1) (year d2)) as [Hy|Hy].
  { pose proof (days_before_year_mono (year d1 + 1) (year d2) ltac:(lia)). lia. }
  destruct (Z.eqb_spec (year d1) (year d2)) as [Ey|]; [|discriminate].
  simpl in Hlt. unfold toordinal, ymd2ord. rewrite <- Ey in *.
  destruct (Z.ltb_spec (month d1) (month d2)) as [Hm|Hm].
  { pose proof (days_before_month_succ (year d1) (month d1) Hm1) as Hs.
    destruct (Z.eqb_spec (month d1) 12); [lia|].
    pose proof (days_before_month_mono (year d1) (month d1 + 1) (month d2)
                  ltac:(lia) ltac:(lia) ltac:(lia)). lia. }
  destruct (Z.eqb_spec (month d1) (month d2)) as [Em|]; [|discriminate].
  simpl in Hlt. rewrite Em. apply Z.ltb_lt in Hlt. lia.
Qed.

Lemma date_ltb_irrefl (d : date) : date_ltb d d = false.
Proof.
  unfold date_ltb. rewrite !Z.ltb_irrefl, !Z.eqb_refl. reflexivity.
Qed.

Lemma date_trichotomy (d1 d2 : date) :
  date_ltb d1 d2 = true ∨ d1 = d2 ∨ date_ltb d2 d1 = true.
Proof.
  destruct d1 as [y1 m1 a1], d2 as [y2 m2 a2]. unfold date_ltb. simpl.
  destruct (Z.lt_trichotomy y1 y2) as [H|[->|H]].
  - left. apply Z.ltb_lt in H. rewrite H. reflexivity.
  - rewrite Z.ltb_irrefl, Z.eqb_refl. simpl.
    destruct (Z.lt_trichotomy m1 m2) as [H|[->|H]].
    + left. apply Z.ltb_lt in H. rewrite H. reflexivity.
    + rewrite Z.ltb_irrefl, Z.eqb_refl. simpl.
      destruct (Z.lt_trichotomy a1 a2) as [H|[->|H]].
      * left. by apply Z.ltb_lt.
      * right. by left.
      * right. right. by apply Z.ltb_lt.
    + right. right. apply Z.ltb_lt in H. rewrite H. reflexivity.
  - right. right. apply Z.ltb_lt in H. rewrite H. reflexivity.
Qed.

Lemma date_ltb_toordinal (d1 d2 : date) :
  valid_date d1 → valid_date d2 →
  date_ltb d1 d2 = (toordinal d1 <? toordinal d2).
Proof.
  intros Hv1 Hv2.
  destruct (date_trichotomy d1 d2) as [H|[->|H]].
  - rewrite H. symmetry. apply Z.ltb_lt. by apply toordinal_lt.
  - rewrite date_ltb_irrefl, Z.ltb_irrefl. reflexivity.
  - pose proof (toordinal_lt _ _ Hv2 Hv1 H) as Hlt.
    destruct (date_ltb d1 d2) eqn:E.
    + pose proof (toordinal_lt _ _ Hv1 Hv2 E). lia.
    + symmetry. apply Z.ltb_ge. lia.
Qed.

Lemma toordinal_inj (d1 d2 : date) :
  valid_date d1 → valid_date d2 → toordinal d1 = toordinal d2 → d1 = d2.
Proof.
  intros Hv1 Hv2 E.
  destruct (date_trichotomy d1 d2) as [H|[->|H]]; [|done|].
  - pose proof (toordinal_lt _ _ Hv1 Hv2 H). lia.
  - pose proof (toordinal_lt _ _ Hv2 Hv1 H). lia.
Qed.

Lemma fromordinal_valid (n : Z) :
  1 ≤ n ≤ MAXORDINAL →
  valid_date (fromordinal n) ∧ toordinal (fromordinal n) = n.
Proof.
  intros [Hn1 Hn2]. pose proof (ord2ymd_correct n Hn1) as H.
  unfold fromordinal, toordinal. destruct (ord2ymd n) as [[y m] d]. simpl.
  destruct H as (Hy & Hm & Hd & Ho & Hb).
  split; [|done]. split; [|done]. unfold MINYEAR, MAXYEAR. split; [done|].
  destruct (Z.le_gt_cases y 9999) as [|Hbig]; [done|].
  pose proof (days_before_year_mono 10000 y ltac:(lia)) as Hmono.
  change (days_before_year 10000) with 3652059 in Hmono.
  unfold MAXORDINAL in Hn2. lia.
Qed.

Lemma fromordinal_toordinal (d : date) :
  valid_date d → fromordinal (toordinal d) = d.
Proof.
  intros Hv. pose proof (toordinal_range d Hv) as Hr.
  destruct (fromordinal_valid _ Hr) as [Hv' Ho].
  by apply toordinal_inj.
Qed.

Lemma valid_dateb_spec (d : date) : valid_dateb d = true ↔ valid_date d.
Proof.
  unfold valid_dateb, valid_date. rewrite !andb_true_iff, !Z.leb_le. tauto.
Qed.

(** *** Date arithmetic *)

Lemma date_add_days_Ok (d : date) (n : Z) (d' : date) :
  date_add_days d n = Ok d' →
  valid_date d' ∧ toordinal d' = toordinal d + n.
Proof.
  unfold date_add_days. destruct (_ && _) eqn:E; [|discriminate].
  intros [= <-]. apply andb_prop in E as [H1 H2].
  apply Z.ltb_lt in H1. apply Z.leb_le in H2.
  apply fromordinal_valid. lia.
Qed.

Lemma date_add_days_in_range (d : date) (n : Z) :
  1 ≤ toordinal d + n ≤ MAXORDINAL →
  date_add_days d n = Ok (fromordinal (toordinal d + n)).
Proof.
  intros [H1 H2]. unfold date_add_days.
  apply Z.leb_le in H2. rewrite H2.
  assert ((0 <? toordinal d + n) = true) as -> by (apply Z.ltb_lt; lia).
  reflexivity.
Qed.

Lemma date_add_days_raises (d : date) (n : Z) :
  (∃ d', date_add_days d n = Ok d') ∨ date_add_days d n = Raise OverflowError.
Proof. unfold date_add_days. destruct (_ && _); eauto. Qed.

Lemma date_add_days_0 (d : date) : valid_date d → date_add_days d 0 = Ok d.
Proof.
  intros Hv. pose proof (toordinal_range d Hv) as Hr.
  rewrite date_add_days_in_range by lia.
  rewrite Z.add_0_r. f_equal. by apply fromordinal_toordinal.
Qed.

Lemma add_months_unfold (d : date) (n : Z) :
  add_months d n =
  date_of_ints (year d + (month d - 1 + n) / 12) ((month d - 1 + n) mod 12 + 1)
    (Z.min (day d)
       (days_in_month (year d + (month d - 1 + n) / 12)
          ((month d - 1 + n) mod 12 + 1))).
Proof.
  unfold add_months, calendar_monthrange.
  pose proof (Z.mod_pos_bound (month d - 1 + n) 12 ltac:(lia)) as Hm.
  assert ((1 <=? (month d - 1 + n) mod 12 + 1) = true) as -> by (apply Z.leb_le; lia).
  assert (((month d - 1 + n) mod 12 + 1 <=? 12) = true) as -> by (apply Z.leb_le; lia).
  reflexivity.
Qed.

Lemma days_in_month_pos (y m : Z) : 1 ≤ m ≤ 12 → 28 ≤ days_in_month y m ≤ 31.
Proof.
  intros Hm. unfold days_in_month.
  assert (m = 1 ∨ m = 2 ∨ m = 3 ∨ m = 4 ∨ m = 5 ∨ m = 6 ∨ m = 7 ∨ m = 8
          ∨ m = 9 ∨ m = 10 ∨ m = 11 ∨ m = 12) as Hcases by lia.
  destruct (is_leap y); repeat destruct Hcases as [->|Hcases]; subst; simpl; lia.
Qed.

Lemma c_int_in_range (n : Z) : - 2 ^ 31 ≤ n < 2 ^ 31 → c_int n = Ok n.
Proof.
  intros Hn. unfold c_int.
  assert ((- 2 ^ 31 <=? n) = true) as -> by (apply Z.leb_le; lia).
  assert ((n <? 2 ^ 31) = true) as -> by (apply Z.ltb_lt; lia).
  reflexivity.
Qed.

(** [add_months] on a date: the months are counted from year 0, the day is
    clamped, and the only failures are those of [date] on the year: a
    [ValueError] outside [MINYEAR .. MAXYEAR], an [OverflowError] when the
    year does not fit a C [int]. *)
Lemma add_months_cases (d : date) (n : Z) :
  valid_date d →
  let y := year d + (month d - 1 + n) / 12 in
  let m := (month d - 1 + n) mod 12 + 1 in
  1 ≤ m ≤ 12 ∧ 12 * y + m = 12 * year d + month d + n ∧
  add_months d n =
    if (MINYEAR <=? y) && (y <=? MAXYEAR)
    then Ok (mkdate y m (Z.min (day d) (days_in_month y m)))
    else if (- 2 ^ 31 <=? y) && (y <? 2 ^ 31)
         then Raise (ValueError DateOutOfRange)
         else Raise OverflowError.
Proof.
  intros (Hy & Hm & Hd) y m.
  pose proof (Z.mod_pos_bound (month d - 1 + n) 12 ltac:(lia)) as Hb.
  pose proof (Z.div_mod (month d - 1 + n) 12 ltac:(lia)) as He.
  assert (1 ≤ m ≤ 12) as Hm' by (unfold m; lia).
  split; [done|]. split; [unfold y, m; lia|].
  rewrite add_months_unfold. fold y m.
  pose proof (days_in_month_pos y m Hm') as Hdim.
  unfold date_of_ints.
  destruct ((- 2 ^ 31 <=? y) && (y <? 2 ^ 31)) eqn:Hc.
  2:{ unfold c_int. rewrite Hc. simpl.
      destruct ((MINYEAR <=? y) && (y <=? MAXYEAR)) eqn:Hr; [|done].
      apply andb_prop in Hr as [Hr1 Hr2]. apply Z.leb_le in Hr1, Hr2.
      unfold MINYEAR, MAXYEAR in *. apply andb_false_iff in Hc.
      destruct Hc as [Hc|Hc]; [apply Z.leb_gt in Hc|apply Z.ltb_ge in Hc]; lia. }
  apply andb_prop in Hc as [Hc1 Hc2]. apply Z.leb_le in Hc1. apply Z.ltb_lt in Hc2.
  rewrite (c_int_in_range y), (c_int_in_range m),
    (c_int_in_range (Z.min (day d) (days_in_month y m))) by lia.
  cbn [mbind result_bind].
  unfold date_new, valid_dateb. simpl.
  assert ((1 <=? m) = true) as -> by (apply Z.leb_le; lia).
  assert ((m <=? 12) = true) as -> by (apply Z.leb_le; lia).
  assert ((1 <=? Z.min (day d) (days_in_month y m)) = true) as ->
    by (apply Z.leb_le; lia).
  assert ((Z.min (day d) (days_in_month y m) <=? days_in_month y m) = true) as ->
    by (apply Z.leb_le; lia).
  rewrite !andb_true_r. reflexivity.
Qed.

Lemma add_months_Ok (d : date) (n : Z) (d' : date) :
  valid_date d → add_months d n = Ok d' →
  valid_date d' ∧ 12 * year d' + month d' = 12 * year d + month d + n
  ∧ day d' = Z.min (day d) (days_in_month (year d') (month d')).
Proof.
  intros Hv. destruct (add_months_cases d n Hv) as (Hm & Hsum & ->).
  destruct ((MINYEAR <=? _) && _) eqn:E;
    [|intros Hr; destruct ((- 2 ^ 31 <=? _) && _); discriminate Hr].
  intros [= <-]. simpl.
  apply andb_prop in E as [E1 E2]. apply Z.leb_le in E1, E2.
  pose proof (days_in_month_pos (year d + (month d - 1 + n) / 12) _ Hm).
  destruct Hv as (? & ? & ?).
  repeat split; simpl; try lia.
Qed.

Lemma date_of_ints_not_Diverged (y m d : Z) : date_of_ints y m d ≠ Diverged.
Proof.
  unfold date_of_ints, c_int.
  destruct ((- 2 ^ 31 <=? y) && _); [|done].
  destruct ((- 2 ^ 31 <=? m) && _); [|done].
  destruct ((- 2 ^ 31 <=? d) && _); [|done].
  cbn [mbind result_bind]. unfold date_new. by destruct (valid_dateb _).
Qed.

Lemma add_months_not_Diverged (d : date) (n : Z) : add_months d n ≠ Diverged.
Proof. rewrite add_months_unfold. apply date_of_ints_not_Diverged. Qed.

Lemma add_months_later (d : date) (n : Z) (d' : date) :
  valid_date d → 0 < n → add_months d n = Ok d' → date_ltb d d' = true.
Proof.
  intros Hv Hn H. destruct (add_months_Ok d n d' Hv H) as ((Hy' & Hm' & _) & Hs & _).
  destruct Hv as (Hy & Hm & _). unfold date_ltb.
  destruct (Z.ltb_spec (year d) (year d')); [done|].
  destruct (Z.eqb_spec (year d) (year d')); [|lia].
  destruct (Z.ltb_spec (month d) (month d')); [done|lia].
Qed.

Lemma add_weeks_later (d : date) (w : Z) (d' : date) :
  valid_date d → 0 < w → add_weeks d w = Ok d' →
  valid_date d' ∧ date_ltb d d' = true ∧ toordinal d' = toordinal d + 7 * w.
Proof.
  intros Hv Hw H. apply date_add_days_Ok in H as [Hv' Ho].
  split; [done|]. split; [|done].
  rewrite date_ltb_toordinal by done. apply Z.ltb_lt. lia.
Qed.

Ltac valid_date_by_computation := apply valid_dateb_spec; reflexivity.

(** ** Statements about the calendar helpers *)

(** C5 (as stated, refuted): [add_months] has error conditions.  One month
    after 9999-12-31 is in year 10000, which [date] refuses with a
    [ValueError]; and 25769803776 months after 2024-01-01 is in a year that
    does not fit a C [int], which [date] refuses with an [OverflowError]. *)
Lemma add_months_fails_after_max_year :
  valid_date (mkdate 9999 12 31)
  ∧ add_months (mkdate 9999 12 31) 1 = Raise (ValueError DateOutOfRange)
  ∧ valid_date (mkdate 2024 1 1)
  ∧ add_months (mkdate 2024 1 1) 25769803776 = Raise OverflowError.
Proof.
  split_and!; [valid_date_by_computation | reflexivity
              | valid_date_by_computation | reflexivity].
Qed.

(** C5 (amended): for every date [d] and integer [n], let [y], [m] be the
    year and month reached by advancing [d]'s month by [n] (with the year
    wrapped, so that [12*y + m = 12*year d + month d + n] and [1 <= m <= 12]).
    If [y] lies in [MINYEAR .. MAXYEAR], [add_months d n] returns the date
    [y-m-min(day d, days_in_month y m)], which is a valid date; otherwise it
    raises [ValueError] when [y] fits a C [int] (from [-2^31] to [2^31 - 1])
    and [OverflowError] when it does not.  In particular one month after
    2024-01-31 is 2024-02-29, and 25769803776 months after 2024-01-01 is an
    [OverflowError]. *)
Theorem add_months_spec (d : date) (n : Z) :
  valid_date d →
  let y := year d + (month d - 1 + n) / 12 in
  let m := (month d - 1 + n) mod 12 + 1 in
  1 ≤ m ≤ 12
  ∧ 12 * y + m = 12 * year d + month d + n
  ∧ add_months d n =
      (if (MINYEAR <=? y) && (y <=? MAXYEAR)
       then Ok (mkdate y m (Z.min (day d) (days_in_month y m)))
       else if (- 2 ^ 31 <=? y) && (y <? 2 ^ 31)
            then Raise (ValueError DateOutOfRange)
            else Raise OverflowError)
  ∧ (∀ d', add_months d n = Ok d' → valid_date d')
  ∧ add_months (mkdate 2024 1 31) 1 = Ok (mkdate 2024 2 29)
  ∧ add_months (mkdate 2024 1 1) 25769803776 = Raise OverflowError.
Proof.
  intros Hv y m. destruct (add_months_cases d n Hv) as (Hm & Hs & He).
  split; [done|]. split; [done|]. split; [done|].
  split; [|split; reflexivity].
  intros d' Hd'. by destruct (add_months_Ok d n d' Hv Hd').
Qed.

Lemma add_months_spec_witness :
  add_months (mkdate 2023 11 30) 3 = Ok (mkdate 2024 2 29).
Proof.
  pose proof (add_months_spec (mkdate 2023 11 30) 3
                ltac:(valid_date_by_computation)) as (_ & _ & H & _).
  exact H.
Defined.

(** ** Phase 1: overdue fixed dates *)

(** *** The advancing loop *)

Lemma cycle_step_advancing (c : CycleEnum) (step : date → result date) :
  cycle_step c = Some step → advancing step.
Proof.
  intros Hc d Hv.
  assert (∀ k, 0 < k →
            match add_months d k with
            | Ok d' => valid_date d' ∧ toordinal d < toordinal d'
            | Raise _ => True
            | Diverged => False
            end) as Hmonths.
  { intros k Hk. destruct (add_months d k) as [d'| |] eqn:E; [|done|].
    - destruct (add_months_Ok d k d' Hv E) as (Hv' & _).
      split; [done|]. apply toordinal_lt; [done..|].
      by apply (add_months_later d k).
    - by apply add_months_not_Diverged in E. }
  destruct c; simplify_eq/=; try (apply Hmonths; lia).
  destruct (add_weeks d 2) as [d'| |] eqn:E.
  - destruct (add_weeks_later d 2 d' Hv ltac:(lia) E) as (? & ? & ?). split; [done|lia].
  - done.
  - unfold add_weeks in E. by destruct (date_add_days_raises d (7 * 2)) as [[? ?]|?]; congruence.
Qed.

Section advance_until.
Variable step : date → result date.
Hypothesis step_advancing : advancing step.
Variables (d0 : date) (rest : list date).
Hypothesis d0_valid : valid_date d0.

(** With one iteration granted per day between [d] and [d0] the loop is
    never cut off: it returns the first iterate on or after [d0], or raises
    what [step] raises on the way there. *)
Lemma advance_until_terminates (fuel : nat) (d : date) :
  valid_date d →
  (Z.to_nat (toordinal d0 - toordinal d) ≤ fuel)%nat →
  (∃ k d', advance_until fuel step (d0 :: rest) d = Ok d'
           ∧ iterate_step k step d = Ok d'
           ∧ valid_date d' ∧ date_ltb d' d0 = false
           ∧ all_before k step d d0
           ∧ (date_ltb d d0 = true → (0 < k)%nat))
  ∨ (∃ k x e, advance_until fuel step (d0 :: rest) d = Raise e
              ∧ iterate_step k step d = Ok x ∧ valid_date x
              ∧ date_ltb x d0 = true ∧ step x = Raise e).
Proof.
  revert d. induction fuel as [|fuel IH]; intros d Hv Hfuel.
  - left. exists 0%nat, d. simpl.
    rewrite date_ltb_toordinal by done.
    assert ((toordinal d <? toordinal d0) = false) as Hge by (apply Z.ltb_ge; lia).
    rewrite Hge. split_and!; try done. intros j Hj. lia.
  - simpl. destruct (date_ltb d d0) eqn:Hlt.
    + pose proof Hlt as Hlt'.
      rewrite date_ltb_toordinal in Hlt' by done. apply Z.ltb_lt in Hlt'.
      pose proof (step_advancing d Hv) as Hstep.
      destruct (step d) as [d1|e|] eqn:E; [|right|done].
      * destruct Hstep as [Hv1 Hlt1]. simpl.
        destruct (IH d1 Hv1 ltac:(lia))
          as [(k & d' & H1 & H2 & H3 & H4 & H5 & H6)|(k & x & e & H1 & H2 & H3 & H4 & H5)].
        -- left. exists (S k), d'. simpl. rewrite E. simpl.
           split_and!; try done; [|lia].
           intros [|j] Hj; [by exists d|].
           destruct (H5 j ltac:(lia)) as (x & Hx & Hx0).
           exists x. simpl. by rewrite E.
        -- right. exists (S k), x, e. simpl. rewrite E. simpl. done.
      * by exists 0%nat, d, e.
    + left. exists 0%nat, d. simpl. split_and!; try done. intros j Hj. lia.
Qed.
End advance_until.

(** *** Phase 1 *)

Lemma normalize_item_not_Date (date_list : list date) (item : BudgetItem string) :
  due_date_type item ≠ Some Date → normalize_item date_list item = Ok item.
Proof. intros H. unfold normalize_item. by rewrite decide_False. Qed.

Lemma normalize_item_Date (d0 : date) (rest : list date)
    (item : BudgetItem string) (d : date) :
  due_date_type item = Some Date → due_date item = Some (PyDate d) →
  normalize_item (d0 :: rest) item =
    if date_ltb d d0 then
      match cycle_step (cycle item) with
      | Some step =>
          d' ← advance_until (Z.to_nat (toordinal d0 - toordinal d)) step
                 (d0 :: rest) d;
          Ok (set_due_date item d')
      | None => Ok item
      end
    else Ok item.
Proof.
  intros Ht Hd. unfold normalize_item, due_date_before_first, getattr_due_date.
  rewrite decide_True, Hd by done. simpl.
  destruct (date_ltb d d0); [|done]. by destruct (cycle item).
Qed.

Lemma cycle_step_raises (c : CycleEnum) (step : date → result date)
    (x : date) (e : exn) :
  cycle_step c = Some step → valid_date x → step x = Raise e →
  (e = OverflowError ∨ e = ValueError DateOutOfRange) ∧ year x = MAXYEAR.
Proof.
  intros Hc Hv He.
  assert (∀ k, 0 < k ≤ 12 → add_months x k = Raise e →
            (e = OverflowError ∨ e = ValueError DateOutOfRange)
            ∧ year x = MAXYEAR) as Hmonths.
  { intros k Hk E. destruct (add_months_cases x k Hv) as (_ & _ & Hcase).
    rewrite E in Hcase. destruct Hv as (Hy & Hm & _). unfold MINYEAR, MAXYEAR in *.
    destruct ((1 <=? _) && _) eqn:B; [discriminate|].
    split; [destruct ((- 2 ^ 31 <=? _) && _); injection Hcase as ->; by auto|].
    apply andb_false_iff in B.
    assert (0 ≤ (month x - 1 + k) / 12 ≤ 1) by (Z.div_mod_to_equations; lia).
    destruct B as [B|B]; [apply Z.leb_gt in B|apply Z.leb_gt in B]; lia. }
  destruct c; simplify_eq/=; try (eapply Hmonths; [|done]; lia).
  unfold add_weeks, date_add_days in He.
  destruct (_ && _) eqn:B; [discriminate|]. injection He as <-.
  split; [by left|].
  pose proof (toordinal_in_year x Hv) as Hin. pose proof Hv as (Hy & _).
  unfold MINYEAR, MAXYEAR in *.
  destruct (Z.eq_dec (year x) 9999); [done|].
  pose proof (days_before_year_mono (year x + 1) 9999 ltac:(lia)) as Hmono.
  change (days_before_year 9999) with 3651694 in Hmono.
  pose proof (toordinal_range x ltac:(done)) as Hr.
  apply andb_false_iff in B. unfold MAXORDINAL in B.
  destruct B as [B|B]; [apply Z.ltb_ge in B|apply Z.leb_gt in B]; lia.
Qed.

Lemma date_ltb_year (x d0 : date) : date_ltb x d0 = true → year x ≤ year d0.
Proof.
  unfold date_ltb. destruct (Z.ltb_spec (year x) (year d0)); [lia|].
  destruct (Z.eqb_spec (year x) (year d0)); [lia|discriminate].
Qed.



(** ** The window *)

Lemma make_date_list_Ok (start : date) (duration : Z) (date_list : list date) :
  make_date_list start duration = Ok date_list →
  length date_list = Z.to_nat (duration * 7)
  ∧ ∀ (i : nat) (t : date), date_list !! i = Some t →
      date_add_days start (Z.of_nat i) = Ok t
      ∧ valid_date t ∧ toordinal t = toordinal start + Z.of_nat i.
Proof.
  unfold make_date_list. intros H%mapM_Ok. split.
  - apply Forall2_length in H. rewrite <- H. apply length_seqZ.
  - intros i t Hi.
    destruct (Forall2_lookup_r _ _ _ _ _ H Hi) as (x & Hx & Hadd).
    apply lookup_seqZ in Hx as [-> _]. rewrite Z.add_0_l in Hadd.
    split; [done|]. by apply date_add_days_Ok.
Qed.

Lemma make_date_list_first (start : date) (duration : Z) (date_list : list date) :
  valid_date start → 1 ≤ duration →
  make_date_list start duration = Ok date_list →
  ∃ rest, date_list = start :: rest.
Proof.
  intros Hv Hd H. destruct (make_date_list_Ok _ _ _ H) as [Hlen Hnth].
  destruct date_list as [|t rest]; [simpl in Hlen; lia|].
  exists rest. f_equal. destruct (Hnth 0%nat t eq_refl) as (Ht & _).
  rewrite date_add_days_0 in Ht by done. congruence.
Qed.

Lemma make_date_list_empty (start : date) (duration : Z) :
  duration ≤ 0 → make_date_list start duration = Ok [].
Proof.
  intros H. unfold make_date_list, seqZ.
  replace (Z.to_nat (duration * 7)) with 0%nat by lia. reflexivity.
Qed.

(** ** One item on one day *)

Lemma isoweekday_range (t : date) : 1 ≤ isoweekday t ≤ 7.
Proof.
  unfold isoweekday. pose proof (Z.mod_pos_bound (toordinal t) 7 ltac:(lia)).
  destruct (Z.eqb_spec (toordinal t mod 7) 0); lia.
Qed.

Lemma DayOfWeek_of_isoweekday (t : date) :
  DayOfWeek_of_value (isoweekday t) = Ok (weekday_of t).
Proof.
  unfold weekday_of. pose proof (isoweekday_range t) as H.
  assert (isoweekday t = 1 ∨ isoweekday t = 2 ∨ isoweekday t = 3
          ∨ isoweekday t = 4 ∨ isoweekday t = 5 ∨ isoweekday t = 6
          ∨ isoweekday t = 7) as Hc by lia.
  repeat destruct Hc as [->|Hc]; try rewrite Hc; reflexivity.
Qed.

Lemma same_frame_refl (item : BudgetItem string) : same_frame item item.
Proof. unfold same_frame. split_and!; try done. by left. Qed.

Lemma same_frame_trans (i1 i2 i3 : BudgetItem string) :
  same_frame i1 i2 → same_frame i2 i3 → same_frame i1 i3.
Proof.
  intros (N1 & A1 & C1 & T1 & H1) (N2 & A2 & C2 & T2 & H2).
  unfold same_frame. split_and!; try congruence.
  destruct H2 as [->|(Ht & Hc & d' & Hd')]; [done|].
  right. split_and!; try congruence. by exists d'.
Qed.

Lemma same_frame_set_due_date (item : BudgetItem string) (d' : date) :
  due_date_type item = Some Date → advancing_cycle (cycle item) = true →
  same_frame item (set_due_date item d').
Proof.
  intros Ht Hc. unfold same_frame. split_and!; try done.
  right. split_and!; try done. by exists d'.
Qed.

(** The Date branch of [day_item], on an item that holds the date [d]. *)
Lemma day_item_Date (t : date) (st : spec_float * gmap string pyval)
    (item : BudgetItem string) (d : date) :
  due_date_type item = Some Date → due_date item = Some (PyDate d) →
  day_item t st item =
    if bool_decide (d = t) then
      st' ← apply_item st item;
      match cycle_step (cycle item) with
      | Some step => d' ← step d; Ok (st', set_due_date item d')
      | None => Ok (st', item)
      end
    else Ok (st, item).
Proof.
  intros Ht Hd. unfold day_item, getattr_due_date. rewrite Ht, Hd. simpl.
  case_bool_decide as E; [subst t|done].
  destruct (apply_item st item); simpl; [|done..].
  by destruct (cycle item).
Qed.

(** [day_item] applies the item exactly when the match rule [fires] holds;
    otherwise state and item are as before. *)
Lemma day_item_Ok (t : date) (st st' : spec_float * gmap string pyval)
    (item item' : BudgetItem string) :
  day_item t st item = Ok (st', item') →
  same_frame item item'
  ∧ (if fires t item then apply_item st item = Ok st'
     else st' = st ∧ item' = item).
Proof.
  unfold day_item, fires, getattr_due_date.
  destruct (due_date_type item) as [[]|] eqn:Ht;
    destruct (due_date item) as [v|] eqn:Hd; simpl; try done.
  - rewrite DayOfWeek_of_isoweekday. simpl.
    destruct (eq_DayOfWeek v (weekday_of t)).
    + intros (s & Hs & [= <- <-])%bind_Ok. split; [apply same_frame_refl|done].
    + intros [= <- <-]. split; [apply same_frame_refl|done].
  - destruct (eq_int v (day t)).
    + intros (s & Hs & [= <- <-])%bind_Ok. split; [apply same_frame_refl|done].
    + intros [= <- <-]. split; [apply same_frame_refl|done].
  - destruct (eq_date v t).
    + intros (s & Hs & H)%bind_Ok.
      destruct (cycle item) eqn:Hc; simpl in H;
        first [ injection H as <- <-; split; [apply same_frame_refl|done]
              | apply bind_Ok in H as (d' & _ & [= <- <-]);
                split; [apply same_frame_set_due_date; [done|by rewrite Hc]|done] ].
    + intros [= <- <-]. split; [apply same_frame_refl|done].
  - intros (s & Hs & [= <- <-])%bind_Ok. split; [apply same_frame_refl|done].
  - intros (s & Hs & [= <- <-])%bind_Ok. split; [apply same_frame_refl|done].
  - intros [= <- <-]. split; [apply same_frame_refl|done].
  - intros [= <- <-]. split; [apply same_frame_refl|done].
Qed.

(** ** One day *)

(** The day's loop applies, in budget order, exactly the items that fire. *)
Lemma day_items_Ok (t : date) (budget budget' : list (BudgetItem string))
    (st st' : spec_float * gmap string pyval) :
  day_items t st budget = Ok (st', budget') →
  Forall2 same_frame budget budget'
  ∧ foldM apply_item st (filter (λ item, fires t item = true) budget) = Ok st'.
Proof.
  revert st budget'. induction budget as [|item rest IH]; intros st budget'; simpl.
  - intros [= <- <-]. split; [constructor|done].
  - intros ([st1 item'] & H1 & H)%bind_Ok.
    apply bind_Ok in H as ([st2 rest'] & H2 & [= <- <-]).
    destruct (day_item_Ok _ _ _ _ _ H1) as [Hf Hfire].
    destruct (IH _ _ H2) as [Hfs Hfold].
    split; [by constructor|].
    rewrite filter_cons. destruct (fires t item) eqn:E.
    + rewrite decide_True by done. simpl. rewrite Hfire. done.
    + rewrite decide_False by done. destruct Hfire as [-> _]. done.
Qed.

Lemma foldM_apply_item (l : list (BudgetItem string))
    (b b' : spec_float) (tr tr' : gmap string pyval) :
  foldM apply_item (b, tr) l = Ok (b', tr') →
  foldM balance_add b (amount <$> l) = Ok b'
  ∧ tr' = foldl (λ m item, <[name item := amount item]> m) tr l.
Proof.
  revert b tr. induction l as [|item l IH]; intros b tr; simpl.
  - by intros [= <- <-].
  - intros ([b1 tr1] & H1 & H)%bind_Ok. unfold apply_item in H1. simpl in H1.
    apply bind_Ok in H1 as (b0 & Hb0 & [= <- <-]). rewrite Hb0. simpl.
    by apply IH.
Qed.

(** In a map filled by successive [trans[name] = amount], a name holds the
    amount of the last item of that name. *)
Lemma lookup_foldl_insert (l : list (BudgetItem string))
    (tr : gmap string pyval) (n : string) :
  foldl (λ m item, <[name item := amount item]> m) tr l !! n
  = match last (filter (λ item, name item = n) l) with
    | Some item => Some (amount item)
    | None => tr !! n
    end.
Proof.
  revert tr. induction l as [|item l IH] using rev_ind; intros tr; [done|].
  rewrite foldl_app, filter_app. simpl.
  rewrite filter_cons, filter_nil.
  destruct (decide (name item = n)) as [<-|Hne].
  - rewrite last_snoc. apply lookup_insert_eq.
  - rewrite app_nil_r. rewrite lookup_insert_ne by done. apply IH.
Qed.

(** [balance + v] is the binary64 sum of the balance and the float of [v]. *)
Lemma balance_add_ieee (b b' : spec_float) (v : pyval) :
  balance_add b v = Ok b' →
  ∃ f, amount_as_float v = Some f ∧ b' = SFadd 53 1024 b f.
Proof.
  unfold balance_add, float_of_int, float_of_Z, float_add.
  destruct v as [|x|n|f|s|l|m|w|d]; simpl; try done.
  - destruct x; simpl; intros [= <-]; by eexists.
  - destruct (binary_normalize 53 1024 n 0 false) eqn:E; simpl; try done;
      intros [= <-]; by eexists.
  - intros [= <-]. by eexists.
Qed.

Lemma foldM_balance_add_ieee (amounts : list pyval) (b b' : spec_float) :
  foldM balance_add b amounts = Ok b' → ieee_sum b amounts = Some b'.
Proof.
  revert b. induction amounts as [|v rest IH]; intros b; simpl.
  - by intros [= <-].
  - intros (b1 & Hb1 & Hrest)%bind_Ok.
    destruct (balance_add_ieee b b1 v Hb1) as (f & -> & ->). by apply IH.
Qed.

(** ** The walk *)

Lemma walk_Ok (date_list : list date) (f0 f : Forecast) :
  walk date_list f0 = Ok f →
  entry_date <$> balance_list f = (entry_date <$> balance_list f0) ++ date_list
  ∧ Forall2 same_frame (budget_after f0) (budget_after f)
  ∧ (daily_balance_list f0 = entry_balance <$> balance_list f0 →
     daily_balance_list f = entry_balance <$> balance_list f)
  ∧ (date_list ≠ [] → last (daily_balance_list f) = Some (daily_balance f)).
Proof.
  revert f0. induction date_list as [|t later IH]; intros f0; simpl.
  - intros [= <-]. rewrite app_nil_r. split_and!; try done.
    apply Forall2_same_length_lookup_2; [done|].
    intros i x y Hx Hy. assert (x = y) as -> by congruence. apply same_frame_refl.
  - intros ([[b trans] budget] & Hday & H)%bind_Ok.
    destruct (day_items_Ok _ _ _ _ _ Hday) as [Hframe _].
    destruct (IH _ H) as (Hdates & Hfs & Hpar & Hlast). simpl in *.
    split_and!.
    + rewrite Hdates, fmap_app. simpl. by rewrite <- app_assoc.
    + eapply Forall2_trans; [|done..].
      intros ???; apply same_frame_trans.
    + intros E. apply Hpar. rewrite E, fmap_app. done.
    + intros _. destruct later as [|t' later'].
      * simpl in H. injection H as <-. simpl. by rewrite last_snoc.
      * by apply Hlast.
Qed.

(** ** The whole forecast *)

Lemma normalize_item_frame (date_list : list date) (item item' : BudgetItem string) :
  normalize_item date_list item = Ok item' → same_frame item item'.
Proof.
  unfold normalize_item. case_decide as Ht; [|intros [= <-]; apply same_frame_refl].
  intros ([d before] & _ & H)%bind_Ok.
  destruct before; [|injection H as <-; apply same_frame_refl].
  destruct (cycle item) eqn:Hc;
    first [ injection H as <-; apply same_frame_refl
          | apply bind_Ok in H as (d' & _ & [= <-]);
            apply same_frame_set_due_date; [done|by rewrite Hc] ].
Qed.

Lemma forecast_Ok (balance : spec_float) (start : date) (duration : Z)
    (budget : list (BudgetItem string)) (f : Forecast) :
  forecast balance start duration budget = Ok f →
  ∃ date_list budget1,
    make_date_list start duration = Ok date_list
    ∧ mapM (normalize_item date_list) budget = Ok budget1
    ∧ walk date_list (mkForecast [] [] balance budget1) = Ok f.
Proof.
  unfold forecast. intros (_ & _ & H)%bind_Ok.
  apply bind_Ok in H as (date_list & Hdl & H).
  apply bind_Ok in H as (budget1 & Hb1 & H). eauto.
Qed.

(** C1: when [forecast] produces its timeline, the rows of [balance_list] are
    the days of the window in order: the window is [make_date_list start
    duration], which depends on neither the items nor the balance; it has
    [duration * 7] rows (none for a negative [duration]); row [i] is the day
    [start + i days]; rows are in strictly increasing date order; the first
    is [start]; and [daily_balance_list] is the column of balances. *)
Theorem forecast_timeline (balance : spec_float) (start : date) (duration : Z)
    (budget : list (BudgetItem string)) (f : Forecast) :
  forecast balance start duration budget = Ok f →
  ∃ date_list,
    make_date_list start duration = Ok date_list
    ∧ entry_date <$> balance_list f = date_list
    ∧ length (balance_list f) = Z.to_nat (duration * 7)
    ∧ (0 ≤ duration → Z.of_nat (length (balance_list f)) = duration * 7)
    ∧ (∀ (i : nat) e, balance_list f !! i = Some e →
         date_add_days start (Z.of_nat i) = Ok (entry_date e)
         ∧ toordinal (entry_date e) = toordinal start + Z.of_nat i)
    ∧ (∀ (i j : nat) e1 e2,
         balance_list f !! i = Some e1 → balance_list f !! j = Some e2 →
         (i < j)%nat → date_ltb (entry_date e1) (entry_date e2) = true)
    ∧ (valid_date start → 1 ≤ duration →
       entry_date <$> head (balance_list f) = Some start)
    ∧ daily_balance_list f = entry_balance <$> balance_list f.
Proof.
  intros (date_list & budget1 & Hdl & _ & Hwalk)%forecast_Ok.
  destruct (walk_Ok _ _ _ Hwalk) as (Hdates & _ & Hpar & _). simpl in *.
  destruct (make_date_list_Ok _ _ _ Hdl) as [Hlen Hnth].
  assert (∀ (i : nat) e, balance_list f !! i = Some e →
            date_list !! i = Some (entry_date e)) as Hrow.
  { intros i e Hi. rewrite <- Hdates, list_lookup_fmap, Hi. done. }
  exists date_list. split_and!; try done.
  - by rewrite <- Hlen, <- Hdates, length_fmap.
  - intros Hd. rewrite <- (length_fmap entry_date), Hdates, Hlen. lia.
  - intros i e Hi. destruct (Hnth i _ (Hrow i e Hi)) as (? & ? & ?). done.
  - intros i j e1 e2 Hi Hj Hij.
    destruct (Hnth i _ (Hrow i e1 Hi)) as (_ & Hv1 & Ho1).
    destruct (Hnth j _ (Hrow j e2 Hj)) as (_ & Hv2 & Ho2).
    rewrite date_ltb_toordinal by done. apply Z.ltb_lt. lia.
  - intros Hv Hd. destruct (make_date_list_first _ _ _ Hv Hd Hdl) as [rest ->].
    destruct (balance_list f) as [|e es]; [done|]. simpl in *. congruence.
  - by apply Hpar.
Qed.

(** C7: what [forecast] leaves in the caller's items: as many items, each with
    the name, amount, cycle and [due_date_type] it had; an item is changed only
    if its [due_date_type] is Date (and its cycle advancing), and then only
    in [due_date], which is again a date. *)
Theorem forecast_frame (balance : spec_float) (start : date) (duration : Z)
    (budget : list (BudgetItem string)) (f : Forecast) :
  forecast balance start duration budget = Ok f →
  length (budget_after f) = length budget
  ∧ ∀ (i : nat) item, budget !! i = Some item →
      ∃ item', budget_after f !! i = Some item'
        ∧ name item' = name item ∧ amount item' = amount item
        ∧ cycle item' = cycle item ∧ due_date_type item' = due_date_type item
        ∧ (due_date_type item ≠ Some Date → item' = item)
        ∧ (item' ≠ item → ∃ d', due_date item' = Some (PyDate d')).
Proof.
  intros (date_list & budget1 & _ & Hnorm & Hwalk)%forecast_Ok.
  destruct (walk_Ok _ _ _ Hwalk) as (_ & Hframe2 & _). simpl in Hframe2.
  apply mapM_Ok in Hnorm.
  assert (Forall2 same_frame budget budget1) as Hframe1.
  { eapply Forall2_impl; [done|]. intros ??. apply normalize_item_frame. }
  assert (Forall2 same_frame budget (budget_after f)) as Hframe.
  { eapply Forall2_trans; [|done..]. intros ???; apply same_frame_trans. }
  split; [symmetry; by eapply Forall2_length|].
  intros i item Hi.
  destruct (Forall2_lookup_l _ _ _ _ _ Hframe Hi)
    as (item' & Hi' & HN & HA & HC & HT & Hch).
  exists item'. split_and!; try done.
  - intros Hnd. destruct Hch as [->|(? & _)]; done.
  - intros Hne. destruct Hch as [->|(_ & _ & Hd)]; done.
Qed.

(** ** Statements about the day-by-day walk *)

Lemma fires_Date (t : date) (item : BudgetItem string) (d : date) :
  due_date_type item = Some Date → due_date item = Some (PyDate d) →
  fires t item = bool_decide (d = t).
Proof. intros Ht Hd. unfold fires. by rewrite Ht, Hd. Qed.




(** C6: on one day every item that fires is applied, in budget order: the
    balance after the day is the balance before it plus the amount of each
    fired item in turn, while the day's map holds, under each name, the
    amount of the last fired item of that name; so of two fired items that
    share a name both amounts are in the balance and the later one is in the
    map.  The balance is the binary64 sum of the balance before and the
    amounts ([ieee_sum], the standard library's [SFadd]): from 1000.0 the
    amounts -36 and -4 give 960.0. *)
Theorem same_day_items (t : date) (budget budget' : list (BudgetItem string))
    (b b' : spec_float) (trans trans' : gmap string pyval) :
  day_items t (b, trans) budget = Ok (b', trans', budget') →
  let fired := filter (λ item, fires t item = true) budget in
  foldM balance_add b (amount <$> fired) = Ok b'
  ∧ (∀ n, trans' !! n =
          match last (filter (λ item, name item = n) fired) with
          | Some item => Some (amount item)
          | None => trans !! n
          end)
  ∧ (∀ item1 item2 rest, fired = [item1; item2] ++ rest →
       ∃ b1 b2, balance_add b (amount item1) = Ok b1
                ∧ balance_add b1 (amount item2) = Ok b2
                ∧ foldM balance_add b2 (amount <$> rest) = Ok b')
  ∧ (∀ item1 item2, fired = [item1; item2] → name item1 = name item2 →
       trans' = <[name item2 := amount item2]> trans)
  ∧ ieee_sum b (amount <$> fired) = Some b'
  ∧ (∀ item1 item2 f1 f2, fired = [item1; item2] →
       amount item1 = PyFloat f1 → amount item2 = PyFloat f2 →
       b' = SFadd 53 1024 (SFadd 53 1024 b f1) f2)
  ∧ ieee_sum (S754_finite false 8796093022208000 (-43)) [PyInt (-36); PyInt (-4)]
    = Some (S754_finite false 8444249301319680 (-43)).
Proof.
  intros Hday fired. destruct (day_items_Ok _ _ _ _ _ Hday) as [_ Hfold].
  fold fired in Hfold. destruct (foldM_apply_item _ _ _ _ _ Hfold) as [Hb Htr].
  pose proof (foldM_balance_add_ieee _ _ _ Hb) as Hsum.
  split_and!.
  - done.
  - intros n. rewrite Htr. apply lookup_foldl_insert.
  - intros item1 item2 rest E. rewrite E in Hb. simpl in Hb.
    apply bind_Ok in Hb as (b1 & Hb1 & Hb).
    apply bind_Ok in Hb as (b2 & Hb2 & Hb). eauto.
  - intros item1 item2 E Hn. rewrite Htr, E. simpl. rewrite Hn.
    apply insert_insert_eq.
  - done.
  - intros item1 item2 f1 f2 E E1 E2. rewrite E in Hsum. simpl in Hsum.
    rewrite E1, E2 in Hsum. simpl in Hsum. by injection Hsum as <-.
  - reflexivity.
Qed.

(** ** A yearly item that is ten days overdue *)

Lemma make_date_list_in_range (start : date) (duration : Z) :
  1 ≤ toordinal start → toordinal start + duration * 7 - 1 ≤ MAXORDINAL →
  make_date_list start duration
  = Ok ((λ x, fromordinal (toordinal start + x)) <$> seqZ 0 (duration * 7)).
Proof.
  intros H1 H2. unfold make_date_list. apply mapM_Ok.
  apply Forall2_fmap_r, Forall_Forall2_diag, Forall_forall.
  intros x [Hx1 Hx2]%elem_of_seqZ. apply date_add_days_in_range. lia.
Qed.

(** Twelve months later is at least 365 days later. *)
Lemma add_months_12_ordinal (d d' : date) :
  valid_date d → add_months d 12 = Ok d' →
  toordinal d + 365 ≤ toordinal d'.
Proof.
  intros Hv H. destruct (add_months_cases d 12 Hv) as (_ & _ & Hcase).
  rewrite H in Hcase.
  destruct ((MINYEAR <=? _) && _);
    [|destruct ((- 2 ^ 31 <=? _) && _); discriminate Hcase].
  injection Hcase as ->. destruct Hv as (Hy & Hm & Hd).
  assert ((month d - 1 + 12) / 12 = 1) as -> by (Z.div_mod_to_equations; lia).
  assert ((month d - 1 + 12) mod 12 + 1 = month d) as -> by (Z.div_mod_to_equations; lia).
  unfold toordinal, ymd2ord. simpl. rewrite days_before_year_succ.
  unfold days_in_month, days_before_month in *.
  assert (month d = 1 ∨ month d = 2 ∨ month d = 3 ∨ month d = 4 ∨ month d = 5
          ∨ month d = 6 ∨ month d = 7 ∨ month d = 8 ∨ month d = 9
          ∨ month d = 10 ∨ month d = 11 ∨ month d = 12) as Hc by lia.
  destruct (is_leap (year d)), (is_leap (year d + 1));
    repeat destruct Hc as [Hc|Hc]; rewrite Hc in *; simpl in *; lia.
Qed.

(** A walk over days on which no item fires adds one row per day and leaves
    balance and items alone. *)
Lemma walk_idle (date_list : list date) (f0 : Forecast) :
  (∀ t, t ∈ date_list →
     day_items t (daily_balance f0, ∅) (budget_after f0)
     = Ok (daily_balance f0, ∅, budget_after f0)) →
  walk date_list f0
  = Ok (mkForecast
          (balance_list f0 ++ ((λ t, mkEntry t (daily_balance f0) ∅) <$> date_list))
          (daily_balance_list f0 ++ ((λ _, daily_balance f0) <$> date_list))
          (daily_balance f0)
          (budget_after f0)).
Proof.
  revert f0. induction date_list as [|t later IH]; intros f0 Hidle; simpl.
  - rewrite !app_nil_r. by destruct f0.
  - rewrite Hidle by apply list_elem_of_here. simpl.
    rewrite IH; simpl.
    + by rewrite <- !app_assoc.
    + intros t' Ht'. apply Hidle. by apply list_elem_of_further.
Qed.

(** C8 (as stated, refuted): for the start date 9999-06-15 the item is due on
    9999-06-05, the 12-month step leads to year 10000, and the forecast
    fails with a [ValueError]; there is no final balance. *)
Lemma overdue_yearly_item_in_9999 :
  let item := mkBudgetItem "Licence"%string (PyInt (-100)) YEARLY (Some Date)
                (Some (PyDate (mkdate 9999 6 5))) in
  valid_date (mkdate 9999 6 15)
  ∧ date_add_days (mkdate 9999 6 15) (-10) = Ok (mkdate 9999 6 5)
  ∧ add_months (mkdate 9999 6 5) 12 = Raise (ValueError DateOutOfRange)
  ∧ forecast example_balance (mkdate 9999 6 15) 1 [item]
    = Raise (ValueError DateOutOfRange).
Proof.
  intros item. split; [valid_date_by_computation|].
  split_and!; vm_compute; reflexivity.
Qed.

Lemma forecast_run (balance : spec_float) (start : date) (duration : Z)
    (budget : list (BudgetItem string)) (last_day : date)
    (date_list : list date) (budget1 : list (BudgetItem string)) :
  date_add_days start (7 * duration) = Ok last_day →
  make_date_list start duration = Ok date_list →
  mapM (normalize_item date_list) budget = Ok budget1 →
  forecast balance start duration budget
  = walk date_list (mkForecast [] [] balance budget1).
Proof.
  unfold forecast. intros H1 H2 H3.
  rewrite H1. simpl. rewrite H2. simpl. by rewrite H3.
Qed.

(** C8 (amended): a YEARLY Date item whose [due_date] is ten days before the
    window start, forecast over one week, for every start date whose
    [due_date] falls before year 9999 (so that the next yearly occurrence
    exists): phase 1 makes one 12-month step, which lands on or after the
    start and after the last of the seven days; the item fires on no day;
    every row has the starting balance and an empty map, and the final balance
    is the starting balance (1000.0 when that is the starting balance). *)
Theorem overdue_yearly_item_never_fires (start due : date)
    (balance : spec_float) (nm : string) (amt : pyval) :
  valid_date start → date_add_days start (-10) = Ok due → year due < MAXYEAR →
  let item := mkBudgetItem nm amt YEARLY (Some Date) (Some (PyDate due)) in
  ∃ due' window,
    add_months due 12 = Ok due'
    ∧ date_ltb due start = true ∧ date_ltb due' start = false
    ∧ make_date_list start 1 = Ok window ∧ length window = 7%nat
    ∧ Forall (λ t, date_ltb t due' = true ∧ fires t (set_due_date item due') = false)
        window
    ∧ normalize_item window item = Ok (set_due_date item due')
    ∧ ∃ f, forecast balance start 1 [item] = Ok f
           ∧ balance_list f = (λ t, mkEntry t balance ∅) <$> window
           ∧ daily_balance f = balance
           ∧ budget_after f = [set_due_date item due'].
Proof.
  intros Hv Hdue Hy item.
  destruct (date_add_days_Ok _ _ _ Hdue) as [Hvd Hod].
  pose proof (toordinal_range start Hv) as Hrs.
  pose proof (toordinal_range due Hvd) as Hrd.
  pose proof (toordinal_in_year due Hvd) as Hin.
  pose proof (days_before_year_mono (year due + 1) 9999
                ltac:(unfold MAXYEAR in Hy; lia)) as Hmono.
  change (days_before_year 9999) with 3651694 in Hmono.
  unfold MAXORDINAL in *.
  (* the step *)
  destruct (add_months_cases due 12 Hvd) as (_ & _ & Hstep).
  assert ((month due - 1 + 12) / 12 = 1) as Hq
    by (destruct Hvd as (_ & ? & _); Z.div_mod_to_equations; lia).
  rewrite Hq in Hstep.
  assert (((MINYEAR <=? year due + 1) && (year due + 1 <=? MAXYEAR)) = true) as Hin_range.
  { destruct Hvd as ([? ?] & _). unfold MINYEAR, MAXYEAR in *.
    apply andb_true_intro. split; apply Z.leb_le; lia. }
  rewrite Hin_range in Hstep.
  set (due' := mkdate (year due + 1) ((month due - 1 + 12) mod 12 + 1)
                 (Z.min (day due) (days_in_month (year due + 1)
                                     ((month due - 1 + 12) mod 12 + 1)))) in *.
  destruct (add_months_Ok _ _ _ Hvd Hstep) as (Hvd' & _).
  pose proof (add_months_12_ordinal _ _ Hvd Hstep) as Hod'.
  (* the window *)
  pose proof (make_date_list_in_range start 1 ltac:(lia)
                ltac:(unfold MAXORDINAL; lia)) as Hwin.
  set (window := (λ x, fromordinal (toordinal start + x)) <$> seqZ 0 (1 * 7)) in *.
  destruct (make_date_list_first start 1 _ Hv ltac:(lia) Hwin) as [rest Hrest].
  destruct (make_date_list_Ok _ _ _ Hwin) as [Hlen Hnth].
  assert (date_ltb due start = true) as Hlt
    by (rewrite date_ltb_toordinal by done; apply Z.ltb_lt; lia).
  assert (date_ltb due' start = false) as Hge
    by (rewrite date_ltb_toordinal by done; apply Z.ltb_ge; lia).
  assert (Forall (λ t, date_ltb t due' = true
                       ∧ fires t (set_due_date item due') = false) window) as Hout.
  { apply Forall_lookup. intros i t Hi.
    pose proof (lookup_lt_Some _ _ _ Hi) as Hi7. rewrite Hlen in Hi7.
    destruct (Hnth i t Hi) as (_ & Hvt & Hot).
    assert (toordinal t < toordinal due') by lia.
    split; [rewrite date_ltb_toordinal by done; by apply Z.ltb_lt|].
    rewrite (fires_Date t _ due') by done.
    apply bool_decide_eq_false_2. intros ->. lia. }
  (* phase 1 *)
  assert (normalize_item window item = Ok (set_due_date item due')) as Hnorm.
  { rewrite Hrest. rewrite (normalize_item_Date start rest item due) by done.
    rewrite Hlt. simpl cycle_step. cbv iota.
    replace (Z.to_nat (toordinal start - toordinal due)) with 10%nat by lia.
    simpl. rewrite Hlt, Hstep. simpl. rewrite Hge. reflexivity. }
  clearbody window due'.
  exists due', window. split_and!; try done.
  (* the walk *)
  eexists. split.
  - rewrite (forecast_run balance start 1 [item]
               (fromordinal (toordinal start + 7 * 1)) window
               [set_due_date item due']).
    + apply walk_idle. simpl.
      intros t Ht. rewrite Forall_forall in Hout. destruct (Hout t Ht) as [_ Hf].
      rewrite (day_item_Date t _ _ due') by done.
      rewrite (fires_Date t _ due') in Hf by done. rewrite Hf. reflexivity.
    + apply date_add_days_in_range. unfold MAXORDINAL. lia.
    + done.
    + simpl. by rewrite Hnorm.
  - done.
Qed.

(** ** How the engine can end *)

Section ends_in.
Context (P : option exn → Prop).

Lemma ends_in_bind {A B} (r : result A) (k : A → result B) :
  ends_in P r → (∀ a, r = Ok a → ends_in P (k a)) → ends_in P (r ≫= k).
Proof. destruct r; simpl; auto. Qed.

Lemma ends_in_mapM {A B} (f : A → result B) (l : list A) :
  (∀ x, x ∈ l → ends_in P (f x)) → ends_in P (mapM f l).
Proof.
  induction l as [|x l IH]; intros H; simpl; [done|].
  apply ends_in_bind; [apply H, list_elem_of_here|]. intros y _.
  apply ends_in_bind; [|done].
  apply IH. intros x' Hx'. by apply H, list_elem_of_further.
Qed.

Lemma ends_in_weaken {A} (Q : option exn → Prop) (r : result A) :
  ends_in P r → (∀ o, P o → Q o) → ends_in Q r.
Proof. destruct r; simpl; auto. Qed.
End ends_in.

Lemma clean_no_IndexError (o : option exn) : clean o → no_IndexError o.
Proof. intros (e & -> & [-> | [-> | [-> | ->]]]); by intros [=]. Qed.

Lemma date_add_days_clean (d : date) (n : Z) : ends_in clean (date_add_days d n).
Proof.
  unfold date_add_days. destruct (_ && _); simpl; [done|].
  exists OverflowError. split; [done|]. right. by left.
Qed.

Lemma c_int_clean (n : Z) : ends_in clean (c_int n).
Proof.
  unfold c_int. destruct (_ && _); simpl; [done|].
  eexists. split; [done|]. right. by left.
Qed.

Lemma add_months_clean (d : date) (n : Z) : ends_in clean (add_months d n).
Proof.
  rewrite add_months_unfold. unfold date_of_ints.
  apply ends_in_bind; [apply c_int_clean|]. intros y _.
  apply ends_in_bind; [apply c_int_clean|]. intros m _.
  apply ends_in_bind; [apply c_int_clean|]. intros dd _.
  unfold date_new. destruct (valid_dateb _); simpl; [done|].
  eexists. split; [done|]. by do 3 right.
Qed.

Lemma balance_add_clean (b : spec_float) (v : pyval) : ends_in clean (balance_add b v).
Proof.
  assert (∀ n, ends_in clean (float_of_int n)) as Hf.
  { intros n. unfold float_of_int.
    destruct (float_of_Z n); simpl; try done.
    exists OverflowError. split; [done|]. right. by left. }
  destruct v; simpl; try done; try (exists TypeError; split; [done|by left]).
  - apply ends_in_bind; [apply Hf|done].
  - apply ends_in_bind; [apply Hf|done].
Qed.

Lemma apply_item_clean (st : spec_float * gmap string pyval)
    (item : BudgetItem string) : ends_in clean (apply_item st item).
Proof. unfold apply_item. apply ends_in_bind; [apply balance_add_clean|done]. Qed.

Lemma getattr_due_date_clean {N} (item : BudgetItem N) :
  ends_in clean (getattr_due_date item).
Proof.
  unfold getattr_due_date. destruct (due_date item); simpl; [done|].
  exists AttributeError. split; [done|]. do 2 right. by left.
Qed.

Lemma cycle_step_clean (c : CycleEnum) (step : date → result date) (d : date) :
  cycle_step c = Some step → ends_in clean (step d).
Proof.
  destruct c; intros [= <-]; first [apply add_months_clean|apply date_add_days_clean].
Qed.

Lemma day_item_clean (t : date) (st : spec_float * gmap string pyval)
    (item : BudgetItem string) : ends_in clean (day_item t st item).
Proof.
  unfold day_item.
  destruct (due_date_type item) as [[]|]; [..|done].
  - apply ends_in_bind; [apply getattr_due_date_clean|]. intros v _.
    rewrite DayOfWeek_of_isoweekday. simpl.
    destruct (eq_DayOfWeek _ _); [|done].
    apply ends_in_bind; [apply apply_item_clean|done].
  - apply ends_in_bind; [apply getattr_due_date_clean|]. intros v _.
    destruct (eq_int _ _); [|done].
    apply ends_in_bind; [apply apply_item_clean|done].
  - apply ends_in_bind; [apply getattr_due_date_clean|]. intros v _.
    destruct (eq_date _ _); [|done].
    apply ends_in_bind; [apply apply_item_clean|]. intros st' _.
    destruct (cycle item); try done;
      (apply ends_in_bind; [|done]);
      first [apply add_months_clean|apply date_add_days_clean].
  - apply ends_in_bind; [apply apply_item_clean|done].
Qed.

Lemma day_items_clean (t : date) (st : spec_float * gmap string pyval)
    (budget : list (BudgetItem string)) : ends_in clean (day_items t st budget).
Proof.
  revert st. induction budget as [|item rest IH]; intros st; simpl; [done|].
  apply ends_in_bind; [apply day_item_clean|]. intros [st1 item'] _.
  apply ends_in_bind; [apply IH|]. by intros [st2 rest'] _.
Qed.

Lemma walk_clean (date_list : list date) (f0 : Forecast) :
  ends_in clean (walk date_list f0).
Proof.
  revert f0. induction date_list as [|t later IH]; intros f0; simpl; [done|].
  apply ends_in_bind; [apply day_items_clean|]. intros [[b trans] budget] _.
  apply IH.
Qed.

(** The loop cannot raise what its steps do not raise; cut off it is not,
    by [advance_until_terminates], on calendar dates. *)
Lemma advance_until_raises (P : option exn → Prop) (fuel : nat)
    (step : date → result date) (d0 : date) (rest : list date) (d : date) :
  P None → (∀ x, ends_in P (step x)) →
  ends_in P (advance_until fuel step (d0 :: rest) d).
Proof.
  intros HP Hstep. revert d. induction fuel as [|fuel IH]; intros d; simpl.
  - by destruct (date_ltb d d0).
  - destruct (date_ltb d d0); [|done].
    apply ends_in_bind; [apply Hstep|]. intros d' _. apply IH.
Qed.

Lemma normalize_item_no_IndexError (d0 : date) (rest : list date)
    (item : BudgetItem string) :
  ends_in no_IndexError (normalize_item (d0 :: rest) item).
Proof.
  assert (∀ c step fuel d, cycle_step c = Some step →
            ends_in no_IndexError
              (d' ← advance_until fuel step (d0 :: rest) d;
               Ok (set_due_date item d'))) as Hloop.
  { intros c step fuel d Hc. apply ends_in_bind; [|done].
    apply advance_until_raises; [done|]. intros x.
    eapply ends_in_weaken; [by eapply cycle_step_clean|apply clean_no_IndexError]. }
  unfold normalize_item. case_decide; [|done].
  unfold due_date_before_first.
  apply ends_in_bind.
  { apply ends_in_bind.
    - eapply ends_in_weaken; [apply getattr_due_date_clean|apply clean_no_IndexError].
    - intros v _. simpl. destruct v; done. }
  intros [d before] _. destruct before; [|done].
  destruct (cycle item); try done.
  - by apply (Hloop BIWEEKLY).
  - by apply (Hloop BIMONTHLY).
  - by apply (Hloop QUARTERLY).
  - by apply (Hloop YEARLY).
Qed.

Lemma normalize_item_clean (d0 : date) (rest : list date)
    (item : BudgetItem string) :
  valid_date d0 → dates_valid item →
  ends_in clean (normalize_item (d0 :: rest) item).
Proof.
  intros Hv0 Hvalid.
  destruct (decide (due_date_type item = Some Date)) as [Ht|Ht];
    [|by rewrite normalize_item_not_Date].
  destruct (due_date item) as [v|] eqn:Hd.
  2:{ unfold normalize_item, due_date_before_first, getattr_due_date.
      rewrite decide_True, Hd by done. simpl.
      exists AttributeError. split; [done|]. do 2 right. by left. }
  destruct v as [| | | | | | | |d];
    try (unfold normalize_item, due_date_before_first, getattr_due_date;
         rewrite decide_True, Hd by done; simpl;
         exists TypeError; split; [done|by left]).
  rewrite (normalize_item_Date d0 rest item d Ht Hd).
  destruct (date_ltb d d0); [|done].
  destruct (cycle_step (cycle item)) as [step|] eqn:Hstep; [|done].
  pose proof (cycle_step_advancing _ _ Hstep) as Hadv.
  destruct (advance_until_terminates step Hadv d0 rest Hv0 _ d (Hvalid d Hd) (le_n _))
    as [(k & d' & -> & _)|(k & x & e & -> & _ & _ & _ & He)]; [done|].
  simpl. pose proof (cycle_step_clean _ _ x Hstep) as Hc. by rewrite He in Hc.
Qed.

Lemma normalize_item_on_empty_window (item : BudgetItem string) :
  has_due_date item → due_date_type item = Some Date →
  normalize_item [] item = Raise IndexError.
Proof.
  intros Hattr Ht. unfold normalize_item, due_date_before_first, getattr_due_date.
  rewrite decide_True by done.
  destruct (Hattr ltac:(by rewrite Ht)) as [v ->]. reflexivity.
Qed.

(** On calendar dates [forecast] is never cut off: it returns, or raises one
    of the engine's exceptions, or, on an empty window, [IndexError]. *)
Lemma forecast_never_diverges (balance : spec_float) (start : date)
    (duration : Z) (budget : list (BudgetItem string)) :
  valid_date start → Forall dates_valid budget →
  ends_in (λ o, ∃ e, o = Some e
                     ∧ (engine_exn e ∨ (e = IndexError ∧ duration ≤ 0)))
    (forecast balance start duration budget).
Proof.
  intros Hv Hvalid. unfold forecast.
  assert (∀ o, clean o →
            ∃ e, o = Some e ∧ (engine_exn e ∨ (e = IndexError ∧ duration ≤ 0)))
    as Hweak by (intros o (e & -> & He); eauto).
  apply ends_in_bind.
  { eapply ends_in_weaken; [apply date_add_days_clean|done]. }
  intros _ _. apply ends_in_bind.
  { eapply ends_in_weaken; [|exact Hweak].
    apply ends_in_mapM. intros x _. apply date_add_days_clean. }
  intros date_list Hdl. apply ends_in_bind.
  - apply ends_in_mapM. intros item Hitem.
    rewrite Forall_forall in Hvalid.
    destruct date_list as [|d0 rest].
    + destruct (Z.le_gt_cases duration 0) as [Hd|Hd].
      * unfold normalize_item, due_date_before_first, getattr_due_date.
        case_decide; [|done]. destruct (due_date item); simpl.
        -- exists IndexError. eauto.
        -- exists AttributeError. split; [done|]. left. do 2 right. by left.
      * destruct (make_date_list_Ok _ _ _ Hdl) as [Hlen _]. simpl in Hlen. lia.
    + destruct (make_date_list_Ok _ _ _ Hdl) as [_ Hnth].
      destruct (Hnth 0%nat d0 eq_refl) as (_ & Hv0 & _).
      eapply ends_in_weaken; [by apply normalize_item_clean; auto|done].
  - intros budget1 _. eapply ends_in_weaken; [apply walk_clean|done].
Qed.

Lemma forecast_no_IndexError (balance : spec_float) (start : date)
    (duration : Z) (budget : list (BudgetItem string)) :
  1 ≤ duration →
  ends_in no_IndexError (forecast balance start duration budget).
Proof.
  intros Hd. unfold forecast. apply ends_in_bind.
  { eapply ends_in_weaken; [apply date_add_days_clean|apply clean_no_IndexError]. }
  intros _ _. apply ends_in_bind.
  { eapply ends_in_weaken; [|apply clean_no_IndexError].
    apply ends_in_mapM. intros x _. apply date_add_days_clean. }
  intros date_list Hdl. destruct (make_date_list_Ok _ _ _ Hdl) as [Hlen _].
  destruct date_list as [|d0 rest]; [simpl in Hlen; lia|].
  apply ends_in_bind.
  - apply ends_in_mapM. intros item _. apply normalize_item_no_IndexError.
  - intros budget1 _.
    eapply ends_in_weaken; [apply walk_clean|apply clean_no_IndexError].
Qed.

Lemma mapM_normalize_on_empty_window (budget : list (BudgetItem string)) :
  Forall has_due_date budget →
  mapM (normalize_item []) budget
  = if decide (Exists (λ item, due_date_type item = Some Date) budget)
    then Raise IndexError else Ok budget.
Proof.
  induction 1 as [|item rest Hattr _ IH].
  - destruct (decide (Exists _ [])) as [He|_]; [by apply Exists_nil in He|done].
  - cbn [mapM]. destruct (decide (due_date_type item = Some Date)) as [Ht|Ht].
    + rewrite normalize_item_on_empty_window by done.
      destruct (decide (Exists _ (item :: rest))) as [_|Hne]; [done|].
      destruct Hne. by apply Exists_cons_hd.
    + rewrite normalize_item_not_Date by done. rewrite IH.
      destruct (decide (Exists _ rest)) as [He|He];
        destruct (decide (Exists _ (item :: rest))) as [He'|He']; try done.
      * destruct He'. by apply Exists_cons_tl.
      * apply Exists_cons in He' as [?|?]; done.
Qed.

(** C10: with [duration = 0] the window is empty; if some item is a Date
    item, phase 1 reads [date_list[0]] of the empty list and the call fails
    with [IndexError], and if none is the call returns an empty timeline.
    With [duration >= 1] the window has a first day and no call fails with
    [IndexError]. *)
Theorem first_day_lookup (balance : spec_float) (start : date) (duration : Z)
    (budget : list (BudgetItem string)) :
  valid_date start → Forall has_due_date budget →
  (duration = 0 →
     make_date_list start duration = Ok []
     ∧ first_day [] = Raise IndexError
     ∧ (Exists (λ item, due_date_type item = Some Date) budget →
        forecast balance start duration budget = Raise IndexError)
     ∧ (¬ Exists (λ item, due_date_type item = Some Date) budget →
        forecast balance start duration budget
        = Ok (mkForecast [] [] balance budget)))
  ∧ (1 ≤ duration →
     forecast balance start duration budget ≠ Raise IndexError
     ∧ ∀ date_list, make_date_list start duration = Ok date_list →
         first_day date_list = Ok start).
Proof.
  intros Hv Hattr. split.
  - intros ->. split; [by apply make_date_list_empty|]. split; [done|].
    pose proof (mapM_normalize_on_empty_window budget Hattr) as Hnorm.
    split; intros He.
    + unfold forecast. rewrite date_add_days_0 by done. simpl.
      rewrite Hnorm. by rewrite decide_True.
    + unfold forecast. rewrite date_add_days_0 by done. simpl.
      rewrite Hnorm. by rewrite decide_False.
  - intros Hd. split.
    + pose proof (forecast_no_IndexError balance start duration budget Hd) as H.
      intros E. rewrite E in H. by apply H.
    + intros date_list Hdl.
      by destruct (make_date_list_first _ _ _ Hv Hd Hdl) as [rest ->].
Qed.

(** ** Statements about the item model *)

(** What the constructor leaves satisfies the conditions the statements about
    the engine put on items. *)
Lemma BudgetItem_init_well_formed {N} (nm : N) (amt : pyval) (c : CycleEnum)
    (v : pyval) (item : BudgetItem N) :
  BudgetItem_init nm amt c v = Ok item →
  has_due_date item ∧ ((∀ d, v = PyDate d → valid_date d) → dates_valid item).
Proof.
  unfold has_due_date, dates_valid.
  destruct v; intros [= <-]; simpl; split; try (intros _; by eexists);
    try (by intros [? [=]]); try (by intros _ ? [=]).
  intros Hv d' [= <-]. by apply Hv.
Qed.

(** C4 (as stated, refuted): the constructor accepts a string as [due_date]
    without an error. *)
Lemma BudgetItem_init_accepts_a_string :
  supported_due_date (PyStr "tomorrow") = false
  ∧ BudgetItem_init "Rent"%string (PyInt (-50)) MONTHLY (PyStr "tomorrow")
    = Ok (mkBudgetItem "Rent"%string (PyInt (-50)) MONTHLY None None).
Proof. split; reflexivity. Qed.

(** C4 (amended): the constructor never fails.  For a [due_date] that is an
    integer, a day of the week, a date or absent it returns an item of the
    matching kind holding that value; for any other value it returns an item
    whose [due_date_type] is [None] and that has no [due_date], which is none
    of the four kinds and which the forecast passes over on every day. *)
Theorem BudgetItem_init_total (nm : string) (amt : pyval) (c : CycleEnum)
    (v : pyval) :
  (∃ item, BudgetItem_init nm amt c v = Ok item)
  ∧ (if supported_due_date v
     then ∃ kind, BudgetItem_init nm amt c v
                  = Ok (mkBudgetItem nm amt c (Some kind) (Some v))
     else BudgetItem_init nm amt c v = Ok (mkBudgetItem nm amt c None None))
  ∧ (∀ item date_list t st,
       supported_due_date v = false → BudgetItem_init nm amt c v = Ok item →
       due_date_type item = None
       ∧ normalize_item date_list item = Ok item
       ∧ fires t item = false
       ∧ day_item t st item = Ok (st, item)).
Proof.
  split_and!.
  - destruct v; simpl; eauto.
  - destruct v; simpl; eauto.
  - intros item date_list t st Hv. destruct v; try discriminate Hv;
      intros [= <-]; done.
Qed.

(** ** Statements about the decoder *)

Lemma require_fields_first_missing (fields : list string)
    (item : gmap string pyval) :
  require_fields fields item
  = match first_missing fields item with
    | Some field => Raise (ValueError (MissingField field))
    | None => Ok tt
    end.
Proof.
  induction fields as [|field rest IH]; simpl; [done|].
  by destruct (item !! field).
Qed.

Lemma first_missing_None (fields : list string) (item : gmap string pyval)
    (field : string) :
  first_missing fields item = None → field ∈ fields → is_Some (item !! field).
Proof.
  induction fields as [|f rest IH]; simpl; [by intros _ ?%elem_of_nil|].
  destruct (item !! f) eqn:E; [|done].
  intros H [->|Hin]%elem_of_cons; [by rewrite E|by apply IH].
Qed.

Lemma decode_item_missing_main_field (item : gmap string pyval) (field : string) :
  first_missing required_main_fields item = Some field →
  decode_item item = Raise (ValueError (MissingField field)).
Proof.
  intros H. unfold decode_item. rewrite require_fields_first_missing, H. done.
Qed.

Lemma decode_item_missing_due_date (item : gmap string pyval)
    (sc st : string) (c : CycleEnum) (kind : DueDateType) :
  first_missing required_main_fields item = None →
  item !! "cycle"%string = Some (PyStr sc) → CycleEnum_members sc = Some c →
  item !! "due_date_type"%string = Some (PyStr st) →
  DueDateType_members st = Some kind → kind ≠ Daily →
  item !! "due_date"%string = None →
  decode_item item = Raise (ValueError (MissingField "due_date")).
Proof.
  intros Hmain Hc Hc' Ht Ht' Hk Hd. unfold decode_item.
  rewrite require_fields_first_missing, Hmain. simpl.
  destruct (first_missing_None _ _ "name"%string Hmain) as [vn Hn];
    [set_solver|].
  destruct (first_missing_None _ _ "amount"%string Hmain) as [va Ha];
    [set_solver|].
  unfold getitem, require_due_date. rewrite Hn, Ha, Hc, Ht, Hd. simpl.
  rewrite Hc', Ht'. simpl. by destruct kind.
Qed.

Lemma decode_item_terminates (item : gmap string pyval) :
  decode_item item ≠ Diverged.
Proof.
  assert (∀ A (r : result A), ends_in (λ o, o ≠ None) r → r ≠ Diverged) as Hend
    by (intros A [] H; done).
  assert (∀ N (n : N) a c v, ends_in (λ o, o ≠ None) (BudgetItem_init n a c v)) as Hinit
    by (intros N n a c v; by destruct v).
  assert (∀ m k, ends_in (λ o, o ≠ None) (getitem m k)) as Hget
    by (intros m k; unfold getitem; by destruct (m !! k)).
  assert (∀ E (members : string → option E) v,
            ends_in (λ o, o ≠ None) (enum_getitem members v)) as Henum.
  { intros E members v. destruct v; simpl; try done. by destruct (members s). }
  assert (∀ v, ends_in (λ o, o ≠ None) (as_c_int v)) as Hint.
  { intros v. destruct v; simpl; try done. by destruct (_ && _). }
  apply Hend. unfold decode_item.
  apply ends_in_bind.
  { rewrite require_fields_first_missing. by destruct (first_missing _ _). }
  intros _ _.
  apply ends_in_bind; [done|]; intros nm _.
  apply ends_in_bind; [done|]; intros amt _.
  apply ends_in_bind; [done|]; intros vcycle _.
  apply ends_in_bind; [done|]; intros c _.
  apply ends_in_bind; [done|]; intros vtype _.
  apply ends_in_bind; [done|]; intros kind _.
  assert (ends_in (λ o, o ≠ None) (require_due_date item)) as Hdue
    by (unfold require_due_date; by destruct (item !! _)).
  destruct kind.
  - apply ends_in_bind; [done|]. intros payload _.
    destruct (enum_getitem DayOfWeek_members payload) as [d|e|] eqn:E; [done| |].
    + by destruct e.
    + pose proof (Henum _ DayOfWeek_members payload) as H. by rewrite E in H.
  - apply ends_in_bind; [done|]. intros payload _. done.
  - apply ends_in_bind; [done|]. intros payload _.
    destruct payload; try done.
    apply ends_in_bind.
    { rewrite require_fields_first_missing. by destruct (first_missing _ _). }
    intros _ _. apply ends_in_bind; [|done].
    unfold date_of_kwargs. case_decide; [|done].
    do 6 (apply ends_in_bind; [done|]; intros ? _).
    unfold date_new. by destruct (valid_dateb _).
  - done.
Qed.

Lemma DueDateType_members_Daily (s : string) :
  DueDateType_members s = Some Daily → s = "Daily"%string.
Proof.
  unfold DueDateType_members.
  destruct (String.eqb_spec s "WeekDay") as [->|?]; [intros [=]|].
  destruct (String.eqb_spec s "DateNumber") as [->|?]; [intros [=]|].
  destruct (String.eqb_spec s "Date") as [->|?]; [intros [=]|].
  destruct (String.eqb_spec s "Daily") as [->|?]; [done|intros [=]].
Qed.

Lemma decode_item_lacking (item : gmap string pyval) :
  lacking item → ∃ e, decode_item item = Raise e.
Proof.
  intros Hl. destruct (decode_item item) as [b|e|] eqn:E; [|by eauto|].
  2:{ by apply decode_item_terminates in E. }
  exfalso. unfold decode_item in E.
  rewrite require_fields_first_missing in E.
  destruct (first_missing required_main_fields item) as [f|] eqn:Hmain;
    [simpl in E; discriminate E|].
  destruct Hl as [[f Hf]|[Hd Ht]]; [congruence|].
  simpl in E.
  apply bind_Ok in E as (nm & _ & E). apply bind_Ok in E as (amt & _ & E).
  apply bind_Ok in E as (vcycle & _ & E). apply bind_Ok in E as (c & _ & E).
  apply bind_Ok in E as (vtype & Hvtype & E).
  apply bind_Ok in E as (kind & Hkind & E).
  unfold require_due_date in E. rewrite Hd in E.
  destruct kind; try discriminate E.
  unfold getitem in Hvtype.
  destruct (item !! "due_date_type"%string) as [v|]; [|discriminate Hvtype].
  injection Hvtype as ->. apply Ht. f_equal.
  destruct vtype; try discriminate Hkind. simpl in Hkind.
  destruct (DueDateType_members s) as [k|] eqn:Hs; [|discriminate Hkind].
  injection Hkind as ->. by rewrite (DueDateType_members_Daily s Hs).
Qed.

Lemma mapM_first_failure {A B} (f : A → result B) (done rest : list A)
    (ys : list B) (x : A) (e : exn) :
  mapM f done = Ok ys → f x = Raise e → mapM f (done ++ x :: rest) = Raise e.
Proof.
  revert ys. induction done as [|a done IH]; intros ys; simpl.
  - intros _ ->. reflexivity.
  - intros (y & -> & H)%bind_Ok Hx. apply bind_Ok in H as (ys' & Hys & _).
    simpl. by rewrite (IH ys').
Qed.

Lemma mapM_some_failure {A B} (f : A → result B) (l : list A) :
  (∀ x, f x ≠ Diverged) → Exists (λ x, ∃ e, f x = Raise e) l →
  ∃ e, mapM f l = Raise e.
Proof.
  intros Hterm. induction 1 as [x l [e He]|x l _ [e IH]]; simpl.
  - exists e. by rewrite He.
  - destruct (f x) as [y|e'|] eqn:E; simpl; [|by eauto|by apply Hterm in E].
    exists e. by rewrite IH.
Qed.

(** C9 (as stated, refuted): a record that lacks [due_date], with a
    [due_date_type] that is not Daily, on which decoding fails with a
    [KeyError] for the unknown cycle name and not with a missing-field
    error. *)
Lemma decode_reports_unknown_cycle_first :
  let record : gmap string pyval :=
    {[ "name"%string := PyStr "Rent"; "amount"%string := PyInt (-50);
       "cycle"%string := PyStr "FORTNIGHTLY";
       "due_date_type"%string := PyStr "Date" ]} in
  lacking record
  ∧ record !! "due_date"%string = None
  ∧ record !! "due_date_type"%string = Some (PyStr "Date")
  ∧ decode [record] = Raise KeyError.
Proof.
  intros record.
  assert (record !! "due_date"%string = None) as Hd by (vm_compute; reflexivity).
  assert (record !! "due_date_type"%string = Some (PyStr "Date")) as Ht
    by (vm_compute; reflexivity).
  split; [right; split; [done|]; rewrite Ht; by intros [=]|].
  split; [done|]. split; [done|]. vm_compute. reflexivity.
Qed.

(** C9 (amended): decoding fails whenever any record lacks one of [name],
    [amount], [cycle], [due_date_type], or lacks [due_date] while its
    [due_date_type] is not Daily.  The failure is the one of the first record
    that fails, at its first failing check: when the records before it decode,
    a record that lacks a main field fails with the missing-field error
    naming the first absent one in the order name, amount, cycle,
    due_date_type (so a record with a name and no amount names [amount]), and
    a record with all main fields, a known cycle and a known
    [due_date_type] other than Daily that lacks [due_date] fails with the
    missing-field error naming [due_date].  A failure returns no items: a
    result is a full list, one item per record. *)
Theorem decode_missing_field (before rest : list (gmap string pyval))
    (item : gmap string pyval) (decoded : list (BudgetItem pyval)) :
  decode before = Ok decoded →
  (∀ field, first_missing required_main_fields item = Some field →
     decode (before ++ item :: rest) = Raise (ValueError (MissingField field)))
  ∧ (is_Some (item !! "name"%string) → item !! "amount"%string = None →
     decode (before ++ item :: rest) = Raise (ValueError (MissingField "amount")))
  ∧ (∀ sc st c kind,
       first_missing required_main_fields item = None →
       item !! "cycle"%string = Some (PyStr sc) → CycleEnum_members sc = Some c →
       item !! "due_date_type"%string = Some (PyStr st) →
       DueDateType_members st = Some kind → kind ≠ Daily →
       item !! "due_date"%string = None →
       decode (before ++ item :: rest)
       = Raise (ValueError (MissingField "due_date")))
  ∧ (∀ records, Exists lacking records → ∃ e, decode records = Raise e)
  ∧ (∀ records items, decode records = Ok items →
       length items = length records
       ∧ Forall2 (λ record item, decode_item record = Ok item) records items).
Proof.
  intros Hbefore. unfold decode in *. split_and!.
  - intros field Hf. eapply mapM_first_failure; [done|].
    by apply decode_item_missing_main_field.
  - intros [v Hn] Ha. eapply mapM_first_failure; [done|].
    apply decode_item_missing_main_field. simpl. by rewrite Hn, Ha.
  - intros sc st c kind Hmain Hc Hc' Ht Ht' Hk Hd.
    eapply mapM_first_failure; [done|].
    by eapply decode_item_missing_due_date.
  - intros records Hex. apply mapM_some_failure.
    + apply decode_item_terminates.
    + eapply Exists_impl; [done|]. apply decode_item_lacking.
  - intros records items H%mapM_Ok. split; [|done].
    symmetry. by eapply Forall2_length.
Qed.

(** ** Worked examples *)

Lemma forecast_timeline_witness :
  ∃ f, forecast example_balance (mkdate 2026 11 4) 2 example_budget = Ok f
       ∧ length (balance_list f) = 14%nat
       ∧ entry_date <$> head (balance_list f) = Some (mkdate 2026 11 4).
Proof.
  destruct (forecast example_balance (mkdate 2026 11 4) 2 example_budget)
    as [f|e|] eqn:Hf; [|vm_compute in Hf; discriminate Hf..].
  exists f.
  destruct (forecast_timeline _ _ _ _ f Hf)
    as (date_list & _ & _ & Hlen & _ & _ & _ & Hfirst & _).
  split; [reflexivity|]. split; [exact Hlen|].
  apply Hfirst; [valid_date_by_computation|lia].
Defined.



Lemma same_day_items_witness :
  ∃ b' budget',
    day_items (mkdate 2026 11 4) (example_balance, ∅) [food; snack]
    = Ok (b', {[ "Food"%string := PyInt (-4) ]}, budget')
    ∧ foldM balance_add example_balance [PyInt (-36); PyInt (-4)] = Ok b'
    ∧ b' = S754_finite false 8444249301319680 (-43).          (* 960.0 *)
Proof.
  destruct (day_items (mkdate 2026 11 4) (example_balance, ∅) [food; snack])
    as [[[b' trans'] budget']|e|] eqn:H; [|vm_compute in H; discriminate H..].
  destruct (same_day_items _ _ _ _ _ _ _ H) as (Hb & _ & _ & Htrans & Hsum & _).
  exists b', budget'. split; [|split; [exact Hb|]].
  - rewrite (Htrans food snack eq_refl eq_refl). reflexivity.
  - change (Some (S754_finite false 8444249301319680 (-43)) = Some b') in Hsum.
    by injection Hsum as <-.
Defined.

Lemma forecast_frame_witness :
  ∃ f, forecast example_balance (mkdate 2026 11 4) 2 example_budget = Ok f
       ∧ length (budget_after f) = 5%nat
       ∧ budget_after f !! 1%nat = Some food.
Proof.
  destruct (forecast example_balance (mkdate 2026 11 4) 2 example_budget)
    as [f|e|] eqn:Hf; [|vm_compute in Hf; discriminate Hf..].
  exists f. destruct (forecast_frame _ _ _ _ f Hf) as [Hlen Hitems].
  split; [reflexivity|]. split; [exact Hlen|].
  destruct (Hitems 1%nat food eq_refl) as (item' & -> & _ & _ & _ & _ & Hsame & _).
  f_equal. by apply Hsame.
Defined.

(** The mutation is visible to the caller: after two weeks from 2026-11-04
    the quarterly item that was due on 2019-01-10 is due on 2027-01-10. *)
Example forecast_moves_the_due_date :
  ∃ f, forecast example_balance (mkdate 2026 11 4) 2 example_budget = Ok f
       ∧ budget_after f !! 3%nat = Some (set_due_date sewer (mkdate 2027 1 10)).
Proof. eexists. split; vm_compute; reflexivity. Qed.

Lemma overdue_yearly_item_never_fires_witness :
  ∃ f, forecast example_balance (mkdate 2026 11 4) 1 [overdue_yearly] = Ok f
       ∧ daily_balance f = example_balance
       ∧ length (balance_list f) = 7%nat.
Proof.
  destruct (overdue_yearly_item_never_fires (mkdate 2026 11 4)
              (mkdate 2026 10 25) example_balance "Licence" (PyInt (-100))
              ltac:(valid_date_by_computation) eq_refl
              ltac:(unfold MAXYEAR; simpl; lia))
    as (due' & window & _ & _ & _ & _ & Hlen & _ & _ & f & Hf & Hrows & Hbal & _).
  exists f. split; [exact Hf|]. split; [exact Hbal|].
  by rewrite Hrows, length_fmap.
Defined.

Lemma decode_missing_field_witness :
  decode [good_record; record_without_amount]
  = Raise (ValueError (MissingField "amount")).
Proof.
  destruct (decode [good_record]) as [decoded|e|] eqn:Hgood;
    [|vm_compute in Hgood; discriminate Hgood..].
  destruct (decode_missing_field [good_record] [] record_without_amount
              decoded Hgood) as (_ & H & _).
  apply H; [by eexists; vm_compute|by vm_compute].
Defined.

Lemma first_day_lookup_witness :
  forecast example_balance (mkdate 2026 11 4) 0 example_budget
  = Raise IndexError
  ∧ forecast example_balance (mkdate 2026 11 4) 2 example_budget
    ≠ Raise IndexError.
Proof.
  assert (Forall has_due_date example_budget) as Hattr
    by (repeat constructor; intros _; by eexists).
  split.
  - destruct (first_day_lookup example_balance (mkdate 2026 11 4) 0
                example_budget ltac:(valid_date_by_computation) Hattr)
      as [H _].
    destruct (H eq_refl) as (_ & _ & Hfail & _). apply Hfail.
    do 3 apply Exists_cons_tl. by apply Exists_cons_hd.
  - destruct (first_day_lookup example_balance (mkdate 2026 11 4) 2
                example_budget ltac:(valid_date_by_computation) Hattr)
      as [_ H].
    apply H. lia.
Defined.

Lemma BudgetItem_init_total_witness :
  BudgetItem_init "Rent"%string (PyInt (-50)) MONTHLY (PyList [PyInt 1])
  = Ok (mkBudgetItem "Rent"%string (PyInt (-50)) MONTHLY None None).
Proof.
  destruct (BudgetItem_init_total "Rent" (PyInt (-50)) MONTHLY (PyList [PyInt 1]))
    as (_ & H & _).
  exact H.
Defined.

(** * Further properties *)

(** ** The calendar helpers *)

Lemma isoweekday_add_7 (d d' : date) (n : Z) :
  toordinal d' = toordinal d + 7 * n → isoweekday d' = isoweekday d.
Proof.
  intros E. unfold isoweekday. rewrite E.
  replace (toordinal d + 7 * n) with (toordinal d + n * 7) by lia.
  by rewrite Z_mod_plus_full.
Qed.

(** X1: [add_weeks] moves a date by exactly [7 * weeks] days, forward or
    backward: it returns a date if and only if that day exists in the
    calendar, the date returned is that day, it falls on the same day of the
    week, and any other outcome is an [OverflowError]. *)
Theorem add_weeks_exact (d : date) (weeks : Z) :
  valid_date d →
  (1 ≤ toordinal d + 7 * weeks ≤ MAXORDINAL ↔ ∃ d', add_weeks d weeks = Ok d')
  ∧ (∀ d', add_weeks d weeks = Ok d' →
       valid_date d' ∧ toordinal d' = toordinal d + 7 * weeks
       ∧ isoweekday d' = isoweekday d
       ∧ (0 < weeks → date_ltb d d' = true)
       ∧ (weeks < 0 → date_ltb d' d = true)
       ∧ (weeks = 0 → d' = d))
  ∧ (∀ e, add_weeks d weeks = Raise e → e = OverflowError)
  ∧ add_weeks d weeks ≠ Diverged.
Proof.
  intros Hv. unfold add_weeks. split_and!.
  - split.
    + intros H. rewrite date_add_days_in_range by done. eauto.
    + intros [d' H]. unfold date_add_days in H.
      destruct (_ && _) eqn:E; [|discriminate].
      apply andb_prop in E as [E1 E2]. apply Z.ltb_lt in E1. apply Z.leb_le in E2.
      lia.
  - intros d' H. destruct (date_add_days_Ok _ _ _ H) as [Hv' Ho].
    split_and!; try done.
    + by apply (isoweekday_add_7 d d' weeks).
    + intros Hw. rewrite date_ltb_toordinal by done. apply Z.ltb_lt. lia.
    + intros Hw. rewrite date_ltb_toordinal by done. apply Z.ltb_lt. lia.
    + intros ->. apply toordinal_inj; [done..|lia].
  - intros e H. destruct (date_add_days_raises d (7 * weeks)) as [[d' ?]|?]; congruence.
  - intros H. destruct (date_add_days_raises d (7 * weeks)) as [[d' ?]|?]; congruence.
Qed.

Lemma add_weeks_exact_witness :
  toordinal (mkdate 2026 11 18) = toordinal (mkdate 2026 11 4) + 7 * 2
  ∧ isoweekday (mkdate 2026 11 18) = isoweekday (mkdate 2026 11 4).
Proof.
  destruct (add_weeks_exact (mkdate 2026 11 4) 2 ltac:(valid_date_by_computation))
    as (_ & H & _).
  destruct (H (mkdate 2026 11 18) eq_refl) as (_ & Ho & Hw & _).
  by split.
Defined.

(** X2: [add_weeks] is undone by the opposite number of weeks, and two
    shifts in a row are the shift by the sum. *)
Theorem add_weeks_round_trip (d d' : date) (a : Z) :
  valid_date d → add_weeks d a = Ok d' →
  add_weeks d' (- a) = Ok d
  ∧ ∀ b, add_weeks d' b = add_weeks d (a + b).
Proof.
  intros Hv H. unfold add_weeks in *.
  destruct (date_add_days_Ok _ _ _ H) as [Hv' Ho].
  pose proof (toordinal_range d Hv) as Hr. split.
  - rewrite date_add_days_in_range by lia.
    f_equal. rewrite <- (fromordinal_toordinal d Hv). f_equal. lia.
  - intros b. unfold date_add_days. rewrite Ho.
    by replace (toordinal d + 7 * a + 7 * b) with (toordinal d + 7 * (a + b)) by lia.
Qed.

Lemma add_weeks_round_trip_witness :
  add_weeks (mkdate 2026 11 18) (- 2) = Ok (mkdate 2026 11 4).
Proof.
  apply (add_weeks_round_trip (mkdate 2026 11 4) (mkdate 2026 11 18) 2
           ltac:(valid_date_by_computation) eq_refl).
Defined.

(** The year and month of a date, counted in months. *)
Lemma months_unique (y1 m1 y2 m2 : Z) :
  1 ≤ m1 ≤ 12 → 1 ≤ m2 ≤ 12 → 12 * y1 + m1 = 12 * y2 + m2 → y1 = y2 ∧ m1 = m2.
Proof. lia. Qed.

Lemma add_months_reaches (d : date) (n y m : Z) :
  valid_date d → 1 ≤ m ≤ 12 → MINYEAR ≤ y ≤ MAXYEAR →
  12 * y + m = 12 * year d + month d + n →
  add_months d n = Ok (mkdate y m (Z.min (day d) (days_in_month y m))).
Proof.
  intros Hv Hm Hy Hs. destruct (add_months_cases d n Hv) as (Hm' & Hs' & ->).
  simpl in Hm', Hs'.
  destruct (months_unique (year d + (month d - 1 + n) `div` 12)
              ((month d - 1 + n) `mod` 12 + 1) y m Hm' Hm) as [-> ->]; [lia|].
  destruct Hy as [Hy1 Hy2]. apply Z.leb_le in Hy1, Hy2. by rewrite Hy1, Hy2.
Qed.

(** X3: going [n] months forward and [n] months back ends in the month and
    year one started from; the day of the month is the clamped one, never
    later than the original, and the original date itself whenever no
    clamping took place (always for a day up to the 28th). *)
Theorem add_months_round_trip (d d' : date) (n : Z) :
  valid_date d → add_months d n = Ok d' →
  add_months d' (- n) = Ok (mkdate (year d) (month d) (day d'))
  ∧ day d' ≤ day d
  ∧ (day d ≤ 28 ∨ day d' = day d → add_months d' (- n) = Ok d).
Proof.
  intros Hv H. destruct (add_months_Ok d n d' Hv H) as (Hv' & Hs & Hd).
  pose proof Hv as (Hy & Hm & Hday). pose proof Hv' as (Hy' & Hm' & Hday').
  pose proof (days_in_month_pos (year d') (month d') Hm') as Hdim'.
  assert (add_months d' (- n) = Ok (mkdate (year d) (month d) (day d'))) as Hback.
  { rewrite (add_months_reaches d' (- n) (year d) (month d)) by (done || lia).
    do 2 f_equal. lia. }
  split; [done|]. split; [lia|].
  intros Hsame. rewrite Hback. f_equal.
  destruct d as [y m dd]. simpl in *. f_equal. lia.
Qed.

Lemma add_months_round_trip_witness :
  add_months (mkdate 2024 2 29) (- 1) = Ok (mkdate 2024 1 29).
Proof.
  destruct (add_months_round_trip (mkdate 2024 1 31) (mkdate 2024 2 29) 1
              ltac:(valid_date_by_computation) eq_refl) as (H & _).
  exact H.
Defined.

(** X4: two [add_months] in a row reach the month that one [add_months] by
    the sum reaches, with a day of the month that is never later, and the very
    same date when the day is at most the 28th. *)
Theorem add_months_twice (d d1 d2 : date) (a b : Z) :
  valid_date d → add_months d a = Ok d1 → add_months d1 b = Ok d2 →
  ∃ d3, add_months d (a + b) = Ok d3
        ∧ year d2 = year d3 ∧ month d2 = month d3 ∧ day d2 ≤ day d3
        ∧ (day d ≤ 28 → d2 = d3).
Proof.
  intros Hv H1 H2. destruct (add_months_Ok d a d1 Hv H1) as (Hv1 & Hs1 & Hd1).
  destruct (add_months_Ok d1 b d2 Hv1 H2) as (Hv2 & Hs2 & Hd2).
  pose proof Hv2 as (Hy2 & Hm2 & Hday2).
  pose proof (proj1 (proj2 Hv1)) as Hm1.
  pose proof (days_in_month_pos (year d1) (month d1) Hm1) as Hdim1.
  pose proof (days_in_month_pos (year d2) (month d2) Hm2) as Hdim2.
  eexists. split.
  { apply (add_months_reaches d (a + b) (year d2) (month d2)); [done..|lia]. }
  simpl. split_and!; try done; [lia|].
  intros Hsmall. destruct d2 as [y2 m2 dd2]. simpl in *. f_equal. lia.
Qed.

Lemma add_months_twice_witness :
  ∃ d3, add_months (mkdate 2024 1 31) (1 + 1) = Ok d3
        ∧ day (mkdate 2024 3 29) ≤ day d3.
Proof.
  destruct (add_months_twice (mkdate 2024 1 31) (mkdate 2024 2 29)
              (mkdate 2024 3 29) 1 1 ltac:(valid_date_by_computation)
              eq_refl eq_refl) as (d3 & H & _ & _ & Hd & _).
  by exists d3.
Defined.

Lemma date_ltb_months (d1 d2 : date) :
  valid_date d1 → valid_date d2 →
  date_ltb d1 d2 = true ↔
  12 * year d1 + month d1 < 12 * year d2 + month d2
  ∨ (12 * year d1 + month d1 = 12 * year d2 + month d2 ∧ day d1 < day d2).
Proof.
  intros (_ & Hm1 & _) (_ & Hm2 & _). unfold date_ltb.
  rewrite !orb_true_iff, !andb_true_iff, !orb_true_iff, !andb_true_iff,
    !Z.ltb_lt, !Z.eqb_eq.
  lia.
Qed.

(** X5: [add_months] keeps the order of dates: of two dates the later one is
    moved to a date that is not before the one the earlier is moved to (two
    dates can meet on the last day of a month), and zero months is no move. *)
Theorem add_months_monotone (d1 d2 d1' d2' : date) (n : Z) :
  valid_date d1 → valid_date d2 → date_ltb d1 d2 = true →
  add_months d1 n = Ok d1' → add_months d2 n = Ok d2' →
  date_ltb d2' d1' = false ∧ add_months d1 0 = Ok d1.
Proof.
  intros Hv1 Hv2 Hlt H1 H2.
  destruct (add_months_Ok d1 n d1' Hv1 H1) as (Hv1' & Hs1 & Hd1).
  destruct (add_months_Ok d2 n d2' Hv2 H2) as (Hv2' & Hs2 & Hd2).
  pose proof Hv1 as (Hy1 & Hm1 & Hday1). pose proof Hv2 as (Hy2 & Hm2 & Hday2).
  pose proof Hv1' as (Hy1' & Hm1' & Hday1'). pose proof Hv2' as (Hy2' & Hm2' & Hday2').
  split.
  - apply date_ltb_months in Hlt; [|done..]. apply not_true_is_false.
    intros Hgt. apply date_ltb_months in Hgt; [|done..].
    destruct Hlt as [Hlt|[Hlt Hd]]; [lia|].
    destruct (months_unique (year d1') (month d1') (year d2') (month d2')
                Hm1' Hm2' ltac:(lia)) as [Ey Em].
    rewrite Ey, Em in *. lia.
  - rewrite (add_months_reaches d1 0 (year d1) (month d1)) by (done || lia).
    destruct d1 as [y m dd]. simpl in *. do 2 f_equal. lia.
Qed.

Lemma add_months_monotone_witness :
  date_ltb (mkdate 2024 2 29) (mkdate 2024 2 29) = false.
Proof.
  apply (add_months_monotone (mkdate 2024 1 30) (mkdate 2024 1 31)
           (mkdate 2024 2 29) (mkdate 2024 2 29) 1
           ltac:(valid_date_by_computation) ltac:(valid_date_by_computation)
           eq_refl eq_refl eq_refl).
Defined.

(** ** The encoder and the decoder *)

Lemma CycleEnum_members_name (c : CycleEnum) :
  CycleEnum_members (CycleEnum_name c) = Some c.
Proof. by destruct c. Qed.

Lemma DueDateType_members_name (k : DueDateType) :
  DueDateType_members (DueDateType_name k) = Some k.
Proof. by destruct k. Qed.

Lemma DayOfWeek_members_name (w : DayOfWeek) :
  DayOfWeek_members (DayOfWeek_name w) = Some w.
Proof. by destruct w. Qed.

Ltac member_by_name s :=
  repeat match goal with
         | |- context [String.eqb s ?k] =>
             destruct (String.eqb_spec s k) as [->|?]; [by intros [= <-]|]
         end;
  done.

Lemma CycleEnum_members_Some (s : string) (c : CycleEnum) :
  CycleEnum_members s = Some c → s = CycleEnum_name c.
Proof. unfold CycleEnum_members. member_by_name s. Qed.

Lemma DueDateType_members_Some (s : string) (k : DueDateType) :
  DueDateType_members s = Some k → s = DueDateType_name k.
Proof. unfold DueDateType_members. member_by_name s. Qed.

Lemma DayOfWeek_members_Some (s : string) (w : DayOfWeek) :
  DayOfWeek_members s = Some w → s = DayOfWeek_name w.
Proof. unfold DayOfWeek_members. member_by_name s. Qed.

Lemma enum_getitem_Ok {E} (members : string → option E) (v : pyval) (e : E) :
  enum_getitem members v = Ok e ↔ ∃ s, v = PyStr s ∧ members s = Some e.
Proof.
  split.
  - destruct v; simpl; try done. destruct (members s) eqn:Hs; [|done].
    intros [= ->]. eauto.
  - intros (s & -> & Hs). simpl. by rewrite Hs.
Qed.

Lemma enum_getitem_Raise {E} (members : string → option E) (v : pyval) (e : exn) :
  enum_getitem members v = Raise e → e = KeyError ∨ e = TypeError.
Proof.
  destruct v; simpl; try (intros [= <-]; by auto).
  destruct (members s); [done|]. intros [= <-]. by left.
Qed.

(** The decoder on a record that has the four main fields. *)
Lemma decode_item_main_fields (item : gmap string pyval) (nm amt vc vt : pyval) :
  item !! "name"%string = Some nm → item !! "amount"%string = Some amt →
  item !! "cycle"%string = Some vc → item !! "due_date_type"%string = Some vt →
  decode_item item =
    c ← enum_getitem CycleEnum_members vc;
    k ← enum_getitem DueDateType_members vt;
    match k with
    | Daily => BudgetItem_init nm amt c PyNone
    | Date =>
        payload ← require_due_date item;
        match payload with
        | PyDict fields =>
            _ ← require_fields required_date_fields fields;
            d ← date_of_kwargs fields;
            BudgetItem_init nm amt c (PyDate d)
        | _ => Raise (ValueError NotADateRecord)
        end
    | DateNumber =>
        payload ← require_due_date item;
        BudgetItem_init nm amt c payload
    | WeekDay =>
        payload ← require_due_date item;
        match enum_getitem DayOfWeek_members payload with
        | Ok d => BudgetItem_init nm amt c (PyDayOfWeek d)
        | Raise KeyError => Raise (ValueError NotADayOfWeek)
        | Raise e => Raise e
        | Diverged => Diverged
        end
    end.
Proof.
  intros Hn Ha Hc Ht. unfold decode_item, required_main_fields, getitem.
  simpl require_fields. rewrite Hn, Ha, Hc, Ht. reflexivity.
Qed.

Lemma main_fields_present (item : gmap string pyval) :
  first_missing required_main_fields item = None →
  ∃ nm amt vc vt,
    item !! "name"%string = Some nm ∧ item !! "amount"%string = Some amt
    ∧ item !! "cycle"%string = Some vc ∧ item !! "due_date_type"%string = Some vt.
Proof.
  simpl.
  destruct (item !! "name"%string) as [nm|]; [|done].
  destruct (item !! "amount"%string) as [amt|]; [|done].
  destruct (item !! "cycle"%string) as [vc|]; [|done].
  destruct (item !! "due_date_type"%string) as [vt|]; [|done].
  intros _. by exists nm, amt, vc, vt.
Qed.

(** [date] called on a dict that has the three keys: the values in the order
    year, month, day. *)
Lemma date_of_kwargs_three (fields : gmap string pyval) (vy vm vd : pyval) :
  fields !! "year"%string = Some vy → fields !! "month"%string = Some vm →
  fields !! "day"%string = Some vd →
  date_of_kwargs fields =
    if decide (size fields = 3%nat) then
      y ← as_c_int vy; m ← as_c_int vm; d ← as_c_int vd; date_new y m d
    else Raise TypeError.
Proof.
  intros Hy Hm Hd. unfold date_of_kwargs, getitem. rewrite Hy, Hm, Hd.
  reflexivity.
Qed.

Lemma date_new_valid (d : date) :
  valid_date d → date_new (year d) (month d) (day d) = Ok d.
Proof.
  intros Hv. unfold date_new.
  assert (valid_dateb (mkdate (year d) (month d) (day d)) = true) as ->.
  { destruct d. by apply valid_dateb_spec. }
  by destruct d.
Qed.

Lemma date_new_Ok (y m d : Z) (x : date) :
  date_new y m d = Ok x → x = mkdate y m d ∧ valid_date x.
Proof.
  unfold date_new. destruct (valid_dateb _) eqn:E; [|done].
  intros [= <-]. split; [done|]. by apply valid_dateb_spec.
Qed.

Lemma as_c_int_valid (d : date) :
  valid_date d →
  as_c_int (PyInt (year d)) = Ok (year d) ∧ as_c_int (PyInt (month d)) = Ok (month d)
  ∧ as_c_int (PyInt (day d)) = Ok (day d).
Proof.
  intros (Hy & Hm & Hd). unfold MINYEAR, MAXYEAR in Hy.
  pose proof (days_in_month_pos (year d) (month d) Hm) as Hdim.
  assert (∀ n, 1 ≤ n ≤ 9999 → as_c_int (PyInt n) = Ok n) as Hint.
  { intros n Hn. simpl.
    assert ((- 2 ^ 31 <=? n) = true) as -> by (apply Z.leb_le; lia).
    assert ((n <? 2 ^ 31) = true) as -> by (apply Z.ltb_lt; lia).
    done. }
  split_and!; apply Hint; lia.
Qed.

(** The record [default] builds for an item the constructor has built is
    read back as that item. *)
Lemma default_then_decode_item (nm amt : pyval) (c : CycleEnum) (v : pyval)
    (item : BudgetItem pyval) :
  supported_due_date v = true → (∀ d, v = PyDate d → valid_date d) →
  BudgetItem_init nm amt c v = Ok item →
  ∃ json_repr, default item = Encoded json_repr ∧ decode_item json_repr = Ok item.
Proof.
  intros Hs Hv Hi.
  destruct v as [|b|n|f|s|l|m|w|d]; simpl in Hs, Hi; try discriminate Hs;
    injection Hi as <-; (eexists; split; [reflexivity|]).
  - erewrite decode_item_main_fields by reflexivity.
    simpl. by rewrite CycleEnum_members_name.
  - erewrite decode_item_main_fields by reflexivity.
    simpl. by rewrite CycleEnum_members_name.
  - erewrite decode_item_main_fields by reflexivity.
    simpl. by rewrite CycleEnum_members_name.
  - erewrite decode_item_main_fields by reflexivity.
    simpl enum_getitem. rewrite CycleEnum_members_name. simpl.
    unfold require_due_date.
    rewrite lookup_insert_ne, lookup_insert by done. simpl.
    by rewrite DayOfWeek_members_name.
  - erewrite decode_item_main_fields by reflexivity.
    simpl enum_getitem. rewrite CycleEnum_members_name. simpl.
    unfold require_due_date.
    rewrite lookup_insert_ne, lookup_insert by done. simpl.
    erewrite date_of_kwargs_three by reflexivity.
    destruct (as_c_int_valid d (Hv d eq_refl)) as (-> & -> & ->).
    rewrite decide_True by reflexivity. simpl.
    by rewrite (date_new_valid d (Hv d eq_refl)).
Qed.

(** What a record that decodes holds, and the constructor call that made the
    item. *)
Lemma decode_item_Ok (item : gmap string pyval) (b : BudgetItem pyval) :
  decode_item item = Ok b →
  ∃ nm amt c k v,
    item !! "name"%string = Some nm ∧ item !! "amount"%string = Some amt
    ∧ item !! "cycle"%string = Some (PyStr (CycleEnum_name c))
    ∧ item !! "due_date_type"%string = Some (PyStr (DueDateType_name k))
    ∧ BudgetItem_init nm amt c v = Ok b
    ∧ (∀ d, v = PyDate d → k ≠ DateNumber → valid_date d)
    ∧ match k with
      | Daily => v = PyNone
      | DateNumber => item !! "due_date"%string = Some v
      | WeekDay =>
          ∃ w, v = PyDayOfWeek w
               ∧ item !! "due_date"%string = Some (PyStr (DayOfWeek_name w))
      | Date =>
          ∃ d fields, v = PyDate d
                      ∧ item !! "due_date"%string = Some (PyDict fields)
      end.
Proof.
  intros H.
  destruct (first_missing required_main_fields item) as [f|] eqn:Hmain.
  { apply decode_item_missing_main_field in Hmain. congruence. }
  destruct (main_fields_present item Hmain) as (nm & amt & vc & vt & Hn & Ha & Hc & Ht).
  rewrite (decode_item_main_fields item nm amt vc vt Hn Ha Hc Ht) in H.
  apply bind_Ok in H as (c & Hc' & H). apply bind_Ok in H as (k & Hk' & H).
  apply enum_getitem_Ok in Hc' as (sc & -> & ->%CycleEnum_members_Some).
  apply enum_getitem_Ok in Hk' as (sk & -> & ->%DueDateType_members_Some).
  assert (∀ P : pyval → Prop, (∀ v, item !! "due_date"%string = Some v → P v) →
            ∀ v, require_due_date item = Ok v → P v) as Hdue.
  { intros P HP v. unfold require_due_date.
    destruct (item !! "due_date"%string) as [v'|]; [|done]. intros [= <-]. by apply HP. }
  destruct k.
  - apply bind_Ok in H as (payload & Hp & H). revert payload Hp H.
    apply (Hdue (λ payload, _ → _)). intros payload Hp H.
    destruct (enum_getitem DayOfWeek_members payload) as [w|e|] eqn:Hw;
      [|by destruct e|done].
    apply enum_getitem_Ok in Hw as (sw & -> & ->%DayOfWeek_members_Some).
    exists nm, amt, c, WeekDay, (PyDayOfWeek w). split_and!; try done.
    by exists w.
  - apply bind_Ok in H as (payload & Hp & H). revert payload Hp H.
    apply (Hdue (λ payload, _ → _)). intros payload Hp H.
    exists nm, amt, c, DateNumber, payload. by split_and!.
  - apply bind_Ok in H as (payload & Hp & H). revert payload Hp H.
    apply (Hdue (λ payload, _ → _)). intros payload Hp H.
    destruct payload as [| | | | | |fields| |]; try done.
    apply bind_Ok in H as (_ & _ & H). apply bind_Ok in H as (d & Hd & H).
    exists nm, amt, c, Date, (PyDate d). split_and!; try done.
    + intros d' [= <-] _. unfold date_of_kwargs in Hd. case_decide; [|done].
      do 6 (apply bind_Ok in Hd as (? & _ & Hd)).
      by apply date_new_Ok in Hd as [_ ?].
    + by exists d, fields.
  - exists nm, amt, c, Daily, PyNone. by split_and!.
Qed.

(** What [decode_item] raises once the four main fields are there and name
    a cycle and a kind. *)
Lemma decode_item_kind_raises (item : gmap string pyval) (nm amt vc vt : pyval)
    (c : CycleEnum) (k : DueDateType) (e : exn) :
  item !! "name"%string = Some nm → item !! "amount"%string = Some amt →
  item !! "cycle"%string = Some vc → item !! "due_date_type"%string = Some vt →
  enum_getitem CycleEnum_members vc = Ok c →
  enum_getitem DueDateType_members vt = Ok k →
  decode_item item = Raise e →
  (∃ ve, e = ValueError ve) ∨ e = TypeError ∨ e = OverflowError.
Proof.
  intros Hn Ha Hc Ht Hc' Hk' H.
  rewrite (decode_item_main_fields item nm amt vc vt Hn Ha Hc Ht), Hc', Hk' in H.
  simpl in H.
  assert (∀ v, as_c_int v = Raise e → e = TypeError ∨ e = OverflowError) as Hint.
  { intros v. destruct v; simpl; try (intros [= <-]; by auto).
    destruct (_ && _); [done|]. intros [= <-]. by auto. }
  assert (∀ (n : pyval) a c v, BudgetItem_init n a c v ≠ Raise e) as Hinit
    by (intros n a c' v; by destruct v).
  unfold require_due_date in H.
  destruct k; simpl in H.
  - destruct (item !! "due_date"%string) as [payload|]; simpl in H;
      [|injection H as <-; left; by eexists].
    destruct (enum_getitem DayOfWeek_members payload) as [w|e'|] eqn:Hw;
      [(discriminate H || by apply Hinit in H)| |done].
    apply enum_getitem_Raise in Hw as [-> | ->]; injection H as <-;
      [left; by eexists|by auto].
  - destruct (item !! "due_date"%string) as [payload|]; simpl in H;
      [(discriminate H || by apply Hinit in H)|injection H as <-; left; by eexists].
  - destruct (item !! "due_date"%string) as [payload|]; simpl in H;
      [|injection H as <-; left; by eexists].
    destruct payload as [| | | | | |fields| |];
      try (injection H as <-; left; by eexists).
    destruct (fields !! "day"%string) as [vd|] eqn:Hd;
      [|injection H as <-; left; by eexists].
    destruct (fields !! "month"%string) as [vm|] eqn:Hm;
      [|injection H as <-; left; by eexists].
    destruct (fields !! "year"%string) as [vy|] eqn:Hy;
      [|injection H as <-; left; by eexists].
    simpl in H. rewrite (date_of_kwargs_three fields vy vm vd Hy Hm Hd) in H.
    case_decide; [|injection H as <-; by auto].
    destruct (as_c_int vy) as [y|e'|] eqn:Ey; simpl in H;
      [|injection H as <-; right; by apply (Hint vy)|done].
    destruct (as_c_int vm) as [m|e'|] eqn:Em; simpl in H;
      [|injection H as <-; right; by apply (Hint vm)|done].
    destruct (as_c_int vd) as [d|e'|] eqn:Ed; simpl in H;
      [|injection H as <-; right; by apply (Hint vd)|done].
    unfold date_new in H. destruct (valid_dateb _); simpl in H;
      [(discriminate H || by apply Hinit in H)|].
    injection H as <-. left. by eexists.
  - (discriminate H || by apply Hinit in H).
Qed.

(** Every exception of [decode_item], and where a [KeyError] comes from. *)
Lemma decode_item_raises (item : gmap string pyval) (e : exn) :
  decode_item item = Raise e →
  (∃ ve, e = ValueError ve) ∨ e = TypeError ∨ e = OverflowError
  ∨ (e = KeyError
     ∧ ∃ nm amt vc vt,
         item !! "name"%string = Some nm ∧ item !! "amount"%string = Some amt
         ∧ item !! "cycle"%string = Some vc
         ∧ item !! "due_date_type"%string = Some vt
         ∧ (enum_getitem CycleEnum_members vc = Raise KeyError
            ∨ ((∃ c, enum_getitem CycleEnum_members vc = Ok c)
               ∧ enum_getitem DueDateType_members vt = Raise KeyError))).
Proof.
  intros H.
  destruct (first_missing required_main_fields item) as [f|] eqn:Hmain.
  { apply decode_item_missing_main_field in Hmain. rewrite Hmain in H.
    injection H as <-. left. by eexists. }
  destruct (main_fields_present item Hmain) as (nm & amt & vc & vt & Hn & Ha & Hc & Ht).
  destruct (enum_getitem CycleEnum_members vc) as [c|e1|] eqn:Hc'.
  - destruct (enum_getitem DueDateType_members vt) as [k|e2|] eqn:Hk'.
    + destruct (decode_item_kind_raises item nm amt vc vt c k e Hn Ha Hc Ht Hc' Hk' H)
        as [?|[?|?]]; by auto.
    + rewrite (decode_item_main_fields item nm amt vc vt Hn Ha Hc Ht), Hc', Hk' in H.
      injection H as <-.
      destruct (enum_getitem_Raise _ _ _ Hk') as [-> | ->]; [|by auto].
      do 3 right. split; [done|]. exists nm, amt, vc, vt. split_and!; try done.
      right. split; [by exists c|done].
    + rewrite (decode_item_main_fields item nm amt vc vt Hn Ha Hc Ht), Hc', Hk' in H.
      done.
  - rewrite (decode_item_main_fields item nm amt vc vt Hn Ha Hc Ht), Hc' in H.
    injection H as <-.
    destruct (enum_getitem_Raise _ _ _ Hc') as [-> | ->]; [|by auto].
    do 3 right. split; [done|]. exists nm, amt, vc, vt. split_and!; try done.
    by left.
  - rewrite (decode_item_main_fields item nm amt vc vt Hn Ha Hc Ht), Hc' in H.
    done.
Qed.

(** X6: a budget of items built by the constructor is written and read back
    unchanged: [default] gives a record for every item, and [decode] on these
    records returns the very items, in their order. *)
Theorem default_decode_round_trip (budget : list (BudgetItem pyval)) :
  Forall constructed budget →
  ∃ records,
    Forall2 (λ item record, default item = Encoded record) budget records
    ∧ decode records = Ok budget.
Proof.
  induction 1 as [|item budget (nm & amt & c & v & Hs & Hv & Hi) _ (records & IH1 & IH2)].
  - exists []. by split.
  - destruct (default_then_decode_item nm amt c v item Hs Hv Hi) as (r & Hr1 & Hr2).
    exists (r :: records). split; [by constructor|].
    unfold decode in *. simpl. by rewrite Hr2, IH2.
Qed.

Lemma default_decode_round_trip_witness :
  ∃ records,
    Forall2 (λ item record, default item = Encoded record)
      [mkBudgetItem (PyStr "Sewer") (PyInt (-165)) QUARTERLY (Some Date)
         (Some (PyDate (mkdate 2019 1 10)))] records
    ∧ decode records
      = Ok [mkBudgetItem (PyStr "Sewer") (PyInt (-165)) QUARTERLY (Some Date)
              (Some (PyDate (mkdate 2019 1 10)))].
Proof.
  apply default_decode_round_trip. constructor; [|constructor].
  exists (PyStr "Sewer"), (PyInt (-165)), QUARTERLY, (PyDate (mkdate 2019 1 10)).
  split; [reflexivity|]. split; [|reflexivity].
  intros d [= <-]. valid_date_by_computation.
Defined.

(** X7: on an item the constructor has built, [default] never reads an
    unassigned [due_date_type]; it fails, with [AttributeError], exactly when
    the [due_date] was one the constructor has no branch for; and the record
    it returns holds the item's name, amount and cycle name, names the item's
    own kind, and has a [due_date] entry for every kind but Daily. *)
Theorem default_outcome (nm amt : pyval) (c : CycleEnum) (v : pyval)
    (item : BudgetItem pyval) :
  BudgetItem_init nm amt c v = Ok item →
  default item ≠ UnboundLocalError
  ∧ (supported_due_date v = false ↔ default item = EncodeRaise AttributeError)
  ∧ (supported_due_date v = true ↔ ∃ record, default item = Encoded record)
  ∧ ∀ record, default item = Encoded record →
      record !! "name"%string = Some nm ∧ record !! "amount"%string = Some amt
      ∧ record !! "cycle"%string = Some (PyStr (CycleEnum_name c))
      ∧ (∀ key, is_Some (record !! key) →
           key ∈ ["name"; "amount"; "cycle"; "due_date"; "due_date_type"]%string)
      ∧ ∃ kind, due_date_type item = Some kind
                ∧ record !! "due_date_type"%string
                  = Some (PyStr (DueDateType_name kind))
                ∧ (kind = Daily ↔ record !! "due_date"%string = None).
Proof.
  intros Hi.
  destruct v as [|b|n|f|s|l|m|w|d]; simpl in Hi; injection Hi as <-;
    (split; [done|]); (split; [by split|]);
    (split; [split; [done || by eexists|done || by intros [? [=]]]|]);
    try (by intros ? [=]).
  all: intros record [= <-]; split_and!; try reflexivity.
  all: try (intros key Hk; apply elem_of_dom in Hk;
            rewrite !dom_insert_L, dom_singleton_L in Hk;
            repeat (apply elem_of_union in Hk as [Hk|Hk]);
            apply elem_of_singleton in Hk; subst key; repeat constructor).
  - exists Daily. by split_and!.
  - exists DateNumber. split_and!; try reflexivity. by split.
  - exists DateNumber. split_and!; try reflexivity. by split.
  - exists WeekDay. split_and!; try reflexivity. by split.
  - exists Date. split_and!; try reflexivity. by split.
Qed.

Lemma default_outcome_witness :
  default (mkBudgetItem (PyStr "Rent") (PyInt (-50)) MONTHLY None None)
  = EncodeRaise AttributeError.
Proof.
  destruct (default_outcome (PyStr "Rent") (PyInt (-50)) MONTHLY
              (PyStr "tomorrow") _ eq_refl) as (_ & H & _).
  by apply H.
Defined.

(** X8: an item that came out of the decoder is written back to a record
    that decodes to the same item, unless the item is one without a kind (a
    DateNumber record whose [due_date] was no [int]), on which the encoder
    fails with [AttributeError]. *)
Theorem decode_default_decode (record : gmap string pyval)
    (item : BudgetItem pyval) :
  decode_item record = Ok item →
  (∀ d, record !! "due_date"%string = Some (PyDate d) → valid_date d) →
  (due_date_type item = None ∧ default item = EncodeRaise AttributeError)
  ∨ (∃ record', default item = Encoded record' ∧ decode_item record' = Ok item).
Proof.
  intros H Hrec.
  destruct (decode_item_Ok record item H)
    as (nm & amt & c & k & v & _ & _ & _ & _ & Hi & Hv & Hk).
  destruct (supported_due_date v) eqn:Hs.
  - right. apply (default_then_decode_item nm amt c v item Hs); [|done].
    intros d ->. destruct (decide (k = DateNumber)) as [->|Hne]; [|by apply Hv].
    by apply Hrec.
  - left. destruct v; simpl in Hs; try discriminate Hs; by injection Hi as <-.
Qed.

Lemma decode_default_decode_witness :
  ∃ record', default (mkBudgetItem (PyStr "Gas") (PyInt (-40)) WEEKLY
                        (Some WeekDay) (Some (PyDayOfWeek Friday)))
             = Encoded record'
             ∧ decode_item record'
               = Ok (mkBudgetItem (PyStr "Gas") (PyInt (-40)) WEEKLY
                       (Some WeekDay) (Some (PyDayOfWeek Friday))).
Proof.
  destruct (decode_default_decode good_record
              (mkBudgetItem (PyStr "Gas") (PyInt (-40)) WEEKLY
                 (Some WeekDay) (Some (PyDayOfWeek Friday))) eq_refl)
    as [[H _]|H]; [by intros d [=]|discriminate H|exact H].
Defined.

(** X9: what a decoded item holds.  Name, amount and cycle are those of the
    record; the attribute [due_date] exists whenever a kind was set; a Daily,
    WeekDay or Date record gives an item of that kind (a Date item holds a date
    of the calendar), whereas for a DateNumber record the kind follows the
    value of [due_date]: DateNumber for an [int], Daily for [null], and no
    kind at all for a string, a float, a list or an object. *)
Theorem decode_item_well_formed (record : gmap string pyval)
    (item : BudgetItem pyval) :
  decode_item record = Ok item →
  record !! "name"%string = Some (name item)
  ∧ record !! "amount"%string = Some (amount item)
  ∧ record !! "cycle"%string = Some (PyStr (CycleEnum_name (cycle item)))
  ∧ has_due_date item
  ∧ ((∀ d, record !! "due_date"%string = Some (PyDate d) → valid_date d) →
     dates_valid item)
  ∧ ∃ k, record !! "due_date_type"%string = Some (PyStr (DueDateType_name k))
         ∧ match k with
           | Daily => due_date_type item = Some Daily ∧ due_date item = Some PyNone
           | WeekDay =>
               due_date_type item = Some WeekDay
               ∧ ∃ w, record !! "due_date"%string = Some (PyStr (DayOfWeek_name w))
                      ∧ due_date item = Some (PyDayOfWeek w)
           | Date =>
               due_date_type item = Some Date
               ∧ ∃ d, due_date item = Some (PyDate d) ∧ valid_date d
           | DateNumber =>
               ∃ v, record !! "due_date"%string = Some v
                    ∧ match v with
                      | PyInt _ | PyBool _ =>
                          due_date_type item = Some DateNumber
                          ∧ due_date item = Some v
                      | PyNone =>
                          due_date_type item = Some Daily ∧ due_date item = Some v
                      | PyDayOfWeek _ =>
                          due_date_type item = Some WeekDay ∧ due_date item = Some v
                      | PyDate _ =>
                          due_date_type item = Some Date ∧ due_date item = Some v
                      | _ => due_date_type item = None ∧ due_date item = None
                      end
           end.
Proof.
  intros H.
  destruct (decode_item_Ok record item H)
    as (nm & amt & c & k & v & Hn & Ha & Hc & Ht & Hi & Hv & Hk).
  destruct (BudgetItem_init_well_formed nm amt c v item Hi) as [Hhas Hdates].
  assert (name item = nm ∧ amount item = amt ∧ cycle item = c) as (-> & -> & ->)
    by (destruct v; by injection Hi as <-).
  split_and!; try done.
  - intros Hrec. apply Hdates. intros d ->.
    destruct (decide (k = DateNumber)) as [->|Hne]; [by apply Hrec|by apply Hv].
  - exists k. split; [done|]. destruct k.
    + destruct Hk as (w & -> & Hw). injection Hi as <-. split; [done|]. by exists w.
    + exists v. split; [done|]. destruct v; by injection Hi as <-.
    + destruct Hk as (d & fields & -> & Hf). injection Hi as <-. split; [done|].
      exists d. split; [done|]. by apply Hv.
    + subst v. by injection Hi as <-.
Qed.

Lemma decode_item_well_formed_witness :
  has_due_date (mkBudgetItem (PyStr "Gas") (PyInt (-40)) WEEKLY
                  (Some WeekDay) (Some (PyDayOfWeek Friday))).
Proof.
  destruct (decode_item_well_formed good_record
              (mkBudgetItem (PyStr "Gas") (PyInt (-40)) WEEKLY
                 (Some WeekDay) (Some (PyDayOfWeek Friday))) eq_refl)
    as (_ & _ & _ & H & _).
  exact H.
Defined.

(** X10: [decode_item] raises a [KeyError] exactly for a record that has the
    four main fields and whose [cycle], or else whose [due_date_type], is not
    the name of a member; no lookup after these two can raise one.  It never
    raises an [IndexError] or an [AttributeError]. *)
Theorem decode_item_KeyError (record : gmap string pyval) :
  (decode_item record = Raise KeyError ↔
     ∃ nm amt vc vt,
       record !! "name"%string = Some nm ∧ record !! "amount"%string = Some amt
       ∧ record !! "cycle"%string = Some vc
       ∧ record !! "due_date_type"%string = Some vt
       ∧ (enum_getitem CycleEnum_members vc = Raise KeyError
          ∨ ((∃ c, enum_getitem CycleEnum_members vc = Ok c)
             ∧ enum_getitem DueDateType_members vt = Raise KeyError)))
  ∧ decode_item record ≠ Raise IndexError
  ∧ decode_item record ≠ Raise AttributeError.
Proof.
  split_and!.
  - split.
    + intros H. destruct (decode_item_raises record KeyError H)
        as [[ve [=]]|[[=]|[[=]|[_ Hk]]]]. exact Hk.
    + intros (nm & amt & vc & vt & Hn & Ha & Hc & Ht & Hk).
      rewrite (decode_item_main_fields record nm amt vc vt Hn Ha Hc Ht).
      destruct Hk as [-> |[[c ->] ->]]; reflexivity.
  - intros H. by destruct (decode_item_raises record IndexError H)
      as [[ve [=]]|[[=]|[[=]|[[=] _]]]].
  - intros H. by destruct (decode_item_raises record AttributeError H)
      as [[ve [=]]|[[=]|[[=]|[[=] _]]]].
Qed.

(** X11: a Date record with a known cycle.  A [due_date] that is no object
    is rejected as such; an object that lacks [day], [month] or [year] is
    rejected naming the first one absent in that order; one with all three and
    any further key is a [TypeError]; and one with exactly the three keys and
    integers that fit a C [int] decodes to the Date item of that date when it
    is a date of the calendar, and raises the date's [ValueError] when not. *)
Theorem decode_item_Date_record (record : gmap string pyval) (nm amt : pyval)
    (c : CycleEnum) (payload : pyval) :
  record !! "name"%string = Some nm → record !! "amount"%string = Some amt →
  record !! "cycle"%string = Some (PyStr (CycleEnum_name c)) →
  record !! "due_date_type"%string = Some (PyStr "Date") →
  record !! "due_date"%string = Some payload →
  ((∀ fields, payload ≠ PyDict fields) →
     decode_item record = Raise (ValueError NotADateRecord))
  ∧ ∀ fields, payload = PyDict fields →
      (∀ field, first_missing required_date_fields fields = Some field →
         decode_item record = Raise (ValueError (MissingField field)))
      ∧ (first_missing required_date_fields fields = None →
         size fields ≠ 3%nat → decode_item record = Raise TypeError)
      ∧ (∀ y m d,
           fields = {[ "year"%string := PyInt y; "month"%string := PyInt m;
                       "day"%string := PyInt d ]} →
           - 2 ^ 31 ≤ y < 2 ^ 31 → - 2 ^ 31 ≤ m < 2 ^ 31 → - 2 ^ 31 ≤ d < 2 ^ 31 →
           decode_item record =
             if valid_dateb (mkdate y m d)
             then Ok (mkBudgetItem nm amt c (Some Date) (Some (PyDate (mkdate y m d))))
             else Raise (ValueError DateOutOfRange)).
Proof.
  intros Hn Ha Hc Ht Hd.
  rewrite (decode_item_main_fields record nm amt _ _ Hn Ha Hc Ht).
  simpl enum_getitem. rewrite CycleEnum_members_name.
  unfold require_due_date. rewrite Hd.
  change (DueDateType_members "Date") with (Some Date).
  cbn [mbind result_bind mret result_ret].
  split.
  - intros Hnd. destruct payload; try done. by destruct (Hnd m).
  - intros fields ->. rewrite require_fields_first_missing. split_and!.
    + by intros field ->.
    + intros -> Hsize. cbn [mbind result_bind]. unfold date_of_kwargs.
      by rewrite decide_False.
    + intros y m d -> Hy Hm Hdd.
      assert (∀ n, - 2 ^ 31 ≤ n < 2 ^ 31 → as_c_int (PyInt n) = Ok n) as Hint.
      { intros n Hr. simpl.
        assert ((- 2 ^ 31 <=? n) = true) as -> by (apply Z.leb_le; lia).
        assert ((n <? 2 ^ 31) = true) as -> by (apply Z.ltb_lt; lia).
        done. }
      change (first_missing required_date_fields _) with (@None string).
      cbn [mbind result_bind].
      erewrite date_of_kwargs_three by reflexivity.
      rewrite decide_True by reflexivity.
      rewrite (Hint y Hy), (Hint m Hm), (Hint d Hdd).
      cbn [mbind result_bind]. unfold date_new.
      by destruct (valid_dateb _).
Qed.

Lemma decode_item_Date_record_witness :
  let record : gmap string pyval :=
    {[ "name"%string := PyStr "Sewer"; "amount"%string := PyInt (-165);
       "cycle"%string := PyStr "QUARTERLY";
       "due_date_type"%string := PyStr "Date";
       "due_date"%string :=
         PyDict {[ "year"%string := PyInt 2019; "month"%string := PyInt 2;
                   "day"%string := PyInt 30 ]} ]} in
  decode_item record = Raise (ValueError DateOutOfRange).
Proof.
  intros record.
  destruct (decode_item_Date_record record (PyStr "Sewer") (PyInt (-165)) QUARTERLY
              _ eq_refl eq_refl eq_refl eq_refl eq_refl) as [_ H].
  destruct (H _ eq_refl) as (_ & _ & H3).
  apply (H3 2019 2 30 eq_refl); lia.
Defined.

(** ** When the forecast returns *)

Lemma balance_add_addable (b : spec_float) (v : pyval) :
  addable v = true → ∃ b', balance_add b v = Ok b'.
Proof.
  destruct v as [|x|n|f|s|l|m|w|d]; simpl; try done.
  - intros _. destruct x; by eexists.
  - unfold float_of_int. destruct (float_of_Z n); try done; intros _; by eexists.
  - intros _. by eexists.
Qed.

Lemma apply_item_addable (st : spec_float * gmap string pyval)
    (item : BudgetItem string) :
  addable (amount item) = true → ∃ st', apply_item st item = Ok st'.
Proof.
  intros Ha. unfold apply_item.
  destruct (balance_add_addable st.1 (amount item) Ha) as [b' ->]. by eexists.
Qed.

(** Before the last year of the calendar the steps of the advancing cycles
    return. *)
Lemma cycle_step_returns (c : CycleEnum) (step : date → result date) (x : date) :
  cycle_step c = Some step → valid_date x → year x < MAXYEAR →
  ∃ x', step x = Ok x' ∧ valid_date x' ∧ toordinal x < toordinal x'.
Proof.
  intros Hc Hv Hy. pose proof (cycle_step_advancing c step Hc x Hv) as Hadv.
  destruct (step x) as [x'|e|] eqn:E; [by exists x'| |done].
  destruct (cycle_step_raises c step x e Hc Hv E) as [_ ?]. lia.
Qed.

Lemma set_due_date_engine_ready (item : BudgetItem string) (d : date) :
  engine_ready item → valid_date d → engine_ready (set_due_date item d).
Proof.
  intros (Ha & Hh & Hd) Hv. split_and!; [done|by intros _; eexists|].
  intros _. by exists d.
Qed.

Lemma normalize_item_returns (d0 : date) (rest : list date)
    (item : BudgetItem string) :
  valid_date d0 → year d0 < MAXYEAR → engine_ready item →
  ∃ item', normalize_item (d0 :: rest) item = Ok item' ∧ engine_ready item'.
Proof.
  intros Hv0 Hy0 Hr. pose proof Hr as (Ha & Hh & Hd).
  destruct (decide (due_date_type item = Some Date)) as [Ht|Ht].
  2:{ exists item. split; [by apply normalize_item_not_Date|done]. }
  destruct (Hd Ht) as (d & Hdue & Hvd).
  rewrite (normalize_item_Date d0 rest item d Ht Hdue).
  destruct (date_ltb d d0) eqn:Hlt; [|by exists item].
  destruct (cycle_step (cycle item)) as [step|] eqn:Hc; [|by exists item].
  destruct (advance_until_terminates step (cycle_step_advancing _ _ Hc) d0 rest Hv0
              (Z.to_nat (toordinal d0 - toordinal d)) d Hvd ltac:(lia))
    as [(k & d' & -> & _ & Hvd' & Hge & _)|(k & x & e & _ & _ & Hvx & Hx & He)].
  - exists (set_due_date item d'). split; [done|].
    by apply set_due_date_engine_ready.
  - destruct (cycle_step_raises _ _ x e Hc Hvx He) as [_ Hmax].
    apply date_ltb_year in Hx. lia.
Qed.

(** One item on one day of a year before the last. *)
Lemma day_item_returns (t : date) (st : spec_float * gmap string pyval)
    (item : BudgetItem string) :
  valid_date t → year t < MAXYEAR → engine_ready item →
  ∃ st' item', day_item t st item = Ok (st', item') ∧ engine_ready item'.
Proof.
  intros Hvt Hyt Hr. pose proof Hr as (Ha & Hh & Hd).
  destruct (apply_item_addable st item Ha) as [st1 Hst1].
  unfold day_item.
  destruct (due_date_type item) as [[| | |]|] eqn:Ht.
  - destruct (Hh ltac:(by eexists)) as [v Hv].
    unfold getattr_due_date. rewrite Hv. simpl.
    rewrite DayOfWeek_of_isoweekday. simpl.
    destruct (eq_DayOfWeek v _); [rewrite Hst1; simpl|]; by do 2 eexists.
  - destruct (Hh ltac:(by eexists)) as [v Hv].
    unfold getattr_due_date. rewrite Hv. simpl.
    destruct (eq_int v _); [rewrite Hst1; simpl|]; by do 2 eexists.
  - destruct (Hd eq_refl) as (d & Hdd & Hvd).
    unfold getattr_due_date. rewrite Hdd. simpl.
    destruct (bool_decide (d = t)) eqn:Hdt; [|by exists st, item].
    apply bool_decide_eq_true in Hdt as ->. rewrite Hst1. simpl.
    assert (∀ step, cycle_step (cycle item) = Some step →
              ∃ item', (d' ← step t; Ok (st1, set_due_date item d'))
                       = Ok (st1, item') ∧ engine_ready item') as Hstep.
    { intros step Hc.
      destruct (cycle_step_returns _ step t Hc Hvt Hyt) as (t' & -> & Hvt' & Hlt).
      exists (set_due_date item t'). split; [done|].
      by apply set_due_date_engine_ready. }
    destruct (cycle item) eqn:Hcy;
      try (destruct (Hstep _ eq_refl) as (item' & E & ?); by exists st1, item');
      by exists st1, item.
  - rewrite Hst1. simpl. by do 2 eexists.
  - by do 2 eexists.
Qed.

Lemma day_items_returns (t : date) (budget : list (BudgetItem string))
    (st : spec_float * gmap string pyval) :
  valid_date t → year t < MAXYEAR → Forall engine_ready budget →
  ∃ st' budget', day_items t st budget = Ok (st', budget')
                 ∧ Forall engine_ready budget'.
Proof.
  intros Hvt Hyt Hr. revert st.
  induction Hr as [|item budget Hitem _ IH]; intros st.
  - by exists st, [].
  - destruct (day_item_returns t st item Hvt Hyt Hitem) as (st1 & item' & E1 & Hr1).
    destruct (IH st1) as (st2 & budget' & E2 & Hr2).
    exists st2, (item' :: budget'). simpl. rewrite E1. simpl. rewrite E2. simpl.
    split; [done|]. by constructor.
Qed.

(** The walk over days of years before the last. *)
Lemma walk_returns (date_list : list date) (f0 : Forecast) :
  Forall (λ t, valid_date t ∧ year t < MAXYEAR) date_list →
  Forall engine_ready (budget_after f0) →
  ∃ f, walk date_list f0 = Ok f ∧ Forall engine_ready (budget_after f).
Proof.
  intros Hdays. revert f0.
  induction Hdays as [|t later [Hvt Hyt] _ IH]; intros f0 Hr.
  - by exists f0.
  - destruct (day_items_returns t (budget_after f0) (daily_balance f0, ∅)
                Hvt Hyt Hr) as ([b trans] & budget' & E & Hr').
    simpl. rewrite E. simpl. by apply IH.
Qed.

(** The days of a window that ends before the last year. *)
Lemma window_before_last_year (start last : date) (duration : Z)
    (date_list : list date) :
  date_add_days start (7 * duration) = Ok last → year last < MAXYEAR →
  make_date_list start duration = Ok date_list →
  Forall (λ t, valid_date t ∧ year t < MAXYEAR) date_list.
Proof.
  intros Hlast Hy Hl. destruct (date_add_days_Ok _ _ _ Hlast) as [Hvl Hol].
  destruct (make_date_list_Ok _ _ _ Hl) as [Hlen Hdays].
  apply Forall_lookup. intros i t Hi.
  destruct (Hdays i t Hi) as (_ & Hvt & Hot). split; [done|].
  apply lookup_lt_Some in Hi.
  assert (date_ltb t last = true) as Hlt.
  { rewrite (date_ltb_toordinal t last Hvt Hvl). apply Z.ltb_lt. lia. }
  apply date_ltb_year in Hlt. lia.
Qed.

Lemma forecast_returns_ready (balance : spec_float) (start last : date)
    (duration : Z) (budget : list (BudgetItem string)) :
  valid_date start → 1 ≤ duration →
  date_add_days start (7 * duration) = Ok last → year last < MAXYEAR →
  Forall engine_ready budget →
  ∃ f, forecast balance start duration budget = Ok f
       ∧ Forall engine_ready (budget_after f).
Proof.
  intros Hv Hd Hlast Hy Hr.
  destruct (date_add_days_Ok _ _ _ Hlast) as [Hvl Hol].
  pose proof (toordinal_range start Hv) as Hos.
  pose proof (toordinal_range last Hvl) as Hof.
  pose proof (make_date_list_in_range start duration ltac:(lia) ltac:(lia)) as Hl.
  destruct (make_date_list_first start duration _ Hv Hd Hl) as [rest Hrest].
  pose proof (window_before_last_year start last duration _ Hlast Hy Hl) as Hdays.
  rewrite Hrest in Hl, Hdays.
  assert (year start < MAXYEAR) as Hys by (by apply Forall_cons in Hdays as [[_ ?] _]).
  assert (∃ budget1, mapM (normalize_item (start :: rest)) budget = Ok budget1
                     ∧ Forall engine_ready budget1) as (budget1 & Hn & Hr1).
  { clear -Hv Hys Hr. induction Hr as [|item budget Hitem _ (budget1 & IH1 & IH2)].
    - by exists [].
    - destruct (normalize_item_returns start rest item Hv Hys Hitem) as (item' & E & ?).
      exists (item' :: budget1). simpl. rewrite E. simpl. rewrite IH1. simpl.
      split; [done|]. by constructor. }
  rewrite (forecast_run balance start duration budget last _ budget1 Hlast Hl Hn).
  by apply walk_returns.
Qed.

(** X12: the forecast returns, with one row for each of the [7 * duration]
    days, for every window of at least one week that ends before the last
    year of the calendar and every budget of items that have an amount that
    can be added, a [due_date] beside their kind and, for Date items, a date;
    and it leaves such a budget, so that it can be run on it again. *)
Theorem forecast_returns (balance : spec_float) (start last : date)
    (duration : Z) (budget : list (BudgetItem string)) :
  valid_date start → 1 ≤ duration →
  date_add_days start (7 * duration) = Ok last → year last < MAXYEAR →
  Forall engine_ready budget →
  ∃ f, forecast balance start duration budget = Ok f
       ∧ Z.of_nat (length (balance_list f)) = 7 * duration
       ∧ Forall engine_ready (budget_after f)
       ∧ ∀ balance', ∃ f', forecast balance' start duration (budget_after f) = Ok f'.
Proof.
  intros Hv Hd Hlast Hy Hr.
  destruct (forecast_returns_ready balance start last duration budget Hv Hd Hlast Hy Hr)
    as (f & Hf & Hrf).
  exists f. split; [done|]. split_and!; [|done|].
  - destruct (forecast_Ok _ _ _ _ _ Hf) as (date_list & budget1 & Hl & _ & Hw).
    destruct (walk_Ok _ _ _ Hw) as (Hdates & _).
    destruct (make_date_list_Ok _ _ _ Hl) as [Hlen _].
    apply (f_equal length) in Hdates. rewrite !length_fmap in Hdates.
    simpl in Hdates. lia.
  - intros balance'.
    destruct (forecast_returns_ready balance' start last duration _ Hv Hd Hlast Hy Hrf)
      as (f' & Hf' & _).
    by exists f'.
Qed.

Lemma forecast_returns_witness :
  ∃ f, forecast example_balance (mkdate 2026 11 4) 2 example_budget = Ok f
       ∧ Z.of_nat (length (balance_list f)) = 7 * 2.
Proof.
  destruct (forecast_returns example_balance (mkdate 2026 11 4) (mkdate 2026 11 18)
              2 example_budget ltac:(valid_date_by_computation) ltac:(lia)
              eq_refl ltac:(unfold MAXYEAR; simpl; lia))
    as (f & Hf & Hlen & _).
  - unfold example_budget. repeat (apply Forall_cons; split); [..|apply Forall_nil_2].
    + split_and!; [done|by intros _; eexists|intros [=]].
    + split_and!; [done|by intros _; eexists|intros [=]].
    + split_and!; [done|by intros _; eexists|intros [=]].
    + split_and!; [done|by intros _; eexists|].
      intros _. exists (mkdate 2019 1 10). split; [done|valid_date_by_computation].
    + split_and!; [done|by intros _; eexists|].
      intros _. exists (mkdate 2019 4 14). split; [done|valid_date_by_computation].
  - exists f. split; [exact Hf|exact Hlen].
Defined.

(** ** Where the forecast leaves the due dates *)

Lemma normalize_item_due_from (d0 : date) (rest : list date)
    (item item' : BudgetItem string) :
  valid_date d0 → dates_valid item →
  normalize_item (d0 :: rest) item = Ok item' →
  dates_valid item' ∧ due_from (toordinal d0) item'.
Proof.
  intros Hv0 Hdv H.
  destruct (decide (due_date_type item = Some Date)) as [Ht|Ht].
  2:{ rewrite (normalize_item_not_Date _ _ Ht) in H. injection H as <-.
      split; [done|]. by intros ?. }
  assert (∃ d, due_date item = Some (PyDate d)) as [d Hd].
  { unfold normalize_item in H. rewrite decide_True in H by done.
    apply bind_Ok in H as ([d before] & Hb & _).
    unfold due_date_before_first, getattr_due_date in Hb.
    destruct (due_date item) as [v|]; [|done]. simpl in Hb.
    destruct v; try done. by eexists. }
  pose proof (Hdv d Hd) as Hvd.
  rewrite (normalize_item_Date d0 rest item d Ht Hd) in H.
  destruct (date_ltb d d0) eqn:Hlt.
  2:{ injection H as <-. split; [done|]. intros _ _. exists d.
      split_and!; [done..|].
      rewrite (date_ltb_toordinal d d0 Hvd Hv0) in Hlt. by apply Z.ltb_ge in Hlt. }
  destruct (cycle_step (cycle item)) as [step|] eqn:Hc.
  2:{ injection H as <-. split; [done|]. intros _ Hadv.
      destruct (cycle item); done. }
  destruct (advance_until_terminates step (cycle_step_advancing _ _ Hc) d0 rest Hv0
              (Z.to_nat (toordinal d0 - toordinal d)) d Hvd ltac:(lia))
    as [(k & d' & E & _ & Hvd' & Hge & _)|(k & x & e & E & _)];
    rewrite E in H; [|done].
  injection H as <-. split.
  - intros d1 [= <-]. done.
  - intros _ _. exists d'. split_and!; [done..|].
    rewrite (date_ltb_toordinal d' d0 Hvd' Hv0) in Hge. by apply Z.ltb_ge in Hge.
Qed.

Lemma day_item_due_from (t : date) (st st' : spec_float * gmap string pyval)
    (item item' : BudgetItem string) :
  valid_date t → dates_valid item → due_from (toordinal t) item →
  day_item t st item = Ok (st', item') →
  dates_valid item' ∧ due_from (toordinal t + 1) item'.
Proof.
  intros Hvt Hdv Hdue H.
  destruct (day_item_Ok t st st' item item' H)
    as [(Hn & Ha & Hc & Hty & Hsame) Hfires].
  destruct (decide (due_date_type item = Some Date
                    ∧ advancing_cycle (cycle item) = true)) as [[Ht Hadv]|Hno].
  2:{ assert (item' = item) as ->.
      { destruct Hsame as [?|(? & ? & _)]; [done|]. destruct Hno. by split. }
      split; [done|]. intros ? ?. destruct Hno. by split. }
  destruct (Hdue Ht Hadv) as (d & Hd & Hvd & Hle).
  rewrite (day_item_Date t st item d Ht Hd) in H.
  destruct (bool_decide (d = t)) eqn:Hdt.
  - apply bool_decide_eq_true in Hdt as ->.
    apply bind_Ok in H as (st1 & _ & H).
    destruct (cycle_step (cycle item)) as [step|] eqn:Hcs;
      [|destruct (cycle item); done].
    apply bind_Ok in H as (t' & Ht' & H). injection H as <- <-.
    pose proof (cycle_step_advancing _ step Hcs t Hvt) as Hstep.
    rewrite Ht' in Hstep. destruct Hstep as [Hvt' Hlt].
    split; [by intros d1 [= <-]|].
    intros _ _. exists t'. split_and!; [done..|lia].
  - injection H as <- <-. split; [done|].
    intros _ _. exists d. split_and!; [done..|].
    apply bool_decide_eq_false in Hdt.
    destruct (decide (toordinal d = toordinal t)) as [E|E]; [|lia].
    destruct Hdt. by apply toordinal_inj.
Qed.

Lemma day_items_due_from (t : date) (budget budget' : list (BudgetItem string))
    (st st' : spec_float * gmap string pyval) :
  valid_date t → Forall dates_valid budget →
  Forall (due_from (toordinal t)) budget →
  day_items t st budget = Ok (st', budget') →
  Forall dates_valid budget' ∧ Forall (due_from (toordinal t + 1)) budget'.
Proof.
  intros Hvt Hdv. revert st budget'.
  induction Hdv as [|item budget Hitem _ IH]; intros st budget' Hdue H.
  - injection H as <- <-. by split.
  - apply Forall_cons in Hdue as [Hd1 Hd2]. simpl in H.
    apply bind_Ok in H as ([st1 item'] & E1 & H).
    apply bind_Ok in H as ([st2 rest'] & E2 & H). injection H as <- <-.
    destruct (day_item_due_from t st st1 item item' Hvt Hitem Hd1 E1) as [? ?].
    destruct (IH st1 rest' Hd2 E2) as [? ?].
    split; by constructor.
Qed.

Lemma walk_due_from (date_list : list date) (o : Z) (f0 f : Forecast) :
  (∀ (i : nat) t, date_list !! i = Some t →
     valid_date t ∧ toordinal t = o + Z.of_nat i) →
  Forall dates_valid (budget_after f0) → Forall (due_from o) (budget_after f0) →
  walk date_list f0 = Ok f →
  Forall dates_valid (budget_after f)
  ∧ Forall (due_from (o + Z.of_nat (length date_list))) (budget_after f).
Proof.
  revert o f0. induction date_list as [|t later IH]; intros o f0 Hdays Hdv Hdue H.
  - injection H as <-. simpl. by rewrite Z.add_0_r.
  - destruct (Hdays 0%nat t eq_refl) as (Hvt & Hot).
    simpl in Hot. rewrite Z.add_0_r in Hot. subst o.
    simpl in H. apply bind_Ok in H as ([[b trans] budget'] & E & H).
    destruct (day_items_due_from t _ budget' _ _ Hvt Hdv Hdue E) as [Hdv' Hdue'].
    replace (toordinal t + Z.of_nat (length (t :: later))) with
      (toordinal t + 1 + Z.of_nat (length later)) by (simpl length; lia).
    eapply IH; [| | |exact H]; [|exact Hdv'|exact Hdue'].
    intros i t' Hi. destruct (Hdays (S i) t' Hi) as (? & ?). split; [done|lia].
Qed.

(** X13: a forecast that returns leaves every Date item of an advancing
    cycle (biweekly, bimonthly, quarterly, yearly) due on a date after the
    window: on or after the day [start + 7 * duration], hence on none of the
    days of the timeline, where the item as left would not fire. *)
Theorem forecast_leaves_items_due_later (balance : spec_float) (start : date)
    (duration : Z) (budget : list (BudgetItem string)) (f : Forecast) :
  valid_date start → 1 ≤ duration → Forall dates_valid budget →
  forecast balance start duration budget = Ok f →
  ∀ item', item' ∈ budget_after f →
    due_date_type item' = Some Date → advancing_cycle (cycle item') = true →
    ∃ d', due_date item' = Some (PyDate d') ∧ valid_date d'
          ∧ toordinal start + 7 * duration ≤ toordinal d'
          ∧ ∀ e, e ∈ balance_list f →
              date_ltb (entry_date e) d' = true ∧ fires (entry_date e) item' = false.
Proof.
  intros Hv Hd Hdv Hf item' Hin Ht Hadv.
  destruct (forecast_Ok _ _ _ _ _ Hf) as (date_list & budget1 & Hl & Hn & Hw).
  destruct (make_date_list_first start duration _ Hv Hd Hl) as [rest ->].
  destruct (make_date_list_Ok _ _ _ Hl) as [Hlen Hdays].
  assert (Forall dates_valid budget1 ∧ Forall (due_from (toordinal start)) budget1)
    as [Hdv1 Hdue1].
  { apply mapM_Ok in Hn. clear -Hn Hdv Hv.
    induction Hn as [|item item1 budget budget1 E _ IH]; [by split|].
    apply Forall_cons in Hdv as [Hi Hdv].
    destruct (normalize_item_due_from start rest item item1 Hv Hi E) as [? ?].
    destruct (IH Hdv) as [? ?]. split; by constructor. }
  assert (∀ (i : nat) t, (start :: rest) !! i = Some t →
            valid_date t ∧ toordinal t = toordinal start + Z.of_nat i) as Hdays'
    by (intros i t Hi; by destruct (Hdays i t Hi) as (_ & ? & ?)).
  destruct (walk_due_from _ (toordinal start)
              (mkForecast [] [] balance budget1) f Hdays' Hdv1 Hdue1 Hw)
    as [Hdvf Hduef].
  rewrite Forall_forall in Hduef.
  destruct (Hduef item' Hin Ht Hadv) as (d' & Hd' & Hvd' & Hle).
  rewrite Hlen in Hle.
  exists d'. split_and!; [done..|lia|].
  intros e He. destruct (walk_Ok _ _ _ Hw) as (Hdates & _). simpl in Hdates.
  apply list_elem_of_lookup in He as [i Hi].
  assert ((start :: rest) !! i = Some (entry_date e)) as Hti.
  { rewrite <- Hdates, list_lookup_fmap, Hi. done. }
  destruct (Hdays i _ Hti) as (_ & Hvt & Hot).
  apply lookup_lt_Some in Hti.
  assert (date_ltb (entry_date e) d' = true) as Hlt.
  { rewrite (date_ltb_toordinal _ _ Hvt Hvd'). apply Z.ltb_lt. lia. }
  split; [done|].
  rewrite (fires_Date _ item' d' Ht Hd'). apply bool_decide_eq_false.
  intros ->. by rewrite date_ltb_irrefl in Hlt.
Qed.

Lemma forecast_leaves_items_due_later_witness :
  ∃ f d', forecast example_balance (mkdate 2026 11 4) 2 example_budget = Ok f
          ∧ budget_after f !! 3%nat = Some (set_due_date sewer d')
          ∧ toordinal (mkdate 2026 11 4) + 7 * 2 ≤ toordinal d'.
Proof.
  destruct (forecast example_balance (mkdate 2026 11 4) 2 example_budget)
    as [f|e|] eqn:Hf; [|vm_compute in Hf; discriminate Hf..].
  assert (budget_after f !! 3%nat = Some (set_due_date sewer (mkdate 2027 1 10)))
    as Hitem.
  { pose proof Hf as Hf'. vm_compute in Hf'. injection Hf' as <-. reflexivity. }
  assert (Forall dates_valid example_budget) as Hdv.
  { unfold example_budget. repeat (apply Forall_cons; split); [..|apply Forall_nil_2];
      intros d [= <-]; valid_date_by_computation. }
  destruct (forecast_leaves_items_due_later example_balance (mkdate 2026 11 4) 2
              example_budget f ltac:(valid_date_by_computation) ltac:(lia) Hdv Hf
              (set_due_date sewer (mkdate 2027 1 10))
              ltac:(apply list_elem_of_lookup; by exists 3%nat) eq_refl eq_refl)
    as (d' & Hd' & _ & Hle & _).
  injection Hd' as <-.
  exists f, (mkdate 2027 1 10). split; [reflexivity|]. split; [exact Hitem|exact Hle].
Defined.

(** ** A longer window *)

Lemma mapM_app {A B} (f : A → result B) (l1 l2 : list A) :
  mapM f (l1 ++ l2) = xs ← mapM f l1; ys ← mapM f l2; Ok (xs ++ ys).
Proof.
  induction l1 as [|a l1 IH]; simpl.
  - by destruct (mapM f l2).
  - destruct (f a); simpl; [|done..]. rewrite IH.
    destruct (mapM f l1); simpl; [|done..]. by destruct (mapM f l2).
Qed.

Lemma mapM_ext_in {A B} (f g : A → result B) (l : list A) :
  (∀ x, x ∈ l → f x = g x) → mapM f l = mapM g l.
Proof.
  induction l as [|a l IH]; intros H; simpl; [done|].
  rewrite (H a) by apply list_elem_of_here.
  rewrite IH; [done|]. intros x Hx. apply H. by apply list_elem_of_further.
Qed.

Lemma walk_app (l1 l2 : list date) (f0 : Forecast) :
  walk (l1 ++ l2) f0 = f ← walk l1 f0; walk l2 f.
Proof.
  revert f0. induction l1 as [|t l1 IH]; intros f0; simpl; [done|].
  destruct (day_items t _ _) as [[[b trans] budget]|e|]; simpl; [|done..].
  apply IH.
Qed.

(** The walk only appends rows. *)
Lemma walk_extends (date_list : list date) (f0 f : Forecast) :
  walk date_list f0 = Ok f →
  ∃ rows, balance_list f = balance_list f0 ++ rows
          ∧ daily_balance_list f = daily_balance_list f0 ++ (entry_balance <$> rows)
          ∧ length rows = length date_list.
Proof.
  revert f0. induction date_list as [|t later IH]; intros f0 H.
  - injection H as <-. exists []. by rewrite !app_nil_r.
  - simpl in H. apply bind_Ok in H as ([[b trans] budget'] & E & H).
    destruct (IH _ H) as (rows & Hr1 & Hr2 & Hlen). simpl in Hr1, Hr2.
    exists (mkEntry t b trans :: rows).
    rewrite Hr1, Hr2, <- !app_assoc. simpl. by rewrite Hlen.
Qed.

(** Phase 1 looks at the first day of the window only. *)
Lemma advance_until_first (fuel : nat) (step : date → result date)
    (d0 : date) (r1 r2 : list date) (d : date) :
  advance_until fuel step (d0 :: r1) d = advance_until fuel step (d0 :: r2) d.
Proof.
  revert d. induction fuel as [|fuel IH]; intros d; simpl; [done|].
  destruct (date_ltb d d0); [|done]. destruct (step d); simpl; by rewrite ?IH.
Qed.

Lemma normalize_item_first (d0 : date) (r1 r2 : list date)
    (item : BudgetItem string) :
  normalize_item (d0 :: r1) item = normalize_item (d0 :: r2) item.
Proof.
  unfold normalize_item. case_decide; [|done].
  unfold due_date_before_first, loop_fuel, first_day.
  destruct (getattr_due_date item) as [v|e|]; simpl; [|done..].
  destruct v; simpl; try done. destruct (date_ltb d d0); [|done].
  destruct (cycle item); try done;
    by rewrite (advance_until_first _ _ d0 r1 r2).
Qed.

(** X14: a forecast over a longer window starts with the forecast over the
    shorter one.  If the forecast over [n + m] weeks returns, the one over [n]
    weeks returns as well, and its rows and balances are the first [7 * n]
    rows and balances of the longer one. *)
Theorem forecast_prefix (balance : spec_float) (start : date) (n m : Z)
    (budget : list (BudgetItem string)) (f2 : Forecast) :
  valid_date start → 1 ≤ n → 0 ≤ m →
  forecast balance start (n + m) budget = Ok f2 →
  ∃ f1, forecast balance start n budget = Ok f1
        ∧ balance_list f1 = take (Z.to_nat (7 * n)) (balance_list f2)
        ∧ daily_balance_list f1 = take (Z.to_nat (7 * n)) (daily_balance_list f2).
Proof.
  intros Hv Hn Hm Hf.
  unfold forecast in Hf. apply bind_Ok in Hf as (last2 & Hlast2 & Hf).
  apply bind_Ok in Hf as (date_list & Hl & Hf).
  apply bind_Ok in Hf as (budget1 & Hb & Hw).
  destruct (date_add_days_Ok _ _ _ Hlast2) as [Hvl Hol].
  pose proof (toordinal_range start Hv) as Hos.
  pose proof (toordinal_range last2 Hvl) as Hof.
  pose proof (make_date_list_in_range start n ltac:(lia) ltac:(lia)) as Hl1.
  rewrite (make_date_list_in_range start (n + m) ltac:(lia) ltac:(lia)) in Hl.
  injection Hl as <-.
  replace ((n + m) * 7) with (n * 7 + m * 7) in Hb, Hw by lia.
  rewrite seqZ_app, fmap_app in Hb, Hw by lia.
  set (l1 := (λ x, fromordinal (toordinal start + x)) <$> seqZ 0 (n * 7)) in *.
  set (l2 := (λ x, fromordinal (toordinal start + x)) <$> seqZ (0 + n * 7) (m * 7)) in *.
  destruct (make_date_list_first start n l1 Hv Hn Hl1) as [rest Hrest].
  assert (date_add_days start (7 * n) = Ok (fromordinal (toordinal start + 7 * n)))
    as Hlast1 by (apply date_add_days_in_range; lia).
  assert (mapM (normalize_item l1) budget = Ok budget1) as Hb1.
  { rewrite <- Hb. apply mapM_ext_in. intros item _. rewrite Hrest. simpl.
    apply normalize_item_first. }
  rewrite walk_app in Hw. apply bind_Ok in Hw as (f1 & Hw1 & Hw2).
  exists f1. split.
  { by rewrite (forecast_run balance start n budget _ l1 budget1 Hlast1 Hl1 Hb1). }
  destruct (walk_extends _ _ _ Hw1) as (rows1 & Hr1 & Hd1 & Hlen1).
  destruct (walk_extends _ _ _ Hw2) as (rows2 & Hr2 & Hd2 & Hlen2).
  simpl in Hr1, Hd1. rewrite Hr2, Hd2, Hr1, Hd1.
  assert (length rows1 = Z.to_nat (7 * n)) as Hlen.
  { rewrite Hlen1. unfold l1. rewrite length_fmap, length_seqZ. lia. }
  split.
  - by rewrite take_app_length'.
  - rewrite take_app_length'; [done|]. by rewrite length_fmap.
Qed.

Lemma forecast_prefix_witness :
  ∃ f1 f2, forecast example_balance (mkdate 2026 11 4) 1 example_budget = Ok f1
           ∧ forecast example_balance (mkdate 2026 11 4) (1 + 1) example_budget
             = Ok f2
           ∧ balance_list f1 = take (Z.to_nat (7 * 1)) (balance_list f2).
Proof.
  destruct (forecast example_balance (mkdate 2026 11 4) (1 + 1) example_budget)
    as [f2|e|] eqn:Hf; [|vm_compute in Hf; discriminate Hf..].
  destruct (forecast_prefix example_balance (mkdate 2026 11 4) 1 1 example_budget f2
              ltac:(valid_date_by_computation) ltac:(lia) ltac:(lia) Hf)
    as (f1 & Hf1 & Hrows & _).
  exists f1, f2. split; [exact Hf1|]. split; [reflexivity|exact Hrows].
Defined.

(** ** The rows of the timeline *)

Lemma forecast_row_count (balance : spec_float) (start : date) (duration : Z)
    (budget : list (BudgetItem string)) (f : Forecast) :
  forecast balance start duration budget = Ok f →
  length (balance_list f) = Z.to_nat (duration * 7)
  ∧ daily_balance_list f = entry_balance <$> balance_list f.
Proof.
  intros Hf.
  destruct (forecast_Ok _ _ _ _ _ Hf) as (date_list & budget1 & Hl & _ & Hw).
  destruct (walk_Ok _ _ _ Hw) as (Hdates & _ & Hbal & _).
  destruct (make_date_list_Ok _ _ _ Hl) as [Hlen _].
  split; [|by apply Hbal].
  apply (f_equal length) in Hdates. rewrite !length_fmap in Hdates.
  simpl in Hdates. lia.
Qed.

Lemma same_frame_static (item item' : BudgetItem string) :
  same_frame item item' →
  due_date_type item ≠ Some Date ∨ advancing_cycle (cycle item) = false →
  item' = item.
Proof.
  intros (_ & _ & _ & _ & [?|(Ht & Ha & _)]) [Hn|Hn]; [done| |done|]; congruence.
Qed.

(** Each row of the walk: the state of the budget on that day, and the row
    as the fold of the items that fire over the balance of the row before. *)
Lemma walk_rows (date_list : list date) (f0 f : Forecast) :
  walk date_list f0 = Ok f →
  ∃ rows,
    balance_list f = balance_list f0 ++ rows
    ∧ ∀ (i : nat) e, rows !! i = Some e →
        ∃ budget_i,
          date_list !! i = Some (entry_date e)
          ∧ Forall2 same_frame (budget_after f0) budget_i
          ∧ foldM apply_item
              (match i with
               | O => daily_balance f0
               | S j => from_option entry_balance (daily_balance f0) (rows !! j)
               end, ∅)
              (filter (λ item, fires (entry_date e) item = true) budget_i)
            = Ok (entry_balance e, entry_trans e).
Proof.
  revert f0. induction date_list as [|t later IH]; intros f0 H.
  - injection H as <-. exists []. split; [by rewrite app_nil_r|]. by intros i e.
  - simpl in H. apply bind_Ok in H as ([[b trans] budget'] & E & H).
    destruct (day_items_Ok _ _ _ _ _ E) as [Hframe Hfold].
    destruct (IH _ H) as (rows & Hrows & Hrow). simpl in Hrows, Hrow.
    exists (mkEntry t b trans :: rows). split; [by rewrite Hrows, <- app_assoc|].
    intros [|i] e Hi.
    + injection Hi as <-. exists (budget_after f0). split; [done|].
      split; [|done]. apply Forall2_same_length_lookup_2; [done|].
      intros k x y Hx Hy. rewrite Hx in Hy. injection Hy as <-.
      apply same_frame_refl.
    + destruct (Hrow i e Hi) as (budget_i & Hd & Hfr & Hf).
      exists budget_i. split; [done|]. split.
      { eapply Forall2_trans; [apply same_frame_trans|exact Hframe|exact Hfr]. }
      destruct i as [|j]; [done|]. simpl.
      destruct (rows !! j) eqn:Hj; [done|].
      apply lookup_lt_Some in Hi. apply lookup_ge_None in Hj. simpl in Hi. lia.
Qed.

(** X15: every row of the timeline is the day's fold over the row before.
    On the day of row [i] the budget holds the items of the caller's budget,
    those of a kind or cycle that never moves unchanged; the row's balance is
    the balance of row [i - 1] (the opening balance for the first row) plus
    the amounts of the items that fire that day, added in budget order: their
    binary64 sum ([ieee_sum], the standard library's [SFadd]); and its
    transactions are these items' amounts under their names. *)
Theorem forecast_rows (balance : spec_float) (start : date) (duration : Z)
    (budget : list (BudgetItem string)) (f : Forecast) :
  forecast balance start duration budget = Ok f →
  ∀ (i : nat) e, balance_list f !! i = Some e →
    ∃ budget_i,
      Forall2 same_frame budget budget_i
      ∧ (∀ (k : nat) item, budget !! k = Some item →
           due_date_type item ≠ Some Date ∨ advancing_cycle (cycle item) = false →
           budget_i !! k = Some item)
      ∧ let fired := filter (λ item, fires (entry_date e) item = true) budget_i in
        let before :=
          match i with
          | O => balance
          | S j => from_option entry_balance balance (balance_list f !! j)
          end in
        foldM balance_add before (amount <$> fired) = Ok (entry_balance e)
        ∧ ieee_sum before (amount <$> fired) = Some (entry_balance e)
        ∧ entry_trans e = foldl (λ m item, <[name item := amount item]> m) ∅ fired.
Proof.
  intros Hf i e Hi.
  destruct (forecast_Ok _ _ _ _ _ Hf) as (date_list & budget1 & _ & Hn & Hw).
  destruct (walk_rows _ _ _ Hw) as (rows & Hrows & Hrow). simpl in Hrows, Hrow.
  rewrite Hrows in Hi |- *.
  destruct (Hrow i e Hi) as (budget_i & _ & Hfr & Hfold).
  assert (Forall2 same_frame budget budget_i) as Hframe.
  { apply mapM_Ok in Hn.
    eapply Forall2_trans; [apply same_frame_trans| |exact Hfr].
    eapply Forall2_impl; [exact Hn|]. intros ? ?. apply normalize_item_frame. }
  exists budget_i. split; [done|]. split.
  - intros k item Hk Hstatic.
    destruct (Forall2_lookup_l _ _ _ _ _ Hframe Hk) as (item' & Hk' & Hsf).
    by rewrite Hk', (same_frame_static item item' Hsf Hstatic).
  - apply foldM_apply_item in Hfold as [Hb Htr].
    split_and!; [exact Hb|by apply foldM_balance_add_ieee|exact Htr].
Qed.

Lemma forecast_rows_witness :
  ∃ f, forecast example_balance (mkdate 2026 11 4) 1 [food; snack] = Ok f
       ∧ entry_balance <$> balance_list f !! 0%nat
         = Some (S754_finite false 8444249301319680 (-43)).        (* 960.0 *)
Proof.
  destruct (forecast example_balance (mkdate 2026 11 4) 1 [food; snack])
    as [f|e|] eqn:Hf; [|vm_compute in Hf; discriminate Hf..].
  exists f. split; [reflexivity|].
  destruct (balance_list f !! 0%nat) as [e|] eqn:He.
  2:{ apply lookup_ge_None in He.
      destruct (forecast_row_count _ _ _ _ _ Hf) as [Hlen _].
      rewrite Hlen in He. simpl in He. lia. }
  destruct (forecast_rows example_balance (mkdate 2026 11 4) 1 [food; snack] f Hf
              0%nat e He) as (budget_i & Hframe & Hstatic & _ & Hsum & _).
  assert (budget_i !! 0%nat = Some food) as H0
    by (apply Hstatic; [reflexivity|left; simpl; discriminate]).
  assert (budget_i !! 1%nat = Some snack) as H1
    by (apply Hstatic; [reflexivity|left; simpl; discriminate]).
  apply Forall2_length in Hframe.
  destruct budget_i as [|x [|y [|z rest]]]; try discriminate Hframe.
  injection H0 as ->. injection H1 as ->.
  change (Some (S754_finite false 8444249301319680 (-43)) = Some (entry_balance e))
    in Hsum.
  simpl. by rewrite <- Hsum.
Defined.

(** X16: what a row lists.  Every entry of a row's transactions is the name
    and the amount of an item of the budget; an item of a kind or cycle that
    never moves (WeekDay, DateNumber, Daily, or a Date item of a daily, weekly
    or monthly cycle) is listed on every day on which it fires, with its own
    amount when no other item has its name. *)
Theorem forecast_row_transactions (balance : spec_float) (start : date)
    (duration : Z) (budget : list (BudgetItem string)) (f : Forecast)
    (e : ForecastEntry) :
  forecast balance start duration budget = Ok f → e ∈ balance_list f →
  (∀ n v, entry_trans e !! n = Some v →
     ∃ item, item ∈ budget ∧ name item = n ∧ amount item = v)
  ∧ (∀ item, item ∈ budget →
       due_date_type item ≠ Some Date ∨ advancing_cycle (cycle item) = false →
       fires (entry_date e) item = true →
       is_Some (entry_trans e !! name item)
       ∧ ((∀ other, other ∈ budget → name other = name item → other = item) →
          entry_trans e !! name item = Some (amount item))).
Proof.
  intros Hf He. apply list_elem_of_lookup in He as [i Hi].
  destruct (forecast_Ok _ _ _ _ _ Hf) as (date_list & budget1 & _ & Hn & Hw).
  destruct (walk_rows _ _ _ Hw) as (rows & Hrows & Hrow). simpl in Hrows, Hrow.
  rewrite Hrows in Hi.
  destruct (Hrow i e Hi) as (budget_i & _ & Hfr & Hfold).
  assert (Forall2 same_frame budget budget_i) as Hframe.
  { apply mapM_Ok in Hn.
    eapply Forall2_trans; [apply same_frame_trans| |exact Hfr].
    eapply Forall2_impl; [exact Hn|]. intros ? ?. apply normalize_item_frame. }
  apply foldM_apply_item in Hfold as [_ Htrans].
  assert (∀ n, entry_trans e !! n =
               match last (filter (λ item, name item = n)
                             (filter (λ item, fires (entry_date e) item = true)
                                budget_i)) with
               | Some item => Some (amount item)
               | None => None
               end) as Hlookup.
  { intros n. rewrite Htrans, lookup_foldl_insert. by rewrite lookup_empty. }
  assert (∀ x, x ∈ budget_i → ∃ item, item ∈ budget ∧ same_frame item x) as Hback.
  { intros x [k Hk]%list_elem_of_lookup.
    destruct (Forall2_lookup_r _ _ _ _ _ Hframe Hk) as (item & Hitem & Hsf).
    exists item. split; [|done]. apply list_elem_of_lookup. by exists k. }
  split.
  - intros n v Hv. rewrite Hlookup in Hv.
    destruct (last _) as [x|] eqn:Hlast; [|done]. injection Hv as <-.
    apply last_Some_elem_of in Hlast.
    apply list_elem_of_filter in Hlast as [Hname Hx].
    apply list_elem_of_filter in Hx as [_ Hx].
    destruct (Hback x Hx) as (item & Hin & (Hn' & Ha' & _)).
    exists item. split; [done|]. split; congruence.
  - intros item [k Hk]%list_elem_of_lookup Hstatic Hfires.
    destruct (Forall2_lookup_l _ _ _ _ _ Hframe Hk) as (item' & Hk' & Hsf).
    rewrite (same_frame_static item item' Hsf Hstatic) in Hk'.
    assert (item ∈ filter (λ x, name x = name item)
                      (filter (λ x, fires (entry_date e) x = true) budget_i)) as Hin.
    { apply list_elem_of_filter. split; [done|].
      apply list_elem_of_filter. split; [done|].
      apply list_elem_of_lookup. by exists k. }
    rewrite Hlookup.
    destruct (last _) as [x|] eqn:Hlast.
    2:{ apply last_None in Hlast. rewrite Hlast in Hin. by apply elem_of_nil in Hin. }
    split; [by eexists|].
    intros Huniq. f_equal.
    apply last_Some_elem_of in Hlast.
    apply list_elem_of_filter in Hlast as [Hname Hx].
    apply list_elem_of_filter in Hx as [_ Hx].
    destruct (Hback x Hx) as (orig & Hin' & (Hn' & Ha' & _)).
    rewrite Ha'. f_equal. apply Huniq; [done|congruence].
Qed.

Lemma example_budget_food (other : BudgetItem string) :
  other ∈ example_budget → name other = name food → other = food.
Proof.
  intros Hother Hname. unfold example_budget in Hother.
  repeat (apply elem_of_cons in Hother as [-> |Hother];
          [first [reflexivity | exfalso; vm_compute in Hname; discriminate Hname]|]).
  by apply elem_of_nil in Hother.
Qed.

Lemma forecast_row_transactions_witness :
  ∃ f, forecast example_balance (mkdate 2026 11 4) 1 example_budget = Ok f
       ∧ Forall (λ e, entry_trans e !! "Food"%string = Some (PyInt (-36)))
           (balance_list f).
Proof.
  destruct (forecast example_balance (mkdate 2026 11 4) 1 example_budget)
    as [f|e|] eqn:Hf; [|vm_compute in Hf; discriminate Hf..].
  exists f. split; [reflexivity|]. apply Forall_forall. intros e Hin.
  destruct (forecast_row_transactions example_balance (mkdate 2026 11 4) 1
              example_budget f e Hf Hin) as [_ H].
  assert (food ∈ example_budget) as Hfoodin
    by (apply list_elem_of_lookup; by exists 1%nat).
  assert (due_date_type food ≠ Some Date) as Hkind by (simpl; discriminate).
  assert (fires (entry_date e) food = true) as Hfires by reflexivity.
  destruct (H food Hfoodin (or_introl Hkind) Hfires) as [_ Hfood].
  apply Hfood. apply example_budget_food.
Defined.

(** ** Weekdays in the window *)

Lemma length_filter_fmap {A B} (g : A → B) (P : B → Prop)
    `{!∀ y, Decision (P y)} (l : list A) :
  length (filter P (g <$> l)) = length (filter (λ x, P (g x)) l).
Proof.
  induction l as [|a l IH]; [done|]. rewrite fmap_cons, !filter_cons.
  destruct (decide (P (g a))); simpl; by rewrite IH.
Qed.

Lemma filter_ext_in {A} (P Q : A → Prop) `{!∀ x, Decision (P x)}
    `{!∀ x, Decision (Q x)} (l : list A) :
  (∀ x, x ∈ l → P x ↔ Q x) → filter P l = filter Q l.
Proof.
  induction l as [|a l IH]; intros Hext; [done|]. rewrite !filter_cons.
  rewrite IH by (intros x Hx; apply Hext; by apply list_elem_of_further).
  pose proof (Hext a (list_elem_of_here _ _)) as Ha.
  destruct (decide (P a)), (decide (Q a)); tauto || done.
Qed.

(** Among seven days in a row each residue of the ordinal occurs once. *)
Lemma one_day_a_week (o a r : Z) :
  0 ≤ r < 7 → length (filter (λ x, (o + x) mod 7 = r) (seqZ a 7)) = 1%nat.
Proof.
  intros Hr. replace a with (a + 0) by lia.
  rewrite <- fmap_add_seqZ, length_filter_fmap.
  rewrite (list_filter_iff _ (λ j, (((o + a) mod 7) + j) mod 7 = r)).
  2:{ intros j. by rewrite Z.add_mod_idemp_l, Z.add_assoc by lia. }
  pose proof (Z.mod_pos_bound (o + a) 7 ltac:(lia)) as Hk.
  generalize dependent ((o + a) mod 7). intros k Hk.
  assert (k = 0 ∨ k = 1 ∨ k = 2 ∨ k = 3 ∨ k = 4 ∨ k = 5 ∨ k = 6) as Hkc by lia.
  assert (r = 0 ∨ r = 1 ∨ r = 2 ∨ r = 3 ∨ r = 4 ∨ r = 5 ∨ r = 6) as Hrc by lia.
  destruct Hkc as [-> | [-> | [-> | [-> | [-> | [-> | ->]]]]]];
    destruct Hrc as [-> | [-> | [-> | [-> | [-> | [-> | ->]]]]]];
    reflexivity.
Qed.

Lemma one_day_each_week (o r : Z) (n : nat) :
  0 ≤ r < 7 →
  length (filter (λ x, (o + x) mod 7 = r) (seqZ 0 (7 * Z.of_nat n))) = n.
Proof.
  intros Hr. induction n as [|n IH]; [done|].
  replace (7 * Z.of_nat (S n)) with (7 * Z.of_nat n + 7) by lia.
  rewrite seqZ_app, filter_app, length_app, IH by lia.
  rewrite one_day_a_week by done. lia.
Qed.

Lemma weekday_of_residue (t : date) (w : DayOfWeek) :
  weekday_of t = w ↔ toordinal t mod 7 = DayOfWeek_residue w.
Proof.
  unfold weekday_of, isoweekday.
  pose proof (Z.mod_pos_bound (toordinal t) 7 ltac:(lia)) as Hk.
  generalize dependent (toordinal t mod 7). intros k Hk.
  assert (k = 0 ∨ k = 1 ∨ k = 2 ∨ k = 3 ∨ k = 4 ∨ k = 5 ∨ k = 6) as Hkc by lia.
  destruct Hkc as [-> | [-> | [-> | [-> | [-> | [-> | ->]]]]]];
    destruct w; simpl; split; done.
Qed.

(** X17: a WeekDay item fires on exactly one day of every week of the
    window: in a forecast over [duration] weeks the rows on which it fires
    are [duration] in number, whatever the day the window starts on. *)
Theorem weekday_item_fires_weekly (balance : spec_float) (start : date)
    (duration : Z) (budget : list (BudgetItem string)) (f : Forecast)
    (item : BudgetItem string) (w : DayOfWeek) :
  valid_date start → 0 ≤ duration →
  forecast balance start duration budget = Ok f →
  due_date_type item = Some WeekDay → due_date item = Some (PyDayOfWeek w) →
  length (filter (λ e, fires (entry_date e) item = true) (balance_list f))
  = Z.to_nat duration.
Proof.
  intros Hv Hd Hf Ht Hdue.
  assert (∃ last, date_add_days start (7 * duration) = Ok last) as [last Hlast].
  { unfold forecast in Hf. apply bind_Ok in Hf as (last & Hlast & _). by exists last. }
  destruct (date_add_days_Ok _ _ _ Hlast) as [Hvl Hol].
  pose proof (toordinal_range start Hv) as Hos.
  pose proof (toordinal_range last Hvl) as Hof.
  destruct (forecast_Ok _ _ _ _ _ Hf) as (date_list & budget1 & Hl & _ & Hw).
  destruct (walk_Ok _ _ _ Hw) as (Hdates & _). simpl in Hdates.
  rewrite (make_date_list_in_range start duration ltac:(lia) ltac:(lia)) in Hl.
  injection Hl as <-.
  pose proof (length_filter_fmap entry_date (λ t, fires t item = true)
                (balance_list f)) as Hrows.
  etrans; [symmetry; exact Hrows|].
  rewrite Hdates, length_filter_fmap.
  rewrite (filter_ext_in _ (λ x, (toordinal start + x) mod 7 = DayOfWeek_residue w)).
  - replace (duration * 7) with (7 * Z.of_nat (Z.to_nat duration)) by lia.
    apply one_day_each_week. destruct w; simpl; lia.
  - intros x Hx. apply elem_of_seqZ in Hx.
    destruct (fromordinal_valid (toordinal start + x) ltac:(lia)) as [_ Ho].
    rewrite <- Ho, <- weekday_of_residue.
    unfold fires. rewrite Ht, Hdue. simpl.
    rewrite bool_decide_eq_true. split; congruence.
Qed.

Lemma weekday_item_fires_weekly_witness :
  ∃ f, forecast example_balance (mkdate 2026 11 4) 2 example_budget = Ok f
       ∧ length (filter (λ e, fires (entry_date e) salary = true) (balance_list f))
         = 2%nat.
Proof.
  destruct (forecast example_balance (mkdate 2026 11 4) 2 example_budget)
    as [f|e|] eqn:Hf; [|vm_compute in Hf; discriminate Hf..].
  exists f. split; [reflexivity|].
  apply (weekday_item_fires_weekly example_balance (mkdate 2026 11 4) 2
           example_budget f salary Friday ltac:(valid_date_by_computation)
           ltac:(lia) Hf eq_refl eq_refl).
Defined.

(** ** The example run *)

Lemma run_example_budget_ready :
  ∃ budget, run_example_budget = Ok budget ∧ length budget = 10%nat
            ∧ Forall engine_ready budget.
Proof.
  eexists. split; [reflexivity|]. split; [reflexivity|].
  repeat (apply Forall_cons; split); [..|apply Forall_nil_2];
    (split_and!; [reflexivity|by intros _; eexists|]);
    first [ by intros [=]
          | intros _; eexists; split; [reflexivity|valid_date_by_computation] ].
Qed.

(** X18: [run_example] returns on every day [today] and for every horizon of
    at least one week that ends before the last year of the calendar: its ten
    items are built and can be run, and the forecast has one row for each of
    the [7 * weeks] days, with a balance for every row. *)
Theorem run_example_returns (balance : spec_float) (weeks : Z)
    (today last : date) :
  valid_date today → 1 ≤ weeks →
  date_add_days today (7 * weeks) = Ok last → year last < MAXYEAR →
  ∃ budget f,
    run_example_budget = Ok budget ∧ length budget = 10%nat
    ∧ run_example balance weeks today = Ok f
    ∧ Z.of_nat (length (balance_list f)) = 7 * weeks
    ∧ daily_balance_list f = entry_balance <$> balance_list f
    ∧ length (budget_after f) = length budget.
Proof.
  intros Hv Hw Hlast Hy.
  destruct run_example_budget_ready as (budget & Hb & Hlen & Hr).
  destruct (forecast_returns_ready balance today last weeks budget Hv Hw Hlast Hy Hr)
    as (f & Hf & _).
  exists budget, f. split; [done|]. split; [done|].
  split; [unfold run_example; by rewrite Hb|].
  destruct (forecast_row_count _ _ _ _ _ Hf) as [Hrows Hbal].
  split; [lia|]. split; [done|].
  destruct (forecast_Ok _ _ _ _ _ Hf) as (date_list & budget1 & _ & Hn & Hwalk).
  destruct (walk_Ok _ _ _ Hwalk) as (_ & Hfr & _). simpl in Hfr.
  apply mapM_Ok in Hn.
  by rewrite <- (Forall2_length _ _ _ Hfr), <- (Forall2_length _ _ _ Hn).
Qed.

Lemma run_example_returns_witness :
  ∃ f, run_example example_balance 4 (mkdate 2026 11 4) = Ok f
       ∧ Z.of_nat (length (balance_list f)) = 7 * 4.
Proof.
  destruct (run_example_returns example_balance 4 (mkdate 2026 11 4)
              (mkdate 2026 12 2) ltac:(valid_date_by_computation) ltac:(lia)
              eq_refl ltac:(unfold MAXYEAR; simpl; lia))
    as (budget & f & _ & _ & Hf & Hrows & _).
  exists f. split; [exact Hf|exact Hrows].
Defined.
